(** * Cafe backend: the order routes and the Order schema

    A shallow embedding of [routes/orders.js] (POST /, GET /:orderNumber,
    GET /, PUT /:orderNumber/status) and of [models/Order.js] (the schema,
    its validators and its pre-save hook), with the parts of JavaScript,
    Mongoose and MongoDB they rely on.  Around them: the default menu of
    [models/MenuItem.js] ([createDefaults]), the deletion of a menu item
    ([routes/menu.js], DELETE /:id), and the reservations
    ([routes/reservation.js]: POST /, GET /:id, PUT /:id/status,
    DELETE /:id, with the schema of [models/Reservation.js]).

    - JavaScript numbers are IEEE 754 binary64 values: the kernel's
      primitive floats.  Timestamps ([Date.now()], [Date] fields) are
      non-negative integers (milliseconds since the epoch): [N].
    - Strings are [string], and the texts of requests are ASCII texts:
      on these [trim], [toLowerCase] and [length] are the functions of
      [JS].  JavaScript's white space and letters outside ASCII are not
      modelled.
    - A request body is a JSON object whose members, when present, have
      the type the route expects of them (a string, a number, an object,
      a list of lines); [None] stands for a member that is missing
      ([undefined]).  A [null] member, and a member of another type, on
      which a handler can throw a [TypeError] that its [catch] answers
      with a 500, are outside the requests modelled.
    - A document's [_id] is the text of its ObjectId.  The ids of the
      lines of an order and of the reservation routes are looked up as
      they are written, which is what Mongoose's cast makes of an id
      written as the documents hold theirs; the deletion of a menu item
      models the cast of any id.
    - A collection is the list of its documents in insertion order.
    - A handler runs to completion on the state of the world it is
      given: the routes are [async] functions, and requests are taken
      one at a time.  A handler reads the clock when the request
      arrives; the save of an order reads it again in the pre-save
      hook, after the hook has awaited the database, and the time this
      takes is the platform's ([Delays]).  The clock moves forward
      only. *)

From Stdlib Require Import List String Ascii Bool Arith NArith ZArith Lia.
From Stdlib Require Import PrimFloat SpecFloat FloatOps FloatAxioms.
From Stdlib Require Import Sorted Permutation.
Import ListNotations.

Local Open Scope string_scope.
Local Open Scope list_scope.

(** ** JavaScript primitives *)

Module JS.

(** [!!s] for a string. *)
Definition truthy_string (s : string) : bool := negb (s =? "").

(** [!!x] for a number: false exactly for [0], [-0] and [NaN]. *)
Definition truthy_number (x : float) : bool := negb (is_zero x || is_nan x).

(** [!!v] for a member that may be absent. *)
Definition truthy {A : Type} (t : A -> bool) (v : option A) : bool :=
  match v with
  | Some a => t a
  | None => false
  end.

(** A member inside a template literal: a missing one prints as
    [undefined]. *)
Definition template (v : option string) : string :=
  match v with
  | Some s => s
  | None => "undefined"
  end.

(** The double quote character, for messages that quote a name. *)
Definition dquote : string := String (ascii_of_nat 34) EmptyString.

Definition is_space (c : ascii) : bool :=
  match nat_of_ascii c with
  | 9 | 10 | 11 | 12 | 13 | 32 => true
  | _ => false
  end.

Fixpoint trimStart (s : string) : string :=
  match s with
  | EmptyString => EmptyString
  | String c r => if is_space c then trimStart r else s
  end.

Fixpoint trimEnd (s : string) : string :=
  match s with
  | EmptyString => EmptyString
  | String c r =>
      let r' := trimEnd r in
      if is_space c && (r' =? "") then EmptyString else String c r'
  end.

(** [String.prototype.trim]. *)
Definition trim (s : string) : string := trimEnd (trimStart s).

Definition lower_char (c : ascii) : ascii :=
  let n := nat_of_ascii c in
  if (65 <=? n)%nat && (n <=? 90)%nat then ascii_of_nat (n + 32) else c.

(** [String.prototype.toLowerCase]. *)
Fixpoint toLowerCase (s : string) : string :=
  match s with
  | EmptyString => EmptyString
  | String c r => String (lower_char c) (toLowerCase r)
  end.

(** [s.slice(-k)]: the last [k] characters of [s], all of [s] when it is
    shorter. *)
Fixpoint drop (n : nat) (s : string) : string :=
  match n, s with
  | O, _ => s
  | S _, EmptyString => EmptyString
  | S m, String _ r => drop m r
  end.

Definition slice_last (k : nat) (s : string) : string :=
  drop (length s - k) s.

Fixpoint repeat_char (c : ascii) (n : nat) : string :=
  match n with
  | O => EmptyString
  | S m => String c (repeat_char c m)
  end.

(** [s.padStart(target, c)] for a one-character pad string. *)
Definition padStart (target : nat) (c : ascii) (s : string) : string :=
  repeat_char c (target - length s) ++ s.

Definition digit_char (d : N) : ascii := ascii_of_N (48 + d).

(** The decimal digits of [n], most significant first, in front of [acc].
    [fuel] bounds the number of divisions by ten. *)
Fixpoint digits_acc (fuel : nat) (n : N) (acc : string) : string :=
  let acc' := String (digit_char (n mod 10)) acc in
  match fuel with
  | O => acc'
  | S f => if (n <? 10)%N then acc' else digits_acc f (n / 10) acc'
  end.

(** [Number.prototype.toString] on a non-negative integer. *)
Definition Number_toString (n : N) : string :=
  digits_acc (N.to_nat (N.log2 n)) n EmptyString.

End JS.

(** ** Documents *)

(** A catalog document, with the fields the order routes read. *)
Module MenuItem.
Record t : Type := mk {
  _id : string;
  name : string;
  price : float;
  image : string;
  isAvailable : bool
}.
End MenuItem.

(** [orderItemSchema]: a line item embedded in an order. *)
Module OrderItem.
Record t : Type := mk {
  menuItem : string;
  name : string;
  price : float;
  quantity : float;
  image : string
}.
End OrderItem.

(** [orderSchema]: a stored order and its nested customer and address.
    Orders are stored by POST / only, so every stored order has the
    fields the route, the schema defaults and the pre-save hook give it:
    only [actualDeliveryTime] may be unset. *)
Module Customer.
Record t : Type := mk {
  name : string;
  email : string;
  phone : string
}.
End Customer.

Module Address.
Record t : Type := mk {
  street : string;
  area : string;
  city : string;
  pincode : string;
  landmark : string
}.
End Address.

Module Order.
Record t : Type := mk {
  orderNumber : string;
  customer : Customer.t;
  deliveryAddress : Address.t;
  items : list OrderItem.t;
  subtotal : float;
  deliveryFee : float;
  total : float;
  paymentMethod : string;
  status : string;
  specialInstructions : string;
  estimatedDeliveryTime : N;
  actualDeliveryTime : option N;
  createdAt : N;
  updatedAt : N
}.
End Order.

(** The body of POST /api/orders as the client sends it. *)
Module ReqCustomer.
Record t : Type := mk {
  name : option string;
  email : option string;
  phone : option string
}.
End ReqCustomer.

Module ReqAddress.
Record t : Type := mk {
  street : option string;
  area : option string;
  city : option string;
  pincode : option string;
  landmark : option string
}.
End ReqAddress.

(** A requested line: [name] and [price] are what the client claims about
    the item. *)
Module ReqItem.
Record t : Type := mk {
  menuItemId : option string;
  quantity : option float;
  name : option string;
  price : option float
}.
End ReqItem.

Module Req.
Record t : Type := mk {
  customer : option ReqCustomer.t;
  deliveryAddress : option ReqAddress.t;
  items : option (list ReqItem.t);
  specialInstructions : option string
}.
End Req.

(** ** Responses *)

(** The value a handler hands to [res.json].  [Count] is an integer-valued
    number (a count of documents, a page number), [Date] a [Date] object,
    and [Doc] a populated order document: the stored order with each
    [items.menuItem] reference replaced by the catalog document it names,
    or by [null] when the catalog no longer has it. *)
Module Json.
#[local] Unset Elimination Schemes.
Inductive t : Type :=
| Null
| Bool (b : bool)
| Num (x : float)
| Count (n : N)
| Date (ms : N)
| Str (s : string)
| Arr (elements : list t)
| Obj (members : list (string * t))
| Doc (order : Order.t) (menuItems : list (option MenuItem.t)).
#[local] Set Elimination Schemes.

(** A member whose value may be [undefined]: [res.json] leaves it out. *)
Definition optional (key : string) (v : option t) : list (string * t) :=
  match v with
  | Some j => [(key, j)]
  | None => []
  end.

(** The keys of an object, in order. *)
Definition keys (j : t) : list string :=
  match j with
  | Obj members => map fst members
  | _ => []
  end.

(** [j.key], when [j] is an object that has it. *)
Definition member (key : string) (j : t) : option t :=
  match j with
  | Obj members =>
      match find (fun kv => fst kv =? key) members with
      | Some kv => Some (snd kv)
      | None => None
      end
  | _ => None
  end.
End Json.

Module Res.
Record t : Type := mk {
  status : nat;
  body : Json.t
}.
End Res.

(** ** Mongoose and MongoDB *)

(** A failed schema validator, as Mongoose records it under
    [error.errors]: the path, and the message the schema gives for it when
    it gives one. *)
Inductive ValidatorError : Type :=
| RequiredError (path : string) (message : option string)
| MinError (path : string) (value min : float)
| MaxlengthError (path : string) (value : string) (maxlength : nat)
| NumberCastError (path : string) (value : float).

(** What a handler's [catch] can receive, told apart by [error.name]. *)
Inductive Exception : Type :=
| ValidationError (errors : list ValidatorError)
| CastError (message : string)
| Error (message : string).

(** The time that passes while an order is saved, in milliseconds: from
    the construction of the document, which gives [createdAt] its
    default, to the [Date.now()] of the order number in the pre-save
    hook, which runs after validation and after its own
    [await countDocuments()]; from there to the [Date.now()] of the
    estimated delivery; and from there to the [Date.now()] of
    [updatedAt]. *)
Module Delays.
Record t : Type := mk {
  to_number : N;
  to_estimate : N;
  to_update : N
}.
End Delays.

(** What the server's libraries and environment decide: the syntax of an
    ObjectId ([mongoose.Types.ObjectId.isValid] on a string), the text of
    Mongoose's built-in validator messages, the text of the driver's
    duplicate-key error, [process.env.NODE_ENV], and how long the steps
    of a save take, for a document constructed at a given instant when
    the collection holds a given number of orders. *)
Record Platform : Type := mkPlatform {
  ObjectId_isValid : string -> bool;
  builtinMessage : ValidatorError -> string;
  duplicateKeyMessage : string -> string;
  NODE_ENV : option string;
  save_delays : N -> N -> Delays.t
}.

(** The state of the world: the clock, as a handler reads it first, and
    the two collections. *)
Record World : Type := mkWorld {
  now : N;
  menuitems : list MenuItem.t;
  orders : list Order.t
}.

(** [MenuItem.findById(id)]. *)
Definition MenuItem_findById (w : World) (id : string) : option MenuItem.t :=
  find (fun m => MenuItem._id m =? id) (menuitems w).

(** [Order.findOne({ orderNumber })]. *)
Definition Order_findOne (w : World) (orderNumber : string) : option Order.t :=
  find (fun o => Order.orderNumber o =? orderNumber) (orders w).

(** [mongoose.model('Order').countDocuments()]. *)
Definition Order_countDocuments (w : World) : N :=
  N.of_nat (List.length (orders w)).

(** [.populate('items.menuItem')]: the catalog document of each line. *)
Definition populate (w : World) (o : Order.t) : list (option MenuItem.t) :=
  map (fun i => MenuItem_findById w (OrderItem.menuItem i)) (Order.items o).

(** The object literal given to [new Order(...)]. *)
Module NewOrder.
Record t : Type := mk {
  customer : Customer.t;
  deliveryAddress : Address.t;
  items : list OrderItem.t;
  subtotal : float;
  deliveryFee : float;
  total : float;
  specialInstructions : string
}.
End NewOrder.

(** The schema's setters ([trim], [lowercase]), applied when the document
    is built. *)
Definition orderSchema_set (d : NewOrder.t) : NewOrder.t :=
  let c := NewOrder.customer d in
  let a := NewOrder.deliveryAddress d in
  {| NewOrder.customer :=
       {| Customer.name := JS.trim (Customer.name c);
          Customer.email := JS.toLowerCase (JS.trim (Customer.email c));
          Customer.phone := JS.trim (Customer.phone c) |};
     NewOrder.deliveryAddress :=
       {| Address.street := JS.trim (Address.street a);
          Address.area := JS.trim (Address.area a);
          Address.city := JS.trim (Address.city a);
          Address.pincode := JS.trim (Address.pincode a);
          Address.landmark := JS.trim (Address.landmark a) |};
     NewOrder.items := NewOrder.items d;
     NewOrder.subtotal := NewOrder.subtotal d;
     NewOrder.deliveryFee := NewOrder.deliveryFee d;
     NewOrder.total := NewOrder.total d;
     NewOrder.specialInstructions := JS.trim (NewOrder.specialInstructions d) |}.

(** [required] on a String path: the empty string does not count. *)
Definition required (path : string) (message : option string) (v : string)
  : list ValidatorError :=
  if JS.truthy_string v then [] else [RequiredError path message].

(** A Number path with [min]: [NaN] does not cast, and the value must be
    at least [min]. *)
Definition number_min (path : string) (min v : float) : list ValidatorError :=
  if is_nan v then [NumberCastError path v]
  else if (min <=? v)%float then [] else [MinError path v min].

(** A Number path with no bound. *)
Definition number (path : string) (v : float) : list ValidatorError :=
  if is_nan v then [NumberCastError path v] else [].

Definition maxlength (path : string) (n : nat) (v : string) : list ValidatorError :=
  if (String.length v <=? n)%nat then [] else [MaxlengthError path v n].

(** The validators of [orderItemSchema] on the line at index [i]. *)
Definition orderItemSchema_validate (i : nat) (it : OrderItem.t) : list ValidatorError :=
  let at_ (field : string) :=
    ("items." ++ JS.Number_toString (N.of_nat i) ++ "." ++ field)%string in
  required (at_ "menuItem") None (OrderItem.menuItem it)
  ++ required (at_ "name") None (OrderItem.name it)
  ++ number (at_ "price") (OrderItem.price it)
  ++ number_min (at_ "quantity") 1 (OrderItem.quantity it).

Fixpoint validate_items (i : nat) (l : list OrderItem.t) : list ValidatorError :=
  match l with
  | [] => []
  | it :: rest => orderItemSchema_validate i it ++ validate_items (S i) rest
  end.

(** The validators of [orderSchema] on a new document, in the order the
    schema declares its paths.  [paymentMethod] and [status] take their
    defaults, which their [enum]s hold. *)
Definition orderSchema_validate (d : NewOrder.t) : list ValidatorError :=
  let c := NewOrder.customer d in
  let a := NewOrder.deliveryAddress d in
  required "customer.name" (Some "Customer name is required") (Customer.name c)
  ++ required "customer.email" (Some "Email is required") (Customer.email c)
  ++ required "customer.phone" (Some "Phone number is required") (Customer.phone c)
  ++ required "deliveryAddress.street" (Some "Street address is required") (Address.street a)
  ++ required "deliveryAddress.area" (Some "Area is required") (Address.area a)
  ++ required "deliveryAddress.city" (Some "City is required") (Address.city a)
  ++ required "deliveryAddress.pincode" (Some "Pincode is required") (Address.pincode a)
  ++ validate_items 0 (NewOrder.items d)
  ++ number_min "subtotal" 0 (NewOrder.subtotal d)
  ++ number_min "deliveryFee" 0 (NewOrder.deliveryFee d)
  ++ number_min "total" 0 (NewOrder.total d)
  ++ maxlength "specialInstructions" 500 (NewOrder.specialInstructions d).

(** [orderSchema.pre('save')] on a new document ([this.isNew]), together
    with the defaults the schema gives the fields the route leaves out
    ([paymentMethod], [status], [createdAt]).  The document was
    constructed at [now w]; the hook reads the clock three times, each
    time after the delay [e] gives. *)
Definition orderSchema_pre_save (w : World) (e : Delays.t) (d : NewOrder.t) : Order.t :=
  let count := Order_countDocuments w in
  let numbered_at := (now w + Delays.to_number e)%N in
  let estimated_at := (numbered_at + Delays.to_estimate e)%N in
  let updated_at := (estimated_at + Delays.to_update e)%N in
  {| Order.orderNumber :=
       ("CA" ++ JS.slice_last 6 (JS.Number_toString numbered_at)
             ++ JS.padStart 3 "0" (JS.Number_toString (count + 1)))%string;
     Order.customer := NewOrder.customer d;
     Order.deliveryAddress := NewOrder.deliveryAddress d;
     Order.items := NewOrder.items d;
     Order.subtotal := NewOrder.subtotal d;
     Order.deliveryFee := NewOrder.deliveryFee d;
     Order.total := NewOrder.total d;
     Order.paymentMethod := "cod";
     Order.status := "pending";
     Order.specialInstructions := NewOrder.specialInstructions d;
     Order.estimatedDeliveryTime := (estimated_at + 45 * 60 * 1000)%N;
     Order.actualDeliveryTime := None;
     Order.createdAt := now w;
     Order.updatedAt := updated_at |}.

(** The unique index on [orderNumber]. *)
Definition orderNumber_taken (w : World) (orderNumber : string) : bool :=
  existsb (fun o => Order.orderNumber o =? orderNumber) (orders w).

(** The [$set] of [findOneAndUpdate]. *)
Module UpdateData.
Record t : Type := mk {
  status : string;
  actualDeliveryTime : option N
}.
End UpdateData.

Definition apply_update (u : UpdateData.t) (o : Order.t) : Order.t :=
  {| Order.orderNumber := Order.orderNumber o;
     Order.customer := Order.customer o;
     Order.deliveryAddress := Order.deliveryAddress o;
     Order.items := Order.items o;
     Order.subtotal := Order.subtotal o;
     Order.deliveryFee := Order.deliveryFee o;
     Order.total := Order.total o;
     Order.paymentMethod := Order.paymentMethod o;
     Order.status := UpdateData.status u;
     Order.specialInstructions := Order.specialInstructions o;
     Order.estimatedDeliveryTime := Order.estimatedDeliveryTime o;
     Order.actualDeliveryTime :=
       match UpdateData.actualDeliveryTime u with
       | Some t => Some t
       | None => Order.actualDeliveryTime o
       end;
     Order.createdAt := Order.createdAt o;
     Order.updatedAt := Order.updatedAt o |}.

(** The first document with the given [orderNumber], updated in place:
    the new document ([new: true]) and the collection after the
    update. *)
Fixpoint update_first (orderNumber : string) (u : UpdateData.t) (l : list Order.t)
  : option Order.t * list Order.t :=
  match l with
  | [] => (None, [])
  | o :: rest =>
      if Order.orderNumber o =? orderNumber
      then (Some (apply_update u o), apply_update u o :: rest)
      else let (found, rest') := update_first orderNumber u rest in
           (found, o :: rest')
  end.

(** [Order.findOneAndUpdate({ orderNumber }, updateData, { new: true,
    runValidators: true })].  The update validators ([status]'s [enum])
    hold for every value the route lets through.  No [save] middleware
    runs on this path. *)
Definition Order_findOneAndUpdate (w : World) (orderNumber : string) (u : UpdateData.t)
  : option Order.t * World :=
  let (found, l) := update_first orderNumber u (orders w) in
  (found, {| now := now w; menuitems := menuitems w; orders := l |}).

(** ** The order routes *)

Section Routes.

Variable platform : Platform.

(** [err.message] of a failed validator. *)
Definition errorMessage (e : ValidatorError) : string :=
  match e with
  | RequiredError _ (Some message) => message
  | _ => builtinMessage platform e
  end.

(** The delays of a save that starts in [w]. *)
Definition delays (w : World) : Delays.t :=
  save_delays platform (now w) (Order_countDocuments w).

(** [newOrder.save()]: validation, then the pre-save hook, then the
    insert, which the unique index on [orderNumber] may refuse.  The
    clock has moved on to the hook's last reading when the document is
    stored. *)
Definition Order_save (w : World) (d : NewOrder.t) : Exception + (Order.t * World) :=
  let d := orderSchema_set d in
  match orderSchema_validate d with
  | [] =>
      let doc := orderSchema_pre_save w (delays w) d in
      if orderNumber_taken w (Order.orderNumber doc)
      then inl (Error (duplicateKeyMessage platform (Order.orderNumber doc)))
      else inr (doc, {| now := Order.updatedAt doc;
                        menuitems := menuitems w;
                        orders := orders w ++ [doc] |})
  | errors => inl (ValidationError errors)
  end.

(** [res.status(400).json({ success: false, message })]. *)
Definition failure (status : nat) (message : string) : Res.t :=
  {| Res.status := status;
     Res.body := Json.Obj [("success", Json.Bool false);
                           ("message", Json.Str message)] |}.

(** The value of a member the handler has found truthy. *)
Definition value (v : option string) : string :=
  match v with
  | Some s => s
  | None => EmptyString
  end.

(** [v?.trim() || d]. *)
Definition trim_or (v : option string) (d : string) : string :=
  match v with
  | Some s => if JS.truthy_string (JS.trim s) then JS.trim s else d
  | None => d
  end.

(** The loop over [items]: each line is checked against the catalog and,
    when it passes, added to [subtotal] and pushed on [validatedItems];
    the first line that fails ends the request with its response. *)
Fixpoint validate_lines (w : World) (items : list ReqItem.t)
  (subtotal : float) (validatedItems : list OrderItem.t)
  : Res.t + (float * list OrderItem.t) :=
  match items with
  | [] => inr (subtotal, validatedItems)
  | item :: rest =>
      if negb (JS.truthy JS.truthy_string (ReqItem.menuItemId item))
         || negb (ObjectId_isValid platform (value (ReqItem.menuItemId item)))
      then inl (failure 400
                  ("Invalid menu item ID: " ++ JS.template (ReqItem.menuItemId item)))
      else
        match MenuItem_findById w (value (ReqItem.menuItemId item)) with
        | None =>
            inl (failure 400
                   ("Menu item " ++ JS.dquote ++ JS.template (ReqItem.name item)
                    ++ JS.dquote ++ " not found or has been removed"))
        | Some menuItem =>
            if negb (MenuItem.isAvailable menuItem)
            then inl (failure 400
                        ("Menu item " ++ JS.dquote ++ MenuItem.name menuItem
                         ++ JS.dquote ++ " is currently unavailable"))
            else
              match ReqItem.quantity item with
              | None =>
                  inl (failure 400
                         ("Invalid quantity for item " ++ JS.dquote
                          ++ MenuItem.name menuItem ++ JS.dquote))
              | Some quantity =>
                  if negb (JS.truthy_number quantity) || (quantity <? 1)%float
                  then inl (failure 400
                              ("Invalid quantity for item " ++ JS.dquote
                               ++ MenuItem.name menuItem ++ JS.dquote))
                  else
                    let itemTotal := (MenuItem.price menuItem * quantity)%float in
                    validate_lines w rest (subtotal + itemTotal)%float
                      (validatedItems ++
                       [{| OrderItem.menuItem := MenuItem._id menuItem;
                           OrderItem.name := MenuItem.name menuItem;
                           OrderItem.price := MenuItem.price menuItem;
                           OrderItem.quantity := quantity;
                           OrderItem.image := MenuItem.image menuItem |}])
              end
        end
  end.

(** The [catch] of POST /. *)
Definition post_catch (error : Exception) : Res.t :=
  match error with
  | ValidationError errors =>
      {| Res.status := 400;
         Res.body := Json.Obj [("success", Json.Bool false);
                               ("message", Json.Str "Validation error");
                               ("errors", Json.Arr (map (fun e => Json.Str (errorMessage e)) errors))] |}
  | CastError _ => failure 400 "Invalid data format provided"
  | Error message =>
      {| Res.status := 500;
         Res.body := Json.Obj ([("success", Json.Bool false);
                                ("message", Json.Str "Server error. Please try again later.")]
                               ++ Json.optional "error"
                                    (match NODE_ENV platform with
                                     | Some env => if env =? "development"
                                                   then Some (Json.Str message) else None
                                     | None => None
                                     end)) |}
  end.

(** [subtotal >= 300 ? 0 : 30]. *)
Definition deliveryFee_of (subtotal : float) : float :=
  if (300 <=? subtotal)%float then 0%float else 30%float.

(** The document the route builds once every line has passed. *)
Definition newOrder (customer : ReqCustomer.t) (deliveryAddress : ReqAddress.t)
  (specialInstructions : option string)
  (validatedItems : list OrderItem.t) (subtotal deliveryFee total : float)
  : NewOrder.t :=
  {| NewOrder.customer :=
       {| Customer.name := JS.trim (value (ReqCustomer.name customer));
          Customer.email := JS.toLowerCase (JS.trim (value (ReqCustomer.email customer)));
          Customer.phone := JS.trim (value (ReqCustomer.phone customer)) |};
     NewOrder.deliveryAddress :=
       {| Address.street := JS.trim (value (ReqAddress.street deliveryAddress));
          Address.area := JS.trim (value (ReqAddress.area deliveryAddress));
          Address.city := trim_or (ReqAddress.city deliveryAddress) "Ahmedabad";
          Address.pincode := JS.trim (value (ReqAddress.pincode deliveryAddress));
          Address.landmark := trim_or (ReqAddress.landmark deliveryAddress) "" |};
     NewOrder.items := validatedItems;
     NewOrder.subtotal := subtotal;
     NewOrder.deliveryFee := deliveryFee;
     NewOrder.total := total;
     NewOrder.specialInstructions := trim_or specialInstructions "" |}.

(** The 201 response. *)
Definition created (savedOrder : Order.t) : Res.t :=
  {| Res.status := 201;
     Res.body :=
       Json.Obj [("success", Json.Bool true);
                 ("message", Json.Str "Order placed successfully!");
                 ("data",
                  Json.Obj [("orderNumber", Json.Str (Order.orderNumber savedOrder));
                            ("total", Json.Num (Order.total savedOrder));
                            ("estimatedDeliveryTime",
                             Json.Date (Order.estimatedDeliveryTime savedOrder));
                            ("status", Json.Str (Order.status savedOrder))])] |}.

(** POST /api/orders.  The confirmation e-mail that follows a successful
    save is sent inside its own [try], whose [catch] only logs: it changes
    neither the response nor the collections. *)
Definition post_orders (w : World) (body : Req.t) : Res.t * World :=
  match Req.customer body, Req.deliveryAddress body, Req.items body with
  | Some customer, Some deliveryAddress, Some ((_ :: _) as items) =>
      if negb (JS.truthy JS.truthy_string (ReqCustomer.name customer))
         || negb (JS.truthy JS.truthy_string (ReqCustomer.email customer))
         || negb (JS.truthy JS.truthy_string (ReqCustomer.phone customer))
      then (failure 400 "Customer name, email, and phone are required", w)
      else if negb (JS.truthy JS.truthy_string (ReqAddress.street deliveryAddress))
              || negb (JS.truthy JS.truthy_string (ReqAddress.area deliveryAddress))
              || negb (JS.truthy JS.truthy_string (ReqAddress.pincode deliveryAddress))
      then (failure 400 "Street address, area, and pincode are required", w)
      else
        match validate_lines w items 0%float [] with
        | inl response => (response, w)
        | inr (subtotal, validatedItems) =>
            let deliveryFee := deliveryFee_of subtotal in
            let total := (subtotal + deliveryFee)%float in
            match Order_save w
                    (newOrder customer deliveryAddress (Req.specialInstructions body)
                       validatedItems subtotal deliveryFee total) with
            | inr (savedOrder, w') => (created savedOrder, w')
            | inl error => (post_catch error, w)
            end
        end
  | _, _, _ =>
      (failure 400 "Customer details, delivery address, and items are required", w)
  end.

End Routes.

(** [a || b] on strings and on numbers, where [a] may be [undefined]. *)
Definition or_string (a : option string) (b : string) : string :=
  match a with
  | Some s => if JS.truthy_string s then s else b
  | None => b
  end.

Definition or_number (a : option float) (b : float) : float :=
  match a with
  | Some x => if JS.truthy_number x then x else b
  | None => b
  end.

(** One element of [order.items.map(...)] in GET /:orderNumber: [item] is
    the stored line and [menuItem] its populated reference. *)
Definition item_view (item : OrderItem.t) (menuItem : option MenuItem.t) : Json.t :=
  Json.Obj
    [("name", Json.Str (or_string (Some (OrderItem.name item))
                          (or_string (option_map MenuItem.name menuItem) "Unnamed Item")));
     ("price", Json.Num (or_number (Some (OrderItem.price item))
                           (or_number (option_map MenuItem.price menuItem) 0)));
     ("quantity", Json.Num (OrderItem.quantity item));
     ("image", Json.Str (or_string (Some (OrderItem.image item))
                           (or_string (option_map MenuItem.image menuItem) "")))].

Definition items_view (items : list OrderItem.t) (menuItems : list (option MenuItem.t))
  : list Json.t :=
  map (fun p => item_view (fst p) (snd p)) (combine items menuItems).

(** [order.deliveryAddress] as [res.json] sends it. *)
Definition address_json (a : Address.t) : Json.t :=
  Json.Obj [("street", Json.Str (Address.street a));
            ("area", Json.Str (Address.area a));
            ("city", Json.Str (Address.city a));
            ("pincode", Json.Str (Address.pincode a));
            ("landmark", Json.Str (Address.landmark a))].

(** The [data] of GET /:orderNumber. *)
Definition order_view (order : Order.t) (menuItems : list (option MenuItem.t)) : Json.t :=
  Json.Obj [("status", Json.Str (Order.status order));
            ("estimatedDeliveryTime", Json.Date (Order.estimatedDeliveryTime order));
            ("deliveryAddress", address_json (Order.deliveryAddress order));
            ("paymentMethod", Json.Str (Order.paymentMethod order));
            ("items", Json.Arr (items_view (Order.items order) menuItems));
            ("subtotal", Json.Num (Order.subtotal order));
            ("deliveryFee", Json.Num (Order.deliveryFee order));
            ("totalAmount", Json.Num (Order.total order))].

(** GET /api/orders/:orderNumber. *)
Definition get_order (w : World) (orderNumber : string) : Res.t :=
  match Order_findOne w orderNumber with
  | None =>
      {| Res.status := 404;
         Res.body := Json.Obj [("success", Json.Bool false);
                               ("message", Json.Str "Order not found")] |}
  | Some order =>
      {| Res.status := 200;
         Res.body := Json.Obj [("success", Json.Bool true);
                               ("data", order_view order (populate w order))] |}
  end.

Definition validStatuses : list string :=
  ["pending"; "confirmed"; "preparing"; "out-for-delivery"; "delivered"; "cancelled"].

(** [validStatuses.includes(status)], for a [status] that may be
    absent. *)
Definition includes (l : list string) (v : option string) : bool :=
  match v with
  | Some s => existsb (String.eqb s) l
  | None => false
  end.

(** PUT /api/orders/:orderNumber/status. *)
Definition put_status (w : World) (orderNumber : string) (status : option string)
  : Res.t * World :=
  if negb (includes validStatuses status)
  then ({| Res.status := 400;
           Res.body := Json.Obj [("success", Json.Bool false);
                                 ("message", Json.Str "Invalid status value")] |}, w)
  else
    let status := match status with Some s => s | None => EmptyString end in
    let updateData :=
      {| UpdateData.status := status;
         UpdateData.actualDeliveryTime :=
           if status =? "delivered" then Some (now w) else None |} in
    match Order_findOneAndUpdate w orderNumber updateData with
    | (None, _) =>
        ({| Res.status := 404;
            Res.body := Json.Obj [("success", Json.Bool false);
                                  ("message", Json.Str "Order not found")] |}, w)
    | (Some order, w') =>
        ({| Res.status := 200;
            Res.body := Json.Obj [("success", Json.Bool true);
                                  ("message", Json.Str "Order status updated successfully");
                                  ("data", Json.Doc order (populate w' order))] |}, w')
    end.

(** The query of GET /api/orders, for a well-formed one: [page] and
    [limit] are positive integers (1 and 10 when absent), and [date] is
    the instant [new Date(date)] denotes. *)
Module Query.
Record t : Type := mk {
  page : option positive;
  limit : option positive;
  status : option string;
  date : option N
}.
End Query.

(** [.sort({ createdAt: -1 })]: newest first. *)
Fixpoint insert_newest (o : Order.t) (l : list Order.t) : list Order.t :=
  match l with
  | [] => [o]
  | x :: rest =>
      if (Order.createdAt x <? Order.createdAt o)%N
      then o :: l
      else x :: insert_newest o rest
  end.

Definition sort_newest (l : list Order.t) : list Order.t :=
  fold_right insert_newest [] l.

Definition day : N := 24 * 60 * 60 * 1000.

(** The filter that [status] and [date] build. *)
Definition matches (q : Query.t) (o : Order.t) : bool :=
  (match Query.status q with
   | Some s => if JS.truthy_string s then Order.status o =? s else true
   | None => true
   end)
  &&
  (match Query.date q with
   | Some startDate =>
       (startDate <=? Order.createdAt o)%N && (Order.createdAt o <? startDate + day)%N
   | None => true
   end).

(** GET /api/orders. *)
Definition get_orders (w : World) (q : Query.t) : Res.t :=
  let page := match Query.page q with Some p => p | None => 1%positive end in
  let limit := match Query.limit q with Some l => l | None => 10%positive end in
  let found := filter (matches q) (orders w) in
  let orders :=
    firstn (Pos.to_nat limit)
      (skipn ((Pos.to_nat page - 1) * Pos.to_nat limit) (sort_newest found)) in
  let total := N.of_nat (List.length found) in
  {| Res.status := 200;
     Res.body :=
       Json.Obj [("success", Json.Bool true);
                 ("data", Json.Arr (map (fun o => Json.Doc o (populate w o)) orders));
                 ("pagination",
                  Json.Obj [("page", Json.Count (Npos page));
                            ("limit", Json.Count (Npos limit));
                            ("total", Json.Count total);
                            ("pages", Json.Count ((total + Npos limit - 1) / Npos limit))])] |}.

(** ** The server as a transition system *)

Inductive Request : Type :=
| POST_orders (body : Req.t)
| GET_order (orderNumber : string)
| GET_orders (query : Query.t)
| PUT_status (orderNumber : string) (status : option string).

(** What happens to the world: time passes, the menu routes rewrite the
    catalog (they never touch the orders), or an order route is
    called. *)
Inductive Event : Type :=
| Tick (ms : N)
| Menu (catalog : list MenuItem.t)
| Call (request : Request).

Section Server.

Variable platform : Platform.

Definition handle (w : World) (r : Request) : Res.t * World :=
  match r with
  | POST_orders body => post_orders platform w body
  | GET_order orderNumber => (get_order w orderNumber, w)
  | GET_orders query => (get_orders w query, w)
  | PUT_status orderNumber status => put_status w orderNumber status
  end.

Definition step (w : World) (e : Event) : World :=
  match e with
  | Tick ms => {| now := now w + ms; menuitems := menuitems w; orders := orders w |}
  | Menu catalog => {| now := now w; menuitems := catalog; orders := orders w |}
  | Call request => snd (handle w request)
  end.

Definition run (w : World) (events : list Event) : World :=
  fold_left step events w.

(** The server starts with no orders. *)
Definition initial (w : World) : Prop := orders w = [].

(** The worlds the server can be in. *)
Definition reachable (w : World) : Prop :=
  exists w0 events, initial w0 /\ run w0 events = w.

End Server.

(** ** The vocabulary of the specification *)

(** The kinds of validation failure of order creation, with what their
    messages quote. *)
Inductive ErrorKind : Type :=
| MissingFields
| MissingCustomerFields
| MissingAddressFields
| InvalidItemId (menuItemId : option string)
| ItemNotFound (name : option string)
| ItemUnavailable (name : string)
| InvalidQuantity (name : string).

Definition message_of (k : ErrorKind) : string :=
  match k with
  | MissingFields => "Customer details, delivery address, and items are required"
  | MissingCustomerFields => "Customer name, email, and phone are required"
  | MissingAddressFields => "Street address, area, and pincode are required"
  | InvalidItemId id => "Invalid menu item ID: " ++ JS.template id
  | ItemNotFound name =>
      "Menu item " ++ JS.dquote ++ JS.template name ++ JS.dquote
      ++ " not found or has been removed"
  | ItemUnavailable name =>
      "Menu item " ++ JS.dquote ++ name ++ JS.dquote ++ " is currently unavailable"
  | InvalidQuantity name =>
      "Invalid quantity for item " ++ JS.dquote ++ name ++ JS.dquote
  end.

(** A number that is an integer: finite, with no fractional part. *)
Definition is_integer (x : float) : bool :=
  match Prim2SF x with
  | S754_zero _ => true
  | S754_finite _ m e =>
      (0 <=? e)%Z || (Z.pos m mod 2 ^ (- e) =? 0)%Z
  | _ => false
  end.

(** The quantity rule as the specification words it: an integer, at
    least 1. *)
Definition integer_at_least_1 (q : float) : bool :=
  is_integer q && (1 <=? q)%float.

(** The quantity rule as the route tests it: [!(!q || q < 1)]. *)
Definition truthy_not_below_1 (q : float) : bool :=
  JS.truthy_number q && negb (q <? 1)%float.

Section Validation.

Variable platform : Platform.

(** The rule a quantity must meet. *)
Variable quantity_ok : float -> bool.

(** Steps 4a to 4d of the validation sequence on one line: the first
    rule the line breaks, if any. *)
Definition item_violation (w : World) (item : ReqItem.t) : option ErrorKind :=
  match ReqItem.menuItemId item with
  | None => Some (InvalidItemId None)
  | Some id =>
      if (id =? "") || negb (ObjectId_isValid platform id)
      then Some (InvalidItemId (Some id))
      else
        match MenuItem_findById w id with
        | None => Some (ItemNotFound (ReqItem.name item))
        | Some m =>
            if negb (MenuItem.isAvailable m)
            then Some (ItemUnavailable (MenuItem.name m))
            else
              match ReqItem.quantity item with
              | None => Some (InvalidQuantity (MenuItem.name m))
              | Some q =>
                  if quantity_ok q then None
                  else Some (InvalidQuantity (MenuItem.name m))
              end
        end
  end.

(** Step 4: the violation of the first offending line, in input
    order. *)
Fixpoint first_item_violation (w : World) (items : list ReqItem.t) : option ErrorKind :=
  match items with
  | [] => None
  | item :: rest =>
      match item_violation w item with
      | Some k => Some k
      | None => first_item_violation w rest
      end
  end.

Definition present (v : option string) : bool :=
  match v with
  | Some s => negb (s =? "")
  | None => false
  end.

(** Steps 1 to 4: the first violation of a request, if any. *)
Definition first_violation (w : World) (body : Req.t) : option ErrorKind :=
  match Req.customer body, Req.deliveryAddress body, Req.items body with
  | Some customer, Some deliveryAddress, Some ((_ :: _) as items) =>
      if negb (present (ReqCustomer.name customer)
               && present (ReqCustomer.email customer)
               && present (ReqCustomer.phone customer))
      then Some MissingCustomerFields
      else if negb (present (ReqAddress.street deliveryAddress)
                    && present (ReqAddress.area deliveryAddress)
                    && present (ReqAddress.pincode deliveryAddress))
      then Some MissingAddressFields
      else first_item_violation w items
  | _, _, _ => Some MissingFields
  end.

End Validation.

(** A request that breaks a validation step: a missing customer, address
    or item list, an empty item list, a missing customer or address
    field, or some line that is invalid (bad id, not found, unavailable,
    or a quantity the route refuses), whatever the other lines are. *)
Definition invalid_request (platform : Platform) (w : World) (body : Req.t) : Prop :=
  Req.customer body = None
  \/ Req.deliveryAddress body = None
  \/ Req.items body = None
  \/ Req.items body = Some []
  \/ (exists customer,
        Req.customer body = Some customer
        /\ present (ReqCustomer.name customer) && present (ReqCustomer.email customer)
           && present (ReqCustomer.phone customer) = false)
  \/ (exists deliveryAddress,
        Req.deliveryAddress body = Some deliveryAddress
        /\ present (ReqAddress.street deliveryAddress)
           && present (ReqAddress.area deliveryAddress)
           && present (ReqAddress.pincode deliveryAddress) = false)
  \/ (exists items item,
        Req.items body = Some items
        /\ In item items
        /\ item_violation platform truthy_not_below_1 w item <> None).

(** The same, with the quantity rule as the specification words it: a
    line's quantity is bad when it is not an integer that is at least 1. *)
Definition invalid_request_as_stated (platform : Platform) (w : World) (body : Req.t) : Prop :=
  Req.customer body = None
  \/ Req.deliveryAddress body = None
  \/ Req.items body = None
  \/ Req.items body = Some []
  \/ (exists customer,
        Req.customer body = Some customer
        /\ present (ReqCustomer.name customer) && present (ReqCustomer.email customer)
           && present (ReqCustomer.phone customer) = false)
  \/ (exists deliveryAddress,
        Req.deliveryAddress body = Some deliveryAddress
        /\ present (ReqAddress.street deliveryAddress)
           && present (ReqAddress.area deliveryAddress)
           && present (ReqAddress.pincode deliveryAddress) = false)
  \/ (exists items item,
        Req.items body = Some items
        /\ In item items
        /\ item_violation platform integer_at_least_1 w item <> None).

(** The catalog document a line resolves to. *)
Definition resolve (w : World) (item : ReqItem.t) : option MenuItem.t :=
  match ReqItem.menuItemId item with
  | Some id => MenuItem_findById w id
  | None => None
  end.

(** The line item the specification asks for: name, price and image of
    the resolved catalog document, and the requested quantity. *)
Definition snapshot (w : World) (item : ReqItem.t) : option OrderItem.t :=
  match resolve w item, ReqItem.quantity item with
  | Some m, Some q =>
      Some {| OrderItem.menuItem := MenuItem._id m;
              OrderItem.name := MenuItem.name m;
              OrderItem.price := MenuItem.price m;
              OrderItem.quantity := q;
              OrderItem.image := MenuItem.image m |}
  | _, _ => None
  end.

(** The line totals [price * quantity], added in input order to
    [subtotal]. *)
Definition add_lines (subtotal : float) (lines : list OrderItem.t) : float :=
  fold_left (fun acc l => (acc + OrderItem.price l * OrderItem.quantity l)%float)
            lines subtotal.

(** The sum of the line totals, from 0. *)
Definition sum_line_totals (lines : list OrderItem.t) : float :=
  add_lines 0%float lines.

(** A request without what the client says about names and prices. *)
Definition forget_item (item : ReqItem.t) : ReqItem.t :=
  {| ReqItem.menuItemId := ReqItem.menuItemId item;
     ReqItem.quantity := ReqItem.quantity item;
     ReqItem.name := None;
     ReqItem.price := None |}.

Definition forget (body : Req.t) : Req.t :=
  {| Req.customer := Req.customer body;
     Req.deliveryAddress := Req.deliveryAddress body;
     Req.items := option_map (map forget_item) (Req.items body);
     Req.specialInstructions := Req.specialInstructions body |}.

(** The order [o] with another customer. *)
Definition with_customer (c : Customer.t) (o : Order.t) : Order.t :=
  {| Order.orderNumber := Order.orderNumber o;
     Order.customer := c;
     Order.deliveryAddress := Order.deliveryAddress o;
     Order.items := Order.items o;
     Order.subtotal := Order.subtotal o;
     Order.deliveryFee := Order.deliveryFee o;
     Order.total := Order.total o;
     Order.paymentMethod := Order.paymentMethod o;
     Order.status := Order.status o;
     Order.specialInstructions := Order.specialInstructions o;
     Order.estimatedDeliveryTime := Order.estimatedDeliveryTime o;
     Order.actualDeliveryTime := Order.actualDeliveryTime o;
     Order.createdAt := Order.createdAt o;
     Order.updatedAt := Order.updatedAt o |}.

(** [o'] is [o] except, possibly, for [status] and
    [actualDeliveryTime]. *)
Definition same_but_status (o o' : Order.t) : Prop :=
  Order.orderNumber o' = Order.orderNumber o
  /\ Order.customer o' = Order.customer o
  /\ Order.deliveryAddress o' = Order.deliveryAddress o
  /\ Order.items o' = Order.items o
  /\ Order.subtotal o' = Order.subtotal o
  /\ Order.deliveryFee o' = Order.deliveryFee o
  /\ Order.total o' = Order.total o
  /\ Order.paymentMethod o' = Order.paymentMethod o
  /\ Order.specialInstructions o' = Order.specialInstructions o
  /\ Order.estimatedDeliveryTime o' = Order.estimatedDeliveryTime o
  /\ Order.createdAt o' = Order.createdAt o
  /\ Order.updatedAt o' = Order.updatedAt o.

(** The 400 and 404 responses of the status and lookup routes. *)
Definition invalid_status : Res.t :=
  {| Res.status := 400;
     Res.body := Json.Obj [("success", Json.Bool false);
                           ("message", Json.Str "Invalid status value")] |}.

Definition not_found : Res.t :=
  {| Res.status := 404;
     Res.body := Json.Obj [("success", Json.Bool false);
                           ("message", Json.Str "Order not found")] |}.

(** The totals of a stored order agree with its lines. *)
Definition priced (o : Order.t) : Prop :=
  Order.subtotal o = sum_line_totals (Order.items o)
  /\ Order.deliveryFee o = deliveryFee_of (Order.subtotal o)
  /\ Order.total o = (Order.subtotal o + Order.deliveryFee o)%float.

(** The number a string of decimal digits denotes. *)
Fixpoint decimal_acc (acc : N) (s : string) : N :=
  match s with
  | EmptyString => acc
  | String c r => decimal_acc (10 * acc + (N_of_ascii c - 48)) r
  end.

Definition decimal (s : string) : N := decimal_acc 0 s.

(** No stored order was created after the present. *)
Definition created_in_the_past (w : World) : Prop :=
  Forall (fun o => (Order.createdAt o <= now w)%N) (orders w).

(** No stored order was saved after the present. *)
Definition updated_in_the_past (w : World) : Prop :=
  Forall (fun o => (Order.updatedAt o <= now w)%N) (orders w).

(** The order at position [i] carries an instant of its save and the
    sequence number [i + 1].  The instant is not before the order's
    creation and not after the instant from which its delivery is
    estimated, which is not after its [updatedAt]. *)
Definition numbered (w : World) : Prop :=
  forall i o,
    nth_error (orders w) i = Some o ->
    exists t,
      (Order.createdAt o <= t)%N
      /\ (t + 2700000 <= Order.estimatedDeliveryTime o)%N
      /\ (Order.estimatedDeliveryTime o <= Order.updatedAt o + 2700000)%N
      /\ Order.orderNumber o
         = ("CA" ++ JS.slice_last 6 (JS.Number_toString t)
                 ++ JS.padStart 3 "0" (JS.Number_toString (N.of_nat i + 1)))%string.

(** ** A sample server *)

Module Sample.

Definition is_hex (c : ascii) : bool :=
  let n := nat_of_ascii c in
  (((48 <=? n) && (n <=? 57)) || ((97 <=? n) && (n <=? 102))
   || ((65 <=? n) && (n <=? 70)))%nat.

Fixpoint all_hex (s : string) : bool :=
  match s with
  | EmptyString => true
  | String c r => is_hex c && all_hex r
  end.

(** An ObjectId in text form: 24 hexadecimal digits. *)
Definition hex24 (s : string) : bool :=
  (String.length s =? 24)%nat && all_hex s.

(** The cast of a string to an ObjectId: 24 hexadecimal digits, of which
    the ObjectId keeps the value, written in lower case. *)
Definition castObjectId (s : string) : option string :=
  if hex24 s then Some (JS.toLowerCase s) else None.

(** Mongoose's message templates, without the offending value. *)
Definition template (e : ValidatorError) : string :=
  match e with
  | RequiredError path _ => "Path `" ++ path ++ "` is required."
  | MinError path _ _ => "Path `" ++ path ++ "` is less than minimum allowed value."
  | MaxlengthError path _ _ =>
      "Path `" ++ path ++ "` is longer than the maximum allowed length."
  | NumberCastError path _ => "Cast to Number failed at path " ++ path
  end.

(** A production server on which a save takes no measurable time. *)
Definition server : Platform :=
  {| ObjectId_isValid := hex24;
     builtinMessage := template;
     duplicateKeyMessage := fun key => ("E11000 duplicate key error: " ++ key)%string;
     NODE_ENV := Some "production";
     save_delays := fun _ _ => {| Delays.to_number := 0;
                                  Delays.to_estimate := 0;
                                  Delays.to_update := 0 |} |}.

(** The same server when the pre-save hook runs 7 ms after the document
    was constructed. *)
Definition slow : Platform :=
  {| ObjectId_isValid := hex24;
     builtinMessage := template;
     duplicateKeyMessage := fun key => ("E11000 duplicate key error: " ++ key)%string;
     NODE_ENV := Some "production";
     save_delays := fun _ _ => {| Delays.to_number := 7;
                                  Delays.to_estimate := 0;
                                  Delays.to_update := 0 |} |}.

Definition cappuccino : MenuItem.t :=
  {| MenuItem._id := "64b7f0c2a1d3e4f5a6b7c8d9";
     MenuItem.name := "CAPPUCCINO";
     MenuItem.price := 80;
     MenuItem.image := "https://images.pexels.com/photos/302899/pexels-photo-302899.jpeg";
     MenuItem.isAvailable := true |}.

Definition samosa : MenuItem.t :=
  {| MenuItem._id := "64b7f0c2a1d3e4f5a6b7c8da";
     MenuItem.name := "SAMOSA";
     MenuItem.price := 20;
     MenuItem.image := "https://images.pexels.com/photos/14477/pexels-photo-14477.jpeg";
     MenuItem.isAvailable := false |}.

(** A freshly started server, on 2026-09-21. *)
Definition world : World :=
  {| now := 1790000000123;
     menuitems := [cappuccino; samosa];
     orders := [] |}.

Definition customer : ReqCustomer.t :=
  {| ReqCustomer.name := Some " Asha Patel ";
     ReqCustomer.email := Some "Asha@Example.com";
     ReqCustomer.phone := Some "9876543210" |}.

Definition address : ReqAddress.t :=
  {| ReqAddress.street := Some "12 Ashram Road";
     ReqAddress.area := Some "Navrangpura";
     ReqAddress.city := None;
     ReqAddress.pincode := Some "380009";
     ReqAddress.landmark := None |}.

(** One line for [quantity] cappuccinos; the client also says they cost
    80 each. *)
Definition line (quantity : float) : ReqItem.t :=
  {| ReqItem.menuItemId := Some "64b7f0c2a1d3e4f5a6b7c8d9";
     ReqItem.quantity := Some quantity;
     ReqItem.name := Some "Cappuccino";
     ReqItem.price := Some 80%float |}.

Definition order_of (lines : list ReqItem.t) : Req.t :=
  {| Req.customer := Some customer;
     Req.deliveryAddress := Some address;
     Req.items := Some lines;
     Req.specialInstructions := None |}.

(** A line for one samosa, which the catalog has but cannot sell. *)
Definition samosa_line : ReqItem.t :=
  {| ReqItem.menuItemId := Some "64b7f0c2a1d3e4f5a6b7c8da";
     ReqItem.quantity := Some 1%float;
     ReqItem.name := Some "Samosa";
     ReqItem.price := Some 20%float |}.

(** The number of the first order placed on the sample server. *)
Definition first_number : string := "CA000123001".

(** The sample server's answer to an order of [quantity] cappuccinos, and
    the world after it. *)
Definition placed (quantity : float) : Res.t * World :=
  post_orders server world (order_of [line quantity]).

(** The first order and a minute. *)
Definition first_minute : list Event :=
  [Call (POST_orders (order_of [line 2])); Tick 60000].

(** The world after the first order, a minute later. *)
Abbreviation later := (run server world first_minute).

(** A thousand orders, one every second. *)
Definition thousand_orders : list Event :=
  List.concat (repeat [Call (POST_orders (order_of [line 2])); Tick 1000] 1000).

(** The world after them. *)
Abbreviation busy := (run server world thousand_orders).

End Sample.

(** ** The default menu *)

(** An element of [defaultItems]. *)
Module DefaultItem.
Record t : Type := mk {
  name : string;
  description : string;
  price : float;
  category : string;
  image : string;
  rating : float;
  isVeg : bool;
  isPopular : bool;
  isAvailable : bool
}.
End DefaultItem.

#[local] Set Warnings "-inexact-float".

Definition defaultItems : list DefaultItem.t :=
 [
  {| DefaultItem.name := "MASALA CHAI";
     DefaultItem.description :=
       "Traditional Indian spiced tea with cardamom, ginger, and cinnamon";
     DefaultItem.price := 25;
     DefaultItem.category := "tea";
     DefaultItem.image :=
       "https://images.pexels.com/photos/1638280/pexels-photo-1638280.jpeg?auto=compress&cs=tinysrgb&w=400";
     DefaultItem.rating := 4.8;
     DefaultItem.isVeg := true;
     DefaultItem.isPopular := true;
     DefaultItem.isAvailable := true |};
  {| DefaultItem.name := "CAPPUCCINO";
     DefaultItem.description :=
       "Rich espresso with steamed milk and velvety foam";
     DefaultItem.price := 80;
     DefaultItem.category := "coffee";
     DefaultItem.image :=
       "https://images.pexels.com/photos/302899/pexels-photo-302899.jpeg?auto=compress&cs=tinysrgb&w=400";
     DefaultItem.rating := 4.6;
     DefaultItem.isVeg := true;
     DefaultItem.isPopular := false;
     DefaultItem.isAvailable := true |};
  {| DefaultItem.name := "DHOKLA";
     DefaultItem.description :=
       "Steamed Gujarati snack made from fermented rice and chickpea flour";
     DefaultItem.price := 45;
     DefaultItem.category := "gujarati-specials";
     DefaultItem.image :=
       "https://images.pexels.com/photos/5560763/pexels-photo-5560763.jpeg?auto=compress&cs=tinysrgb&w=400";
     DefaultItem.rating := 4.9;
     DefaultItem.isVeg := true;
     DefaultItem.isPopular := true;
     DefaultItem.isAvailable := true |};
  {| DefaultItem.name := "KHANDVI";
     DefaultItem.description :=
       "Soft, savory rolls made from gram flour and buttermilk";
     DefaultItem.price := 55;
     DefaultItem.category := "gujarati-specials";
     DefaultItem.image :=
       "https://images.pexels.com/photos/14737/pexels-photo-14737.jpeg?auto=compress&cs=tinysrgb&w=400";
     DefaultItem.rating := 4.7;
     DefaultItem.isVeg := true;
     DefaultItem.isPopular := false;
     DefaultItem.isAvailable := true |};
  {| DefaultItem.name := "COLD COFFEE";
     DefaultItem.description :=
       "Chilled coffee with ice cream and whipped cream";
     DefaultItem.price := 90;
     DefaultItem.category := "coffee";
     DefaultItem.image :=
       "https://images.pexels.com/photos/312418/pexels-photo-312418.jpeg?auto=compress&cs=tinysrgb&w=400";
     DefaultItem.rating := 4.5;
     DefaultItem.isVeg := true;
     DefaultItem.isPopular := true;
     DefaultItem.isAvailable := true |};
  {| DefaultItem.name := "GULAB JAMUN";
     DefaultItem.description :=
       "Soft, spongy milk-based dessert in sugar syrup";
     DefaultItem.price := 40;
     DefaultItem.category := "desserts";
     DefaultItem.image :=
       "https://images.pexels.com/photos/12737080/pexels-photo-12737080.jpeg?auto=compress&cs=tinysrgb&w=400";
     DefaultItem.rating := 4.8;
     DefaultItem.isVeg := true;
     DefaultItem.isPopular := false;
     DefaultItem.isAvailable := true |};
  {| DefaultItem.name := "SAMOSA";
     DefaultItem.description :=
       "Crispy fried pastry with spiced potato filling";
     DefaultItem.price := 20;
     DefaultItem.category := "snacks";
     DefaultItem.image :=
       "https://images.pexels.com/photos/14477/pexels-photo-14477.jpeg?auto=compress&cs=tinysrgb&w=400";
     DefaultItem.rating := 4.6;
     DefaultItem.isVeg := true;
     DefaultItem.isPopular := true;
     DefaultItem.isAvailable := true |};
  {| DefaultItem.name := "LATTE";
     DefaultItem.description :=
       "Smooth espresso with steamed milk and light foam";
     DefaultItem.price := 85;
     DefaultItem.category := "coffee";
     DefaultItem.image :=
       "https://images.pexels.com/photos/324028/pexels-photo-324028.jpeg?auto=compress&cs=tinysrgb&w=400";
     DefaultItem.rating := 4.4;
     DefaultItem.isVeg := true;
     DefaultItem.isPopular := false;
     DefaultItem.isAvailable := true |}
 ].

#[local] Set Warnings "inexact-float".

(** The [enum] of [category]. *)
Definition categories : list string :=
  ["coffee"; "tea"; "snacks"; "desserts"; "gujarati-specials"; "beverages"].

(** The validators of [menuItemSchema] on a document with these fields,
    after the [trim] setters of [name] and [description]. *)
Definition menuItemSchema_validate (d : DefaultItem.t) : bool :=
  let name := JS.trim (DefaultItem.name d) in
  let description := JS.trim (DefaultItem.description d) in
  JS.truthy_string name
  && (String.length name <=? 100)%nat
  && JS.truthy_string description
  && (String.length description <=? 500)%nat
  && negb (is_nan (DefaultItem.price d))
  && (0 <=? DefaultItem.price d)%float
  && JS.truthy_string (DefaultItem.category d)
  && existsb (String.eqb (DefaultItem.category d)) categories
  && JS.truthy_string (DefaultItem.image d)
  && negb (is_nan (DefaultItem.rating d))
  && (0 <=? DefaultItem.rating d)%float
  && (DefaultItem.rating d <=? 5)%float.

Section Defaults.

(** The [_id] the [i]-th document of an [insertMany] is given. *)
Variable ObjectId : nat -> string.

(** What the order routes read of an inserted document. *)
Definition inserted (i : nat) (d : DefaultItem.t) : MenuItem.t :=
  {| MenuItem._id := ObjectId i;
     MenuItem.name := JS.trim (DefaultItem.name d);
     MenuItem.price := DefaultItem.price d;
     MenuItem.image := DefaultItem.image d;
     MenuItem.isAvailable := DefaultItem.isAvailable d |}.

Fixpoint insert_from (i : nat) (docs : list DefaultItem.t) : list MenuItem.t :=
  match docs with
  | [] => []
  | d :: rest => inserted i d :: insert_from (S i) rest
  end.

(** [this.insertMany(docs)]: every document is validated first, and
    nothing is inserted when one of them fails; [None] when the call is
    rejected. *)
Definition MenuItem_insertMany (w : World) (docs : list DefaultItem.t) : option World :=
  if forallb menuItemSchema_validate docs
  then Some {| now := now w;
               menuitems := menuitems w ++ insert_from 0 docs;
               orders := orders w |}
  else None.

(** [MenuItem.createDefaults()], as the server calls it once it is
    connected: a rejection is caught and logged there. *)
Definition createDefaults (w : World) : World :=
  if (List.length (menuitems w) =? 0)%nat
  then match MenuItem_insertMany w defaultItems with
       | Some w' => w'
       | None => w
       end
  else w.

End Defaults.

(** ** Deleting a menu item *)

(** The collection without its first document with the given [_id], and
    that document.  A document's [_id] is the text of its ObjectId, 24
    lower-case hexadecimal digits, as [toString] and the JSON of a
    response give it. *)
Fixpoint delete_first (id : string) (l : list MenuItem.t)
  : option MenuItem.t * list MenuItem.t :=
  match l with
  | [] => (None, [])
  | m :: rest =>
      if MenuItem._id m =? id
      then (Some m, rest)
      else let (found, rest') := delete_first id rest in
           (found, m :: rest')
  end.

Section MenuRoutes.

(** The ObjectId Mongoose casts a string to, as the text in which a
    document holds its [_id], when the string casts (the 24 hexadecimal
    digits of an id cast whatever their case), and the message of the
    [CastError] that rejects a query by an id that does not cast. *)
Variable castObjectId : string -> option string.
Variable castMessage : string -> string.

(** [MenuItem.findByIdAndDelete(id)]: the filter is [{ _id: id }], cast
    by the schema before the collection is searched. *)
Definition MenuItem_findByIdAndDelete (w : World) (id : string)
  : Exception + (option MenuItem.t * World) :=
  match castObjectId id with
  | Some oid =>
      let (found, l) := delete_first oid (menuitems w) in
      inr (found, {| now := now w; menuitems := l; orders := orders w |})
  | None => inl (CastError (castMessage id))
  end.

(** DELETE /api/menu/:id. *)
Definition delete_menu (w : World) (id : string) : Res.t * World :=
  match MenuItem_findByIdAndDelete w id with
  | inr (None, _) => (failure 404 "Menu item not found", w)
  | inr (Some _, w') =>
      ({| Res.status := 200;
          Res.body := Json.Obj [("success", Json.Bool true);
                                ("message", Json.Str "Menu item deleted successfully")] |},
       w')
  | inl _ => (failure 500 "Server error. Please try again later.", w)
  end.

End MenuRoutes.

(** ** Reservations *)

(** A document of the [Reservation] collection. *)
Module Reservation.
Record t : Type := mk {
  _id : string;
  name : string;
  email : string;
  phone : string;
  date : N;
  time : string;
  guests : float;
  specialRequests : option string;
  status : string;
  tableNumber : option float;
  createdAt : N;
  updatedAt : N
}.
End Reservation.

(** The [updateData] of the reservation routes. *)
Module ReservationUpdate.
Record t : Type := mk {
  status : string;
  tableNumber : option float
}.
End ReservationUpdate.

(** What a reservation route sends: a failure with its message, or a
    success with its message, if it has one, and the document. *)
(** The [data] of the 201 response of POST /api/reservations. *)
Module Confirmation.
Record t : Type := mk {
  id : string;
  name : string;
  email : string;
  date : N;
  time : string;
  guests : float;
  status : string;
  createdAt : N
}.
End Confirmation.

Module Reply.
Inductive t : Type :=
| Failure (status : nat) (message : string)
| Invalid (errors : list string)
| Created (message : string) (data : Confirmation.t)
| Success (message : option string) (data : Reservation.t).

Definition status (r : t) : nat :=
  match r with
  | Failure status _ => status
  | Invalid _ => 400
  | Created _ _ => 201
  | Success _ _ => 200
  end.
End Reply.

Definition reservationStatuses : list string :=
  ["pending"; "confirmed"; "cancelled"; "completed"].

(** The validators of [tableNumber]: [min: 1] and [max: 50]. *)
Definition tableNumber_validate (v : float) : bool :=
  (1 <=? v)%float && (v <=? 50)%float.

(** The update validators on [updateData].  The enum of [status] holds
    for every value the routes set. *)
Definition reservationSchema_validate_update (u : ReservationUpdate.t) : bool :=
  match ReservationUpdate.tableNumber u with
  | Some v => tableNumber_validate v
  | None => true
  end.

(** The [$set] of [updateData] on a document. *)
Definition set_reservation (u : ReservationUpdate.t) (r : Reservation.t) : Reservation.t :=
  {| Reservation._id := Reservation._id r;
     Reservation.name := Reservation.name r;
     Reservation.email := Reservation.email r;
     Reservation.phone := Reservation.phone r;
     Reservation.date := Reservation.date r;
     Reservation.time := Reservation.time r;
     Reservation.guests := Reservation.guests r;
     Reservation.specialRequests := Reservation.specialRequests r;
     Reservation.status := ReservationUpdate.status u;
     Reservation.tableNumber :=
       match ReservationUpdate.tableNumber u with
       | Some v => Some v
       | None => Reservation.tableNumber r
       end;
     Reservation.createdAt := Reservation.createdAt r;
     Reservation.updatedAt := Reservation.updatedAt r |}.

(** The first document with the given [_id], updated in place, and the
    collection after the update. *)
Fixpoint update_reservation (id : string) (u : ReservationUpdate.t)
  (l : list Reservation.t) : option Reservation.t * list Reservation.t :=
  match l with
  | [] => (None, [])
  | r :: rest =>
      if Reservation._id r =? id
      then (Some (set_reservation u r), set_reservation u r :: rest)
      else let (found, rest') := update_reservation id u rest in
           (found, r :: rest')
  end.

Section ReservationRoutes.

(** Whether Mongoose casts a string to an ObjectId. *)
Variable castObjectId : string -> bool.

(** [Reservation.findById(id)]; [None] when the query is rejected. *)
Definition Reservation_findById (store : list Reservation.t) (id : string)
  : option (option Reservation.t) :=
  if castObjectId id
  then Some (find (fun r => Reservation._id r =? id) store)
  else None.

(** [Reservation.findByIdAndUpdate(id, updateData, { new: true,
    runValidators })]; [None] when it is rejected, by the cast of the id
    or by an update validator.  No [save] middleware runs. *)
Definition Reservation_findByIdAndUpdate (runValidators : bool)
  (store : list Reservation.t) (id : string) (u : ReservationUpdate.t)
  : option (option Reservation.t * list Reservation.t) :=
  if negb (castObjectId id) then None
  else if runValidators && negb (reservationSchema_validate_update u) then None
  else Some (update_reservation id u store).

Definition server_error : Reply.t :=
  Reply.Failure 500 "Server error. Please try again later.".

(** GET /api/reservations/:id. *)
Definition get_reservation (store : list Reservation.t) (id : string) : Reply.t :=
  match Reservation_findById store id with
  | None => server_error
  | Some None => Reply.Failure 404 "Reservation not found"
  | Some (Some reservation) => Reply.Success None reservation
  end.

(** PUT /api/reservations/:id/status, for a [tableNumber] that is a
    number when it is given. *)
Definition put_reservation_status (store : list Reservation.t) (id : string)
  (status : option string) (tableNumber : option float)
  : Reply.t * list Reservation.t :=
  if negb (includes reservationStatuses status)
  then (Reply.Failure 400 "Invalid status value", store)
  else
    let status := match status with Some s => s | None => EmptyString end in
    let updateData :=
      {| ReservationUpdate.status := status;
         ReservationUpdate.tableNumber :=
           if JS.truthy JS.truthy_number tableNumber && (status =? "confirmed")
           then tableNumber else None |} in
    match Reservation_findByIdAndUpdate true store id updateData with
    | None => (server_error, store)
    | Some (None, _) => (Reply.Failure 404 "Reservation not found", store)
    | Some (Some reservation, store') =>
        (Reply.Success (Some "Reservation status updated successfully") reservation,
         store')
    end.

(** DELETE /api/reservations/:id. *)
Definition delete_reservation (store : list Reservation.t) (id : string)
  : Reply.t * list Reservation.t :=
  match Reservation_findByIdAndUpdate false store id
          {| ReservationUpdate.status := "cancelled";
             ReservationUpdate.tableNumber := None |} with
  | None => (server_error, store)
  | Some (None, _) => (Reply.Failure 404 "Reservation not found", store)
  | Some (Some reservation, store') =>
      (Reply.Success (Some "Reservation cancelled successfully") reservation, store')
  end.

End ReservationRoutes.

(** ** Creating a reservation *)

(** The body of POST /api/reservations, for a [guests] that is a number
    when it is given. *)
Module ReqReservation.
Record t : Type := mk {
  name : option string;
  email : option string;
  phone : option string;
  date : option string;
  time : option string;
  guests : option float;
  specialRequests : option string
}.
End ReqReservation.

(** The object literal given to [new Reservation(...)]; the [date] is
    [None] for an Invalid Date. *)
Module NewReservation.
Record t : Type := mk {
  name : string;
  email : string;
  phone : string;
  date : option N;
  time : string;
  guests : float;
  specialRequests : option string
}.
End NewReservation.

(** The clock and the [Reservation] collection. *)
Module Desk.
Record t : Type := mk {
  now : N;
  reservations : list Reservation.t
}.
End Desk.

(** The schema's setters ([trim], [lowercase]). *)
Definition reservationSchema_set (d : NewReservation.t) : NewReservation.t :=
  {| NewReservation.name := JS.trim (NewReservation.name d);
     NewReservation.email := JS.toLowerCase (JS.trim (NewReservation.email d));
     NewReservation.phone := JS.trim (NewReservation.phone d);
     NewReservation.date := NewReservation.date d;
     NewReservation.time := NewReservation.time d;
     NewReservation.guests := NewReservation.guests d;
     NewReservation.specialRequests :=
       option_map JS.trim (NewReservation.specialRequests d) |}.

(** A validator with its message: nothing when [ok], the message
    otherwise. *)
Definition check (ok : bool) (message : string) : list string :=
  if ok then [] else [message].

Section ReservationCreation.

(** What the libraries decide: the instant [new Date(date)] denotes, if
    any; whether a string matches the [match] expression of [email],
    [phone] and [time]; the message of the cast error of an Invalid
    Date; the [_id] of the [i]-th document created. *)
Variable Date_parse : string -> option N.
Variable email_match phone_match time_match : string -> bool.
Variable dateCastMessage : string.
Variable ObjectId : nat -> string.

(** [match] on a String path: the empty string passes. *)
Definition matches_or_empty (test : string -> bool) (v : string) : bool :=
  (v =? "") || test v.

(** The validators of [reservationSchema] on a new document at the
    instant [now], in the order the schema declares its paths.  A path
    whose value did not cast is not validated further. *)
Definition reservationSchema_validate (now : N) (d : NewReservation.t) : list string :=
  check (JS.truthy_string (NewReservation.name d)) "Name is required"
  ++ check (String.length (NewReservation.name d) <=? 100)%nat
       "Name cannot exceed 100 characters"
  ++ check (JS.truthy_string (NewReservation.email d)) "Email is required"
  ++ check (matches_or_empty email_match (NewReservation.email d))
       "Please enter a valid email"
  ++ check (JS.truthy_string (NewReservation.phone d)) "Phone number is required"
  ++ check (matches_or_empty phone_match (NewReservation.phone d))
       "Please enter a valid phone number"
  ++ match NewReservation.date d with
     | None => [dateCastMessage]
     | Some value => check (now <? value)%N "Reservation date must be in the future"
     end
  ++ check (JS.truthy_string (NewReservation.time d)) "Reservation time is required"
  ++ check (matches_or_empty time_match (NewReservation.time d))
       "Please enter a valid time format (HH:MM)"
  ++ check (1 <=? NewReservation.guests d)%float "At least 1 guest is required"
  ++ check (NewReservation.guests d <=? 20)%float "Maximum 20 guests allowed"
  ++ match NewReservation.specialRequests d with
     | None => []
     | Some v => check (String.length v <=? 500)%nat
                   "Special requests cannot exceed 500 characters"
     end.

(** The document [save] inserts: the defaults of [status], [createdAt]
    and [updatedAt], and the pre-save hook's [updatedAt]. *)
Definition reservation_document (desk : Desk.t) (d : NewReservation.t) (date : N)
  : Reservation.t :=
  {| Reservation._id := ObjectId (List.length (Desk.reservations desk));
     Reservation.name := NewReservation.name d;
     Reservation.email := NewReservation.email d;
     Reservation.phone := NewReservation.phone d;
     Reservation.date := date;
     Reservation.time := NewReservation.time d;
     Reservation.guests := NewReservation.guests d;
     Reservation.specialRequests := NewReservation.specialRequests d;
     Reservation.status := "pending";
     Reservation.tableNumber := None;
     Reservation.createdAt := Desk.now desk;
     Reservation.updatedAt := Desk.now desk |}.

(** [newReservation.save()]: the messages of the failed validators, or
    the saved document and the desk after the insert. *)
Definition Reservation_save (desk : Desk.t) (d : NewReservation.t)
  : list string + (Reservation.t * Desk.t) :=
  let d := reservationSchema_set d in
  match reservationSchema_validate (Desk.now desk) d, NewReservation.date d with
  | [], Some date =>
      let doc := reservation_document desk d date in
      inr (doc, {| Desk.now := Desk.now desk;
                   Desk.reservations := Desk.reservations desk ++ [doc] |})
  | errors, _ => inl errors
  end.

Definition confirmation (saved : Reservation.t) : Confirmation.t :=
  {| Confirmation.id := Reservation._id saved;
     Confirmation.name := Reservation.name saved;
     Confirmation.email := Reservation.email saved;
     Confirmation.date := Reservation.date saved;
     Confirmation.time := Reservation.time saved;
     Confirmation.guests := Reservation.guests saved;
     Confirmation.status := Reservation.status saved;
     Confirmation.createdAt := Reservation.createdAt saved |}.

(** [reservationDate <= new Date()]: false for an Invalid Date. *)
Definition not_after (reservationDate : option N) (now : N) : bool :=
  match reservationDate with
  | Some t => (t <=? now)%N
  | None => false
  end.

(** POST /api/reservations.  The confirmation e-mail is sent inside its
    own [try], whose [catch] only logs. *)
Definition post_reservation (desk : Desk.t) (body : ReqReservation.t)
  : Reply.t * Desk.t :=
  if negb (JS.truthy JS.truthy_string (ReqReservation.name body))
     || negb (JS.truthy JS.truthy_string (ReqReservation.email body))
     || negb (JS.truthy JS.truthy_string (ReqReservation.phone body))
     || negb (JS.truthy JS.truthy_string (ReqReservation.date body))
     || negb (JS.truthy JS.truthy_string (ReqReservation.time body))
     || negb (JS.truthy JS.truthy_number (ReqReservation.guests body))
  then (Reply.Failure 400 "All required fields must be provided", desk)
  else
    let reservationDate := Date_parse (value (ReqReservation.date body)) in
    if not_after reservationDate (Desk.now desk)
    then (Reply.Failure 400 "Reservation date must be in the future", desk)
    else
      match Reservation_save desk
              {| NewReservation.name := value (ReqReservation.name body);
                 NewReservation.email := value (ReqReservation.email body);
                 NewReservation.phone := value (ReqReservation.phone body);
                 NewReservation.date := reservationDate;
                 NewReservation.time := value (ReqReservation.time body);
                 NewReservation.guests :=
                   match ReqReservation.guests body with
                   | Some g => g
                   | None => 0%float
                   end;
                 NewReservation.specialRequests := ReqReservation.specialRequests body |}
      with
      | inr (savedReservation, desk') =>
          (Reply.Created
             "Reservation created successfully! We will confirm your booking soon."
             (confirmation savedReservation),
           desk')
      | inl errors => (Reply.Invalid errors, desk)
      end.

(** What happens at the desk: time passes, or a reservation route is
    called. *)
Inductive DeskEvent : Type :=
| Elapse (ms : N)
| Book (body : ReqReservation.t)
| SetStatus (id : string) (status : option string) (tableNumber : option float)
| Cancel (id : string).

Variable castObjectId : string -> bool.

Definition desk_step (desk : Desk.t) (e : DeskEvent) : Desk.t :=
  match e with
  | Elapse ms => {| Desk.now := Desk.now desk + ms;
                    Desk.reservations := Desk.reservations desk |}
  | Book body => snd (post_reservation desk body)
  | SetStatus id status tableNumber =>
      {| Desk.now := Desk.now desk;
         Desk.reservations :=
           snd (put_reservation_status castObjectId (Desk.reservations desk)
                  id status tableNumber) |}
  | Cancel id =>
      {| Desk.now := Desk.now desk;
         Desk.reservations :=
           snd (delete_reservation castObjectId (Desk.reservations desk) id) |}
  end.

(** The desks a server that started with no reservation can be in. *)
Definition desk_reachable (desk : Desk.t) : Prop :=
  exists desk0 events,
    Desk.reservations desk0 = [] /\ fold_left desk_step events desk0 = desk.

End ReservationCreation.

(** ** Vocabulary of the further properties *)

(** The 400 response of a failed schema validation, with the messages of
    the failed validators. *)
Definition validation_failed (messages : list string) : Res.t :=
  {| Res.status := 400;
     Res.body := Json.Obj [("success", Json.Bool false);
                           ("message", Json.Str "Validation error");
                           ("errors", Json.Arr (map Json.Str messages))] |}.

(** The string fields the schema requires, as the request gives them,
    each with the message the schema has for it. *)
Definition required_inputs (customer : ReqCustomer.t) (deliveryAddress : ReqAddress.t)
  : list (option string * string) :=
  [(ReqCustomer.name customer, "Customer name is required");
   (ReqCustomer.email customer, "Email is required");
   (ReqCustomer.phone customer, "Phone number is required");
   (ReqAddress.street deliveryAddress, "Street address is required");
   (ReqAddress.area deliveryAddress, "Area is required");
   (ReqAddress.pincode deliveryAddress, "Pincode is required")].

(** An ASCII string: every character is below 128.  On such strings
    [JS.trim], [JS.toLowerCase] and [String.length] are JavaScript's
    [trim], [toLowerCase] and [length]. *)
Definition plain (v : option string) : bool :=
  match v with
  | Some s => forallb (fun c => (nat_of_ascii c <? 128)%nat) (list_ascii_of_string s)
  | None => true
  end.

(** The strings of a request that the route stores. *)
Definition request_strings (customer : ReqCustomer.t) (deliveryAddress : ReqAddress.t)
  (body : Req.t) : list (option string) :=
  [ReqCustomer.name customer; ReqCustomer.email customer; ReqCustomer.phone customer;
   ReqAddress.street deliveryAddress; ReqAddress.area deliveryAddress;
   ReqAddress.city deliveryAddress; ReqAddress.pincode deliveryAddress;
   ReqAddress.landmark deliveryAddress; Req.specialInstructions body].

(** A request whose customer, address and special instructions are
    written in ASCII. *)
Definition plain_request (body : Req.t) : bool :=
  match Req.customer body, Req.deliveryAddress body with
  | Some customer, Some deliveryAddress =>
      forallb plain (request_strings customer deliveryAddress body)
  | _, _ => plain (Req.specialInstructions body)
  end.

(** A string with no white space at either end. *)
Definition first_char_ok (s : string) : bool :=
  match s with
  | EmptyString => true
  | String c _ => negb (JS.is_space c)
  end.

Fixpoint last_char_ok (s : string) : bool :=
  match s with
  | EmptyString => true
  | String c EmptyString => negb (JS.is_space c)
  | String _ r => last_char_ok r
  end.

Definition trimmed (s : string) : Prop :=
  first_char_ok s = true /\ last_char_ok s = true.

(** A stored line the item schema accepts. *)
Definition line_ok (l : OrderItem.t) : Prop :=
  OrderItem.menuItem l <> ""
  /\ OrderItem.name l <> ""
  /\ is_nan (OrderItem.price l) = false
  /\ (1 <=? OrderItem.quantity l)%float = true.

(** A stored order the order schema accepts, with the values the route
    and the pre-save hook give the fields the client does not send. *)
Definition well_formed (o : Order.t) : Prop :=
  In (Order.status o) validStatuses
  /\ Order.paymentMethod o = "cod"
  /\ Order.items o <> []
  /\ Forall line_ok (Order.items o)
  /\ (0 <=? Order.subtotal o)%float = true
  /\ (0 <=? Order.total o)%float = true
  /\ Forall (fun s => s <> "" /\ trimmed s)
        [Customer.name (Order.customer o);
         Customer.email (Order.customer o);
         Customer.phone (Order.customer o);
         Address.street (Order.deliveryAddress o);
         Address.area (Order.deliveryAddress o);
         Address.city (Order.deliveryAddress o);
         Address.pincode (Order.deliveryAddress o)]
  /\ JS.toLowerCase (Customer.email (Order.customer o)) = Customer.email (Order.customer o)
  /\ trimmed (Address.landmark (Order.deliveryAddress o))
  /\ trimmed (Order.specialInstructions o)
  /\ String.length (Order.specialInstructions o) <= 500
  /\ (Order.createdAt o + 2700000 <= Order.estimatedDeliveryTime o)%N
  /\ (Order.estimatedDeliveryTime o <= Order.updatedAt o + 2700000)%N.

(** The delivery stamp of a stored order in the world [w]: a delivered
    order has one, and a stamp lies between the order's creation and the
    present. *)
Definition delivery_consistent (w : World) (o : Order.t) : Prop :=
  (Order.status o = "delivered" -> Order.actualDeliveryTime o <> None)
  /\ (forall t, Order.actualDeliveryTime o = Some t ->
                (Order.createdAt o <= t)%N /\ (t <= now w)%N).

(** The orders of an array of populated documents. *)
Definition docs_of (j : Json.t) : list Order.t :=
  match j with
  | Json.Arr elements =>
      flat_map (fun e => match e with
                         | Json.Doc o _ => [o]
                         | _ => []
                         end) elements
  | _ => []
  end.

(** The orders a response of GET / lists. *)
Definition listed (r : Res.t) : list Order.t :=
  match Json.member "data" (Res.body r) with
  | Some j => docs_of j
  | None => []
  end.

(** A number of the [pagination] object of a response of GET /. *)
Definition pagination (key : string) (r : Res.t) : option N :=
  match Json.member "pagination" (Res.body r) with
  | Some j =>
      match Json.member key j with
      | Some (Json.Count n) => Some n
      | _ => None
      end
  | None => None
  end.

(** The query [q] for the page [p]. *)
Definition at_page (q : Query.t) (p : positive) : Query.t :=
  {| Query.page := Some p;
     Query.limit := Query.limit q;
     Query.status := Query.status q;
     Query.date := Query.date q |}.

(** The [limit] a query asks for. *)
Definition limit_of (q : Query.t) : nat :=
  match Query.limit q with
  | Some l => Pos.to_nat l
  | None => 10
  end.

(** The [page] a query asks for. *)
Definition page_of (q : Query.t) : nat :=
  match Query.page q with
  | Some p => Pos.to_nat p
  | None => 1
  end.

(** The stored orders a query selects. *)
Definition matching (w : World) (q : Query.t) : list Order.t :=
  filter (matches q) (orders w).

(** The pages 1, ..., [n]. *)
Definition pages_upto (n : nat) : list positive :=
  map Pos.of_succ_nat (seq 0 n).

(** Newest first. *)
Definition descending (l : list Order.t) : Prop :=
  StronglySorted (fun a b => (Order.createdAt b <= Order.createdAt a)%N) l.

(** A stored reservation the schema accepts in what the status routes
    write: a status of the enumeration and, if a table is assigned, one
    from 1 to 50. *)
Definition reservation_ok (r : Reservation.t) : Prop :=
  In (Reservation.status r) reservationStatuses
  /\ match Reservation.tableNumber r with
     | Some v => (1 <=? v)%float = true /\ (v <=? 50)%float = true
     | None => True
     end.

(** Two reservations that differ at most in status and table. *)
Definition same_booking (r r' : Reservation.t) : Prop :=
  Reservation._id r' = Reservation._id r
  /\ Reservation.name r' = Reservation.name r
  /\ Reservation.email r' = Reservation.email r
  /\ Reservation.phone r' = Reservation.phone r
  /\ Reservation.date r' = Reservation.date r
  /\ Reservation.time r' = Reservation.time r
  /\ Reservation.guests r' = Reservation.guests r
  /\ Reservation.specialRequests r' = Reservation.specialRequests r
  /\ Reservation.createdAt r' = Reservation.createdAt r
  /\ Reservation.updatedAt r' = Reservation.updatedAt r.

(** A stored reservation as the creation route and the schema leave it:
    within the schema for status and table, with a trimmed name of at
    most 100 characters, a trimmed email in lower case and a trimmed
    phone that match their expressions, a time that matches its
    expression, from 1 to 20 guests, a date after the creation, and
    special requests, if any, trimmed and of at most 500 characters. *)
Definition booked_ok (email_match phone_match time_match : string -> bool)
  (r : Reservation.t) : Prop :=
  reservation_ok r
  /\ (Reservation.name r <> "" /\ trimmed (Reservation.name r)
      /\ String.length (Reservation.name r) <= 100)
  /\ (Reservation.email r <> "" /\ trimmed (Reservation.email r)
      /\ JS.toLowerCase (Reservation.email r) = Reservation.email r
      /\ email_match (Reservation.email r) = true)
  /\ (Reservation.phone r <> "" /\ trimmed (Reservation.phone r)
      /\ phone_match (Reservation.phone r) = true)
  /\ (Reservation.time r <> "" /\ time_match (Reservation.time r) = true)
  /\ ((1 <=? Reservation.guests r)%float = true
      /\ (Reservation.guests r <=? 20)%float = true)
  /\ (Reservation.createdAt r < Reservation.date r)%N
  /\ match Reservation.specialRequests r with
     | Some v => trimmed v /\ String.length v <= 500
     | None => True
     end.

(** A table for four, booked and confirmed. *)
Module Booking.

Definition dinner : Reservation.t :=
  {| Reservation._id := "64b7f0c2a1d3e4f5a6b7c8e0";
     Reservation.name := "Asha Patel";
     Reservation.email := "asha@example.com";
     Reservation.phone := "9876543210";
     Reservation.date := 1790100000000;
     Reservation.time := "19:30";
     Reservation.guests := 4;
     Reservation.specialRequests := None;
     Reservation.status := "confirmed";
     Reservation.tableNumber := Some 7%float;
     Reservation.createdAt := 1790000000123;
     Reservation.updatedAt := 1790000000123 |}.

Definition book : list Reservation.t := [dinner].

(** A clock that reads ISO dates of 2026 at midnight UTC only. *)
Definition Date_parse (s : string) : option N :=
  if s =? "2026-10-01" then Some 1790812800000%N
  else if s =? "2026-09-01" then Some 1788220800000%N
  else None.

Definition has_at (s : string) : bool :=
  existsb (fun c => (c =? "@")%char) (list_ascii_of_string s).

Definition ten_to_fifteen (s : string) : bool :=
  ((10 <=? String.length s) && (String.length s <=? 15))%nat.

Definition five_long (s : string) : bool := (String.length s =? 5)%nat.

Definition desk : Desk.t :=
  {| Desk.now := 1790000000123; Desk.reservations := [] |}.

Definition request_on (date : string) (guests : float) : ReqReservation.t :=
  {| ReqReservation.name := Some " Asha Patel ";
     ReqReservation.email := Some "Asha@Example.com";
     ReqReservation.phone := Some "9876543210";
     ReqReservation.date := Some date;
     ReqReservation.time := Some "19:30";
     ReqReservation.guests := Some guests;
     ReqReservation.specialRequests := Some " window seat " |}.

Definition request (guests : float) : ReqReservation.t :=
  request_on "2026-10-01" guests.

Definition ObjectId (i : nat) : string :=
  "64b7f0c2a1d3e4f5a6b7c9a" ++ JS.Number_toString (N.of_nat i).

(** The creation route and the desk's steps under these choices. *)
Definition post : Desk.t -> ReqReservation.t -> Reply.t * Desk.t :=
  post_reservation Date_parse has_at ten_to_fifteen five_long
    "Cast to date failed" ObjectId.

Definition step : Desk.t -> DeskEvent -> Desk.t :=
  desk_step Date_parse has_at ten_to_fifteen five_long
    "Cast to date failed" ObjectId Sample.hex24.

(** A booking, confirmed a minute later at table 7, then cancelled. *)
Definition evening : list DeskEvent :=
  [Book (request 4); Elapse 60000;
   SetStatus (ObjectId 0) (Some "confirmed") (Some 7%float);
   Cancel (ObjectId 0)].

End Booking.

(** A line of a request that names the [i]-th default item, for a
    quantity the route accepts. *)
Definition names_default (ObjectId : nat -> string) (item : ReqItem.t) : Prop :=
  exists i quantity,
    i < List.length defaultItems
    /\ ReqItem.menuItemId item = Some (ObjectId i)
    /\ ReqItem.quantity item = Some quantity
    /\ truthy_not_below_1 quantity = true.

(** A server that starts on an empty database. *)
Module Startup.

Definition ObjectId (i : nat) : string :=
  "64b7f0c2a1d3e4f5a6b7c8f" ++ JS.Number_toString (N.of_nat i).

Definition empty : World :=
  {| now := 1790000000123;
     menuitems := [];
     orders := [] |}.

(** Two cups of masala chai and a plate of dhokla. *)
Definition tea_time : Req.t :=
  {| Req.customer := Some Sample.customer;
     Req.deliveryAddress := Some Sample.address;
     Req.items :=
       Some [{| ReqItem.menuItemId := Some (ObjectId 0);
                ReqItem.quantity := Some 2%float;
                ReqItem.name := Some "Masala chai";
                ReqItem.price := None |};
             {| ReqItem.menuItemId := Some (ObjectId 2);
                ReqItem.quantity := Some 1%float;
                ReqItem.name := None;
                ReqItem.price := None |}];
     Req.specialInstructions := None |}.

End Startup.

(** Requests the route's own checks let through and the schema refuses. *)
Module Refused.

(** A customer whose name is three spaces. *)
Definition nameless : ReqCustomer.t :=
  {| ReqCustomer.name := Some "   ";
     ReqCustomer.email := Some "Asha@Example.com";
     ReqCustomer.phone := Some "9876543210" |}.

Definition blank_name : Req.t :=
  {| Req.customer := Some nameless;
     Req.deliveryAddress := Some Sample.address;
     Req.items := Some [Sample.line 2];
     Req.specialInstructions := None |}.

(** 501 letters between two spaces. *)
Definition essay : string := " " ++ JS.repeat_char "a" 501 ++ " ".

Definition wordy : Req.t :=
  {| Req.customer := Some Sample.customer;
     Req.deliveryAddress := Some Sample.address;
     Req.items := Some [Sample.line 2];
     Req.specialInstructions := Some essay |}.

End Refused.

(** Three orders a second apart, listed two to a page. *)
Module Listing.

Definition three_orders : list Event :=
  [Call (POST_orders (Sample.order_of [Sample.line 1])); Tick 1000;
   Call (POST_orders (Sample.order_of [Sample.line 2])); Tick 1000;
   Call (POST_orders (Sample.order_of [Sample.line 4])); Tick 1000].

Abbreviation shop := (run Sample.server Sample.world three_orders).

(** The first order, delivered a minute after it was placed. *)
Definition delivery : list Event :=
  [Call (POST_orders (Sample.order_of [Sample.line 2])); Tick 60000;
   Call (PUT_status Sample.first_number (Some "delivered"))].

Abbreviation delivered := (run Sample.server Sample.world delivery).

Definition by_two : Query.t :=
  {| Query.page := None;
     Query.limit := Some 2%positive;
     Query.status := None;
     Query.date := None |}.

End Listing.

(** * Lemmas *)

(** Closes a goal that says an order is itself up to its status. *)
Ltac unchanged := unfold same_but_status; simpl; auto 20.

(** ** Order creation *)

Section Creation.

Variable platform : Platform.

Lemma failure_status (status : nat) (message : string) :
  Res.status (failure status message) = status.
Proof. reflexivity. Qed.

Lemma post_catch_status (error : Exception) :
  Res.status (post_catch platform error) = 400
  \/ Res.status (post_catch platform error) = 500.
Proof. destruct error; simpl; auto. Qed.

(** A successful [save] appends exactly the document the hook builds. *)
Lemma Order_save_inr (w w' : World) (d : NewOrder.t) (o : Order.t) :
  Order_save platform w d = inr (o, w') ->
  o = orderSchema_pre_save w (delays platform w) (orderSchema_set d)
  /\ orderSchema_validate (orderSchema_set d) = []
  /\ orderNumber_taken w (Order.orderNumber o) = false
  /\ w' = {| now := Order.updatedAt o;
             menuitems := menuitems w;
             orders := orders w ++ [o] |}.
Proof.
  unfold Order_save.
  destruct (orderSchema_validate (orderSchema_set d)) as [|e errors]; [|discriminate].
  destruct (orderNumber_taken w _) eqn:Htaken; [discriminate|].
  intros H; injection H as <- <-. auto.
Qed.

(** When the loop ends normally, every line resolved to its snapshot,
    the snapshots were pushed in order and their totals added in
    order. *)
Lemma validate_lines_inr (w : World) (items : list ReqItem.t) :
  forall subtotal validatedItems subtotal' validatedItems',
    validate_lines platform w items subtotal validatedItems
    = inr (subtotal', validatedItems') ->
    exists lines,
      map (snapshot w) items = map Some lines
      /\ validatedItems' = validatedItems ++ lines
      /\ subtotal' = add_lines subtotal lines.
Proof.
  induction items as [|item rest IH]; simpl; intros s v s' v' H.
  - injection H as <- <-. exists []. rewrite app_nil_r. auto.
  - destruct (ReqItem.menuItemId item) as [id|] eqn:Hid; simpl in H; [|discriminate].
    destruct (negb (JS.truthy_string id) || negb (ObjectId_isValid platform id));
      [discriminate|].
    destruct (MenuItem_findById w id) as [m|] eqn:Hfind; [|discriminate].
    destruct (negb (MenuItem.isAvailable m)); [discriminate|].
    destruct (ReqItem.quantity item) as [q|] eqn:Hq; [|discriminate].
    destruct (negb (JS.truthy_number q) || (q <? 1)%float); [discriminate|].
    apply IH in H. destruct H as (lines & Hmap & Hv & Hs).
    eexists (_ :: lines). split; [|split].
    + simpl. unfold snapshot at 1, resolve. rewrite Hid, Hfind, Hq.
      rewrite Hmap. reflexivity.
    + rewrite Hv, <- app_assoc. reflexivity.
    + exact Hs.
Qed.

(** Every response the loop ends a request with is a 400. *)
Lemma validate_lines_inl (w : World) (items : list ReqItem.t) :
  forall subtotal validatedItems response,
    validate_lines platform w items subtotal validatedItems = inl response ->
    Res.status response = 400.
Proof.
  induction items as [|item rest IH]; simpl; intros s v r H; [discriminate|].
  repeat match type of H with
         | (if ?c then _ else _) = _ => destruct c
         | match ?x with _ => _ end = _ => destruct x
         end;
    try (injection H as <-; reflexivity).
  eapply IH; eassumption.
Qed.

(** What a 201 response means. *)
Lemma post_orders_created (w w' : World) (body : Req.t) (res : Res.t) :
  post_orders platform w body = (res, w') ->
  Res.status res = 201 ->
  exists customer deliveryAddress items subtotal validatedItems o,
    Req.customer body = Some customer
    /\ Req.deliveryAddress body = Some deliveryAddress
    /\ Req.items body = Some items
    /\ validate_lines platform w items 0%float [] = inr (subtotal, validatedItems)
    /\ Order_save platform w
         (newOrder customer deliveryAddress (Req.specialInstructions body)
            validatedItems subtotal (deliveryFee_of subtotal)
            (subtotal + deliveryFee_of subtotal)%float) = inr (o, w')
    /\ res = created o.
Proof.
  unfold post_orders. intros H H201.
  destruct (Req.customer body) as [customer|];
    [|injection H as <- <-; discriminate].
  destruct (Req.deliveryAddress body) as [deliveryAddress|];
    [|injection H as <- <-; discriminate].
  destruct (Req.items body) as [[|item items]|];
    try (injection H as <- <-; discriminate).
  destruct (_ || _ || _); [injection H as <- <-; discriminate|].
  destruct (_ || _ || _); [injection H as <- <-; discriminate|].
  destruct (validate_lines platform w (item :: items) 0%float [])
    as [response|[subtotal validatedItems]] eqn:Hlines.
  - injection H as <- <-.
    apply validate_lines_inl in Hlines. congruence.
  - destruct (Order_save platform w _) as [error|[o w1]] eqn:Hsave.
    + injection H as <- <-.
      destruct (post_catch_status error); congruence.
    + injection H as <- <-.
      exists customer, deliveryAddress, (item :: items), subtotal, validatedItems, o.
      auto 10.
Qed.

(** A request that does not end in 201 leaves the world as it was. *)
Lemma post_orders_refused (w w' : World) (body : Req.t) (res : Res.t) :
  post_orders platform w body = (res, w') ->
  Res.status res <> 201 ->
  w' = w.
Proof.
  unfold post_orders. intros H Hnot.
  repeat match type of H with
         | (if ?c then _ else _) = _ => destruct c
         | match ?x with _ => _ end = _ => destruct x eqn:?
         | (let (_, _) := ?x in _) = _ => destruct x eqn:?
         end;
    injection H as <- <-; try reflexivity.
  exfalso. apply Hnot. reflexivity.
Qed.

(** The stored order of a 201: the document built from the validated
    lines and their subtotal, appended to the collection. *)
Lemma post_orders_stored (w w' : World) (body : Req.t) (res : Res.t) :
  post_orders platform w body = (res, w') ->
  Res.status res = 201 ->
  exists items lines o,
    Req.items body = Some items
    /\ map (snapshot w) items = map Some lines
    /\ Order.items o = lines
    /\ Order.subtotal o = sum_line_totals lines
    /\ Order.deliveryFee o = deliveryFee_of (Order.subtotal o)
    /\ Order.total o = (Order.subtotal o + Order.deliveryFee o)%float
    /\ orders w' = orders w ++ [o]
    /\ now w' = Order.updatedAt o /\ menuitems w' = menuitems w
    /\ res = created o.
Proof.
  intros H H201.
  destruct (post_orders_created _ _ _ _ H H201)
    as (customer & deliveryAddress & items & subtotal & validatedItems & o
        & _ & _ & Hitems & Hlines & Hsave & Hres).
  apply validate_lines_inr in Hlines. destruct Hlines as (lines & Hmap & Hv & Hs).
  apply Order_save_inr in Hsave. destruct Hsave as (Ho & _ & _ & Hw').
  simpl in Hv. subst validatedItems subtotal.
  exists items, lines, o. subst o w'. simpl. auto 12.
Qed.

(** The loop reads a line's [menuItemId] and [quantity] only, as long as
    the line passes. *)
Lemma validate_lines_forget (w : World) (items : list ReqItem.t) :
  forall subtotal validatedItems r,
    validate_lines platform w items subtotal validatedItems = inr r ->
    validate_lines platform w (map forget_item items) subtotal validatedItems = inr r.
Proof.
  induction items as [|item rest IH]; simpl; intros s v r H; [exact H|].
  destruct (ReqItem.menuItemId item) as [id|]; simpl in *; [|discriminate].
  destruct (negb (JS.truthy_string id) || negb (ObjectId_isValid platform id));
    [discriminate|].
  destruct (MenuItem_findById w id) as [m|]; [|discriminate].
  destruct (negb (MenuItem.isAvailable m)); [discriminate|].
  destruct (ReqItem.quantity item) as [q|]; [|discriminate].
  destruct (negb (JS.truthy_number q) || (q <? 1)%float); [discriminate|].
  apply IH. exact H.
Qed.

(** A request that succeeds has the same outcome without the client's
    names and prices. *)
Lemma post_orders_forget (w : World) (body : Req.t) :
  Res.status (fst (post_orders platform w body)) = 201 ->
  post_orders platform w (forget body) = post_orders platform w body.
Proof.
  unfold post_orders, forget.
  cbn [Req.customer Req.deliveryAddress Req.items Req.specialInstructions].
  destruct (Req.customer body) as [customer|]; [|reflexivity].
  destruct (Req.deliveryAddress body) as [deliveryAddress|]; [|reflexivity].
  destruct (Req.items body) as [[|item items]|]; try reflexivity.
  cbn [option_map map].
  destruct (_ || _ || _); [reflexivity|].
  destruct (_ || _ || _); [reflexivity|].
  change (forget_item item :: map forget_item items)
    with (map forget_item (item :: items)).
  destruct (validate_lines platform w (item :: items) 0%float [])
    as [response|r] eqn:Hlines.
  - apply validate_lines_inl in Hlines. simpl. congruence.
  - intros _. rewrite (validate_lines_forget _ _ _ _ _ Hlines). reflexivity.
Qed.

End Creation.

(** ** The validation sequence *)

Section ValidationSequence.

Variable platform : Platform.

(** The loop ends at the first line that breaks a rule, with that rule's
    message, and ends normally when no line does. *)
Lemma validate_lines_first_violation (w : World) (items : list ReqItem.t) :
  forall subtotal validatedItems,
    match first_item_violation platform truthy_not_below_1 w items with
    | Some k =>
        validate_lines platform w items subtotal validatedItems
        = inl (failure 400 (message_of k))
    | None =>
        exists r, validate_lines platform w items subtotal validatedItems = inr r
    end.
Proof.
  induction items as [|item rest IH]; intros s v; simpl.
  - eexists. reflexivity.
  - unfold item_violation.
    destruct (ReqItem.menuItemId item) as [id|]; simpl; [|reflexivity].
    unfold JS.truthy_string. rewrite negb_involutive.
    destruct ((id =? "") || negb (ObjectId_isValid platform id)); [reflexivity|].
    destruct (MenuItem_findById w id) as [m|]; [|reflexivity].
    destruct (negb (MenuItem.isAvailable m)); [reflexivity|].
    destruct (ReqItem.quantity item) as [q|]; [|reflexivity].
    unfold truthy_not_below_1.
    destruct (JS.truthy_number q); simpl; [|reflexivity].
    destruct (q <? 1)%float; simpl; [reflexivity|].
    apply IH.
Qed.

(** The route, read off the validation sequence: the first violation is
    the response, and a request with none goes on to [save]. *)
Lemma post_orders_first_violation (w : World) (body : Req.t) :
  match first_violation platform truthy_not_below_1 w body with
  | Some k => post_orders platform w body = (failure 400 (message_of k), w)
  | None =>
      exists d,
        post_orders platform w body
        = match Order_save platform w d with
          | inr (savedOrder, w') => (created savedOrder, w')
          | inl error => (post_catch platform error, w)
          end
  end.
Proof.
  unfold first_violation, post_orders.
  destruct (Req.customer body) as [customer|]; [|reflexivity].
  destruct (Req.deliveryAddress body) as [deliveryAddress|]; [|reflexivity].
  destruct (Req.items body) as [[|item items]|]; try reflexivity.
  change (JS.truthy JS.truthy_string) with present.
  rewrite !negb_andb.
  destruct (_ || _ || _); [reflexivity|].
  destruct (_ || _ || _); [reflexivity|].
  pose proof (validate_lines_first_violation w (item :: items) 0%float []) as H.
  destruct (first_item_violation platform truthy_not_below_1 w (item :: items)).
  - rewrite H. reflexivity.
  - destruct H as [[subtotal validatedItems] ->]. eexists. reflexivity.
Qed.

Lemma first_item_violation_In (w : World) (items : list ReqItem.t) (item : ReqItem.t) :
  In item items ->
  item_violation platform truthy_not_below_1 w item <> None ->
  first_item_violation platform truthy_not_below_1 w items <> None.
Proof.
  induction items as [|x rest IH]; simpl; [tauto|].
  intros [->|Hin] Hbad.
  - destruct (item_violation platform truthy_not_below_1 w item);
      [discriminate|contradiction].
  - destruct (item_violation platform truthy_not_below_1 w x); [discriminate|].
    auto.
Qed.

(** An invalid request has a first violation. *)
Lemma invalid_request_violation (w : World) (body : Req.t) :
  invalid_request platform w body ->
  exists k, first_violation platform truthy_not_below_1 w body = Some k.
Proof.
  unfold invalid_request, first_violation.
  intros [H|[H|[H|[H|[(c & H & Hc)|[(a & H & Ha)|(items & item & H & Hin & Hbad)]]]]]];
    rewrite ?H.
  - eexists; reflexivity.
  - destruct (Req.customer body); eexists; reflexivity.
  - destruct (Req.customer body), (Req.deliveryAddress body); eexists; reflexivity.
  - destruct (Req.customer body), (Req.deliveryAddress body); eexists; reflexivity.
  - destruct (Req.deliveryAddress body), (Req.items body) as [[|? ?]|];
      try (eexists; reflexivity).
    rewrite Hc. eexists; reflexivity.
  - destruct (Req.customer body), (Req.items body) as [[|? ?]|];
      try (eexists; reflexivity).
    rewrite Ha. destruct (negb _); eexists; reflexivity.
  - destruct (Req.customer body), (Req.deliveryAddress body);
      try (eexists; reflexivity).
    destruct items as [|x rest]; [contradiction|].
    destruct (negb _); [eexists; reflexivity|].
    destruct (negb _); [eexists; reflexivity|].
    pose proof (first_item_violation_In w _ _ Hin Hbad) as Hfirst.
    destruct (first_item_violation platform truthy_not_below_1 w (x :: rest));
      [eexists; reflexivity|contradiction].
Qed.

End ValidationSequence.

(** ** Status transitions and lookup *)

Lemma update_first_missing (n : string) (u : UpdateData.t) (l : list Order.t) :
  find (fun o => Order.orderNumber o =? n) l = None ->
  update_first n u l = (None, l).
Proof.
  induction l as [|x rest IH]; simpl; [reflexivity|].
  destruct (Order.orderNumber x =? n); [discriminate|].
  intros H. rewrite (IH H). reflexivity.
Qed.

Lemma update_first_found (n : string) (u : UpdateData.t) (l : list Order.t) (o : Order.t) :
  find (fun o => Order.orderNumber o =? n) l = Some o ->
  exists l',
    update_first n u l = (Some (apply_update u o), l')
    /\ find (fun o => Order.orderNumber o =? n) l' = Some (apply_update u o).
Proof.
  induction l as [|x rest IH]; simpl; [discriminate|].
  destruct (Order.orderNumber x =? n) eqn:Hx.
  - intros H; injection H as <-. eexists. split; [reflexivity|].
    simpl. rewrite Hx. reflexivity.
  - intros H. destruct (IH H) as (l' & -> & Hfind).
    eexists. split; [reflexivity|]. simpl. rewrite Hx. exact Hfind.
Qed.

(** A position of the collection keeps its document, or holds the
    updated one when the document has the given number. *)
Lemma update_first_nth (n : string) (u : UpdateData.t) (l : list Order.t) :
  forall i o,
    nth_error l i = Some o ->
    nth_error (snd (update_first n u l)) i = Some o
    \/ (Order.orderNumber o = n
        /\ nth_error (snd (update_first n u l)) i = Some (apply_update u o)).
Proof.
  induction l as [|x rest IH]; intros [|i] o H; simpl in *; try discriminate.
  - injection H as ->.
    destruct (Order.orderNumber o =? n) eqn:Ho; simpl.
    + right. apply String.eqb_eq in Ho. auto.
    + destruct (update_first n u rest) as [found rest']. simpl. auto.
  - destruct (Order.orderNumber x =? n); simpl; [auto|].
    specialize (IH i o H).
    destruct (update_first n u rest) as [found rest']. simpl in *. exact IH.
Qed.

Lemma update_first_length (n : string) (u : UpdateData.t) (l : list Order.t) :
  List.length (snd (update_first n u l)) = List.length l.
Proof.
  induction l as [|x rest IH]; simpl; [reflexivity|].
  destruct (Order.orderNumber x =? n); simpl; [reflexivity|].
  destruct (update_first n u rest) as [found rest']. simpl in *. congruence.
Qed.

Lemma includes_validStatuses (status : option string) :
  includes validStatuses status = true <->
  exists s, status = Some s
            /\ (s = "pending" \/ s = "confirmed" \/ s = "preparing"
                \/ s = "out-for-delivery" \/ s = "delivered" \/ s = "cancelled").
Proof.
  unfold includes, validStatuses. split.
  - destruct status as [s|]; [|discriminate].
    intros H. exists s. split; [reflexivity|].
    apply existsb_exists in H. destruct H as (x & Hin & Heq).
    apply String.eqb_eq in Heq. subst x. simpl in Hin.
    intuition auto.
  - intros (s & -> & H). apply existsb_exists. exists s.
    split; [simpl; intuition auto|apply String.eqb_refl].
Qed.

(** The view of the line at a position is built from that line and from
    the catalog document its reference names now. *)
Lemma items_view_nth (w : World) (items : list OrderItem.t) :
  forall i item,
    nth_error items i = Some item ->
    nth_error
      (items_view items
         (map (fun l => MenuItem_findById w (OrderItem.menuItem l)) items)) i
    = Some (item_view item (MenuItem_findById w (OrderItem.menuItem item))).
Proof.
  unfold items_view.
  induction items as [|x rest IH]; intros [|i] item H; simpl in *; try discriminate.
  - injection H as ->. reflexivity.
  - apply IH. exact H.
Qed.

Lemma items_view_length (w : World) (items : list OrderItem.t) :
  List.length
    (items_view items
       (map (fun l => MenuItem_findById w (OrderItem.menuItem l)) items))
  = List.length items.
Proof.
  unfold items_view. rewrite length_map, length_combine, length_map.
  apply Nat.min_id.
Qed.

(** ** Decimal digits and padding *)

Section Digits.

Local Open Scope N_scope.

Lemma append_assoc (a b c : string) : ((a ++ b) ++ c = a ++ (b ++ c))%string.
Proof. induction a as [|x a IH]; simpl; [reflexivity|]. rewrite IH. reflexivity. Qed.

Lemma length_append (a b : string) :
  String.length (a ++ b) = (String.length a + String.length b)%nat.
Proof. induction a as [|x a IH]; simpl; [reflexivity|]. rewrite IH. reflexivity. Qed.

Lemma digits_acc_app (fuel : nat) :
  forall n acc,
    JS.digits_acc fuel n acc = (JS.digits_acc fuel n EmptyString ++ acc)%string.
Proof.
  induction fuel as [|f IH]; intros n acc; simpl; [reflexivity|].
  destruct (n <? 10); [reflexivity|].
  rewrite IH. rewrite (IH _ (String _ EmptyString)).
  rewrite append_assoc. reflexivity.
Qed.

(** Any fuel that covers the digits of [n] gives the same string. *)
Lemma digits_acc_fuel (f1 : nat) :
  forall f2 n acc,
    n < 10 ^ N.of_nat (S f1) ->
    n < 10 ^ N.of_nat (S f2) ->
    JS.digits_acc f1 n acc = JS.digits_acc f2 n acc.
Proof.
  induction f1 as [|f1 IH]; intros f2 n acc H1 H2.
  - change (10 ^ N.of_nat 1) with 10 in H1.
    apply N.ltb_lt in H1. destruct f2; simpl; [reflexivity|].
    rewrite H1. reflexivity.
  - simpl. destruct (n <? 10) eqn:Hn.
    + destruct f2; simpl; [reflexivity|]. rewrite Hn. reflexivity.
    + apply N.ltb_ge in Hn. destruct f2 as [|f2].
      * change (10 ^ N.of_nat 1) with 10 in H2. lia.
      * simpl. apply N.ltb_ge in Hn. rewrite Hn.
        rewrite Nat2N.inj_succ, N.pow_succ_r' in H1, H2.
        apply IH; apply N.Div0.div_lt_upper_bound; lia.
Qed.

Lemma fuel_enough (n : N) : n < 10 ^ N.of_nat (S (N.to_nat (N.log2 n))).
Proof.
  rewrite Nat2N.inj_succ, N2Nat.id.
  destruct (N.eq_dec n 0) as [->|Hn]; [reflexivity|].
  destruct (N.log2_spec n) as [_ Hlt]; [lia|].
  apply N.lt_le_trans with (1 := Hlt).
  apply N.pow_le_mono_l. lia.
Qed.

Lemma Number_toString_small (n : N) :
  n < 10 -> JS.Number_toString n = String (JS.digit_char n) EmptyString.
Proof.
  intros Hn. unfold JS.Number_toString.
  rewrite (digits_acc_fuel _ 0 n EmptyString (fuel_enough n)).
  - simpl. rewrite N.mod_small by exact Hn. reflexivity.
  - exact Hn.
Qed.

Lemma Number_toString_step (n : N) :
  10 <= n ->
  JS.Number_toString n
  = (JS.Number_toString (n / 10) ++ String (JS.digit_char (n mod 10)) EmptyString)%string.
Proof.
  intros Hn. unfold JS.Number_toString.
  pose proof (fuel_enough n) as Hfuel.
  destruct (N.to_nat (N.log2 n)) as [|f].
  - change (10 ^ N.of_nat 1) with 10 in Hfuel. lia.
  - simpl. apply N.ltb_ge in Hn. rewrite Hn. apply N.ltb_ge in Hn.
    rewrite digits_acc_app. f_equal.
    apply digits_acc_fuel.
    + rewrite Nat2N.inj_succ, N.pow_succ_r' in Hfuel.
      apply N.Div0.div_lt_upper_bound; lia.
    + apply fuel_enough.
Qed.

Lemma length_Number_toString_small (n : N) :
  n < 10 -> String.length (JS.Number_toString n) = 1%nat.
Proof. intros Hn. rewrite Number_toString_small by exact Hn. reflexivity. Qed.

Lemma length_Number_toString_step (n : N) :
  10 <= n ->
  String.length (JS.Number_toString n)
  = S (String.length (JS.Number_toString (n / 10))).
Proof.
  intros Hn. rewrite Number_toString_step by exact Hn.
  rewrite length_append. simpl. lia.
Qed.

Lemma length_Number_toString_pos (n : N) :
  (1 <= String.length (JS.Number_toString n))%nat.
Proof.
  destruct (N.lt_ge_cases n 10) as [H|H].
  - rewrite length_Number_toString_small by exact H. lia.
  - rewrite length_Number_toString_step by exact H. lia.
Qed.

(** A number below 1000 has at most three digits, and a number from
    1000 on has more. *)
Lemma length_Number_toString_below_1000 (n : N) :
  n < 1000 -> (String.length (JS.Number_toString n) <= 3)%nat.
Proof.
  intros Hn.
  destruct (N.lt_ge_cases n 10) as [H1|H1];
    [rewrite length_Number_toString_small by exact H1; lia|].
  rewrite length_Number_toString_step by exact H1.
  assert (Hd : n / 10 < 100) by (apply N.Div0.div_lt_upper_bound; lia).
  destruct (N.lt_ge_cases (n / 10) 10) as [H2|H2];
    [rewrite length_Number_toString_small by exact H2; lia|].
  rewrite length_Number_toString_step by exact H2.
  rewrite length_Number_toString_small; [lia|].
  apply N.Div0.div_lt_upper_bound; lia.
Qed.

Lemma div_10_ge (n k : N) : 10 * k <= n -> k <= n / 10.
Proof. intros H. apply N.div_le_lower_bound; lia. Qed.

Lemma length_Number_toString_from_1000 (n : N) :
  1000 <= n -> (3 < String.length (JS.Number_toString n))%nat.
Proof.
  intros Hn.
  pose proof (div_10_ge n 100 ltac:(lia)) as H1.
  pose proof (div_10_ge (n / 10) 10 ltac:(lia)) as H2.
  pose proof (div_10_ge (n / 10 / 10) 1 ltac:(lia)) as H3.
  rewrite length_Number_toString_step by lia.
  rewrite length_Number_toString_step by lia.
  rewrite length_Number_toString_step by lia.
  pose proof (length_Number_toString_pos (n / 10 / 10 / 10)). lia.
Qed.

(** A clock past the first hundred seconds has at least six digits. *)
Lemma length_Number_toString_from_100000 (n : N) :
  100000 <= n -> (6 <= String.length (JS.Number_toString n))%nat.
Proof.
  intros Hn.
  pose proof (div_10_ge n 10000 ltac:(lia)) as H1.
  pose proof (div_10_ge (n / 10) 1000 ltac:(lia)) as H2.
  pose proof (div_10_ge (n / 10 / 10) 100 ltac:(lia)) as H3.
  pose proof (div_10_ge (n / 10 / 10 / 10) 10 ltac:(lia)) as H4.
  pose proof (div_10_ge (n / 10 / 10 / 10 / 10) 1 ltac:(lia)) as H5.
  do 5 (rewrite length_Number_toString_step by lia).
  pose proof (length_Number_toString_pos (n / 10 / 10 / 10 / 10 / 10)). lia.
Qed.

Lemma length_repeat_char (c : ascii) (n : nat) :
  String.length (JS.repeat_char c n) = n.
Proof. induction n as [|n IH]; simpl; [reflexivity|]. rewrite IH. reflexivity. Qed.

Lemma length_padStart (target : nat) (c : ascii) (s : string) :
  String.length (JS.padStart target c s) = Nat.max target (String.length s).
Proof.
  unfold JS.padStart. rewrite length_append, length_repeat_char. lia.
Qed.

Lemma length_drop (n : nat) :
  forall s, String.length (JS.drop n s) = (String.length s - n)%nat.
Proof.
  induction n as [|n IH]; intros [|c s]; simpl; try reflexivity.
  apply IH.
Qed.

Lemma length_slice_last (k : nat) (s : string) :
  String.length (JS.slice_last k s) = Nat.min k (String.length s).
Proof. unfold JS.slice_last. rewrite length_drop. lia. Qed.

Lemma decimal_acc_app (s t : string) :
  forall acc, decimal_acc acc (s ++ t) = decimal_acc (decimal_acc acc s) t.
Proof. induction s as [|c s IH]; simpl; intros acc; [reflexivity|apply IH]. Qed.

Lemma decimal_digit_char (acc d : N) :
  d < 10 ->
  decimal_acc acc (String (JS.digit_char d) EmptyString) = 10 * acc + d.
Proof.
  intros Hd. simpl. unfold JS.digit_char.
  rewrite N_ascii_embedding by lia. lia.
Qed.

(** Printing a number and reading it back gives the number. *)
Lemma decimal_Number_toString (n : N) : decimal (JS.Number_toString n) = n.
Proof.
  unfold decimal.
  induction n as [n IH] using (well_founded_induction N.lt_wf_0).
  destruct (N.lt_ge_cases n 10) as [Hn|Hn].
  - rewrite Number_toString_small by exact Hn.
    rewrite decimal_digit_char by exact Hn. lia.
  - rewrite Number_toString_step by exact Hn.
    rewrite decimal_acc_app, IH by (apply N.Div0.div_lt_upper_bound; lia).
    rewrite decimal_digit_char by (apply N.mod_lt; lia).
    rewrite (N.div_mod n 10) at 3 by lia. reflexivity.
Qed.

Lemma decimal_acc_zeros (k : nat) (s : string) :
  decimal_acc 0 (JS.repeat_char "0" k ++ s) = decimal_acc 0 s.
Proof. induction k as [|k IH]; simpl; [reflexivity|exact IH]. Qed.

(** Zero padding does not change the number read. *)
Lemma decimal_padStart (target : nat) (n : N) :
  decimal (JS.padStart target "0" (JS.Number_toString n)) = n.
Proof.
  unfold decimal, JS.padStart. rewrite decimal_acc_zeros.
  apply decimal_Number_toString.
Qed.

Lemma drop_append (a b : string) : JS.drop (String.length a) (a ++ b) = b.
Proof. induction a as [|c a IH]; simpl; [destruct b; reflexivity|exact IH]. Qed.

End Digits.

(** ** The server over time *)

Section Runs.

Variable platform : Platform.

(** What POST / does to the world: nothing, or one document appended,
    the one the pre-save hook builds, under a number no order has. *)
Lemma post_orders_world (w : World) (body : Req.t) :
  snd (post_orders platform w body) = w
  \/ exists d,
       orderNumber_taken w
         (Order.orderNumber (orderSchema_pre_save w (delays platform w) d)) = false
       /\ snd (post_orders platform w body)
          = {| now := Order.updatedAt (orderSchema_pre_save w (delays platform w) d);
               menuitems := menuitems w;
               orders := orders w ++ [orderSchema_pre_save w (delays platform w) d] |}.
Proof.
  destruct (post_orders platform w body) as [res w'] eqn:H.
  destruct (Nat.eq_dec (Res.status res) 201) as [H201|Hnot].
  - right.
    destruct (post_orders_created _ _ _ _ _ H H201)
      as (c & a & items & subtotal & validatedItems & o & _ & _ & _ & _ & Hsave & _).
    apply Order_save_inr in Hsave. destruct Hsave as (-> & _ & Htaken & ->).
    eexists. split; [exact Htaken|reflexivity].
  - left. simpl. eapply post_orders_refused; eassumption.
Qed.

(** What PUT /:orderNumber/status does to the world: nothing, or the
    update of the first order with that number. *)
Lemma put_status_world (w : World) (orderNumber : string) (status : option string) :
  snd (put_status w orderNumber status) = w
  \/ exists s,
       status = Some s
       /\ In s validStatuses
       /\ snd (put_status w orderNumber status)
          = {| now := now w;
               menuitems := menuitems w;
               orders :=
                 snd (update_first orderNumber
                        {| UpdateData.status := s;
                           UpdateData.actualDeliveryTime :=
                             if s =? "delivered" then Some (now w) else None |}
                        (orders w)) |}.
Proof.
  unfold put_status, Order_findOneAndUpdate.
  destruct (includes validStatuses status) eqn:Hvalid; simpl; [|auto].
  destruct status as [s|]; [|discriminate].
  destruct (update_first orderNumber _ (orders w)) as [[order'|] l] eqn:Hupdate;
    simpl; [|auto].
  right. exists s. split; [reflexivity|]. split; [|rewrite Hupdate; reflexivity].
  unfold includes in Hvalid. apply existsb_exists in Hvalid.
  destruct Hvalid as (x & Hin & Heq). apply String.eqb_eq in Heq.
  subst x. exact Hin.
Qed.

Lemma map_orderNumber_update_first (n : string) (u : UpdateData.t) (l : list Order.t) :
  map Order.orderNumber (snd (update_first n u l)) = map Order.orderNumber l.
Proof.
  induction l as [|x rest IH]; simpl; [reflexivity|].
  destruct (Order.orderNumber x =? n); simpl; [reflexivity|].
  destruct (update_first n u rest) as [found rest']. simpl in *. congruence.
Qed.

Lemma Forall_update_first (P : Order.t -> Prop) (n : string) (u : UpdateData.t)
  (l : list Order.t) :
  (forall o, P o -> P (apply_update u o)) ->
  Forall P l ->
  Forall P (snd (update_first n u l)).
Proof.
  intros Hupdate. induction l as [|x rest IH]; simpl; intros H; [constructor|].
  inversion H as [|? ? Hx Hrest]; subst.
  destruct (Order.orderNumber x =? n); simpl; [constructor; auto|].
  specialize (IH Hrest).
  destruct (update_first n u rest) as [found rest']. simpl in *.
  constructor; assumption.
Qed.

(** A property of the initial worlds that every step keeps holds in
    every reachable world. *)
Lemma reachable_invariant (I : World -> Prop) :
  (forall w, initial w -> I w) ->
  (forall w e, I w -> I (step platform w e)) ->
  forall w, reachable platform w -> I w.
Proof.
  intros Hinit Hstep w (w0 & events & H0 & <-).
  apply Hinit in H0. clear Hinit. revert w0 H0.
  induction events as [|e events IH]; intros w0 H0; simpl; [exact H0|].
  apply IH. apply Hstep. exact H0.
Qed.

Lemma created_in_the_past_reachable (w : World) :
  reachable platform w -> created_in_the_past w.
Proof.
  apply reachable_invariant; unfold created_in_the_past.
  - intros w0 H0. rewrite H0. constructor.
  - intros w0 [ms|catalog|[body|n|q|n status]] H; simpl; try exact H.
    + eapply Forall_impl; [|exact H]. simpl. intros o Ho. lia.
    + destruct (post_orders_world w0 body) as [->|(d & _ & ->)]; [exact H|].
      simpl. apply Forall_app. split.
      * eapply Forall_impl; [|exact H]. simpl. intros o Ho. lia.
      * constructor; [simpl; lia|constructor].
    + destruct (put_status_world w0 n status) as [->|(s & _ & _ & ->)]; [exact H|].
      simpl. apply Forall_update_first; [|exact H].
      intros o Ho. exact Ho.
Qed.

Lemma updated_in_the_past_reachable (w : World) :
  reachable platform w -> updated_in_the_past w.
Proof.
  apply reachable_invariant; unfold updated_in_the_past.
  - intros w0 H0. rewrite H0. constructor.
  - intros w0 [ms|catalog|[body|n|q|n status]] H; simpl; try exact H.
    + eapply Forall_impl; [|exact H]. simpl. intros o Ho. lia.
    + destruct (post_orders_world w0 body) as [->|(d & _ & ->)]; [exact H|].
      simpl. apply Forall_app. split.
      * eapply Forall_impl; [|exact H]. simpl. intros o Ho. lia.
      * constructor; [simpl; lia|constructor].
    + destruct (put_status_world w0 n status) as [->|(s & _ & _ & ->)]; [exact H|].
      simpl. apply Forall_update_first; [|exact H].
      intros o Ho. exact Ho.
Qed.

Lemma numbered_reachable (w : World) : reachable platform w -> numbered w.
Proof.
  apply reachable_invariant; unfold numbered.
  - intros w0 H0 i o. rewrite H0. destruct i; discriminate.
  - intros w0 [ms|catalog|[body|n|q|n status]] H i o; simpl; try apply H.
    + destruct (post_orders_world w0 body) as [->|(d & _ & ->)]; [apply H|].
      simpl. intros Hi.
      destruct (Nat.lt_ge_cases i (List.length (orders w0))) as [Hlt|Hge].
      * rewrite nth_error_app1 in Hi by exact Hlt. apply H. exact Hi.
      * rewrite nth_error_app2 in Hi by exact Hge.
        destruct (i - List.length (orders w0))%nat as [|k] eqn:Hk;
          [|destruct k; discriminate].
        injection Hi as <-. simpl. unfold Order_countDocuments.
        replace i with (List.length (orders w0)) by lia.
        exists (now w0 + Delays.to_number (delays platform w0))%N.
        split; [lia|]. split; [lia|]. split; [lia|reflexivity].
    + destruct (put_status_world w0 n status) as [->|(s & _ & _ & ->)]; [apply H|].
      simpl. intros Hi.
      assert (Hsome : exists o0, nth_error (orders w0) i = Some o0).
      { destruct (nth_error (orders w0) i) as [o0|] eqn:Ho0; [eauto|].
        apply nth_error_None in Ho0.
        assert (Hnone : nth_error (snd (update_first n
                   {| UpdateData.status := s;
                      UpdateData.actualDeliveryTime :=
                        if s =? "delivered" then Some (now w0) else None |}
                   (orders w0))) i = None).
        { apply nth_error_None. rewrite update_first_length. exact Ho0. }
        congruence. }
      destruct Hsome as [o0 Ho0].
      destruct (update_first_nth n
                  {| UpdateData.status := s;
                     UpdateData.actualDeliveryTime :=
                       if s =? "delivered" then Some (now w0) else None |}
                  _ _ _ Ho0) as [Hsame|[_ Hupdated]].
      * rewrite Hsame in Hi. injection Hi as <-. apply H. exact Ho0.
      * rewrite Hupdated in Hi. injection Hi as <-. simpl. apply H. exact Ho0.
Qed.

(** The totals of every stored order agree with its lines. *)
Lemma priced_reachable (w : World) :
  reachable platform w -> Forall priced (orders w).
Proof.
  revert w. apply (reachable_invariant (fun w => Forall priced (orders w))).
  - intros w0 H0. rewrite H0. constructor.
  - intros w0 [ms|catalog|[body|n|q|n status]] H; simpl; try exact H.
    + destruct (post_orders platform w0 body) as [res w'] eqn:Hpost. simpl.
      destruct (Nat.eq_dec (Res.status res) 201) as [H201|Hnot].
      * destruct (post_orders_stored _ _ _ _ _ Hpost H201)
          as (items & lines & o & _ & _ & Hlines & Hsub & Hfee & Htotal & -> & _).
        apply Forall_app. split; [exact H|].
        constructor; [|constructor].
        unfold priced. rewrite Hlines. auto.
      * rewrite (post_orders_refused _ _ _ _ _ Hpost Hnot). exact H.
    + destruct (put_status_world w0 n status) as [->|(s & _ & _ & ->)]; [exact H|].
      simpl. apply Forall_update_first; [|exact H].
      intros o Ho. exact Ho.
Qed.

Lemma run_reachable (w0 : World) (events : list Event) :
  initial w0 -> reachable platform (run platform w0 events).
Proof. intros H0. exists w0, events. split; [exact H0|reflexivity]. Qed.

(** No two stored orders share a number. *)
Lemma distinct_numbers_reachable (w : World) :
  reachable platform w -> NoDup (map Order.orderNumber (orders w)).
Proof.
  revert w.
  apply (reachable_invariant (fun w => NoDup (map Order.orderNumber (orders w)))).
  - intros w0 H0. rewrite H0. constructor.
  - intros w0 [ms|catalog|[body|n|q|n status]] H; simpl; try exact H.
    + destruct (post_orders_world w0 body) as [->|(d & Htaken & ->)]; [exact H|].
      simpl. rewrite map_app. simpl.
      apply NoDup_app; [exact H|repeat constructor; simpl; tauto|].
      intros x Hx [<-|[]].
      apply in_map_iff in Hx. destruct Hx as (o & Ho & Hin).
      unfold orderNumber_taken in Htaken.
      assert (Hex : existsb (fun o0 => Order.orderNumber o0
                                       =? Order.orderNumber
                                            (orderSchema_pre_save w0
                                               (delays platform w0) d))
                      (orders w0) = true).
      { apply existsb_exists. exists o. split; [exact Hin|].
        apply String.eqb_eq. exact Ho. }
      congruence.
    + destruct (put_status_world w0 n status) as [->|(s & _ & _ & ->)]; [exact H|].
      simpl. rewrite map_orderNumber_update_first. exact H.
Qed.

End Runs.

(** * The claims *)

(** C1.  For every successfully created order, [deliveryFee] is 0 when
    [subtotal >= 300] and 30 otherwise, and [total] is
    [subtotal + deliveryFee], in the stored order and in the response,
    and this stays so in every world the server can reach.  In particular
    a single line for an item whose catalog price is 80 gives subtotal
    160, fee 30, total 190 at quantity 2, and subtotal 320, fee 0, total
    320 at quantity 4. *)
Theorem created_order_fee_and_total (platform : Platform) :
  (forall (w w' : World) (body : Req.t) (res : Res.t),
     post_orders platform w body = (res, w') ->
     Res.status res = 201 ->
     exists o,
       orders w' = orders w ++ [o]
       /\ Order.deliveryFee o
          = (if (300 <=? Order.subtotal o)%float then 0%float else 30%float)
       /\ Order.total o = (Order.subtotal o + Order.deliveryFee o)%float
       /\ Json.member "data" (Res.body res)
          = Some (Json.Obj [("orderNumber", Json.Str (Order.orderNumber o));
                            ("total", Json.Num (Order.total o));
                            ("estimatedDeliveryTime",
                             Json.Date (Order.estimatedDeliveryTime o));
                            ("status", Json.Str (Order.status o))])
       /\ forall item m,
            Req.items body = Some [item] ->
            resolve w item = Some m ->
            MenuItem.price m = 80%float ->
            (ReqItem.quantity item = Some 2%float ->
             Order.subtotal o = 160%float /\ Order.deliveryFee o = 30%float
             /\ Order.total o = 190%float)
            /\ (ReqItem.quantity item = Some 4%float ->
                Order.subtotal o = 320%float /\ Order.deliveryFee o = 0%float
                /\ Order.total o = 320%float))
  /\ (forall (w : World) (o : Order.t),
        reachable platform w ->
        In o (orders w) ->
        Order.deliveryFee o
        = (if (300 <=? Order.subtotal o)%float then 0%float else 30%float)
        /\ Order.total o = (Order.subtotal o + Order.deliveryFee o)%float).
Proof.
  split.
  - intros w w' body res H H201.
    destruct (post_orders_stored _ _ _ _ _ H H201)
      as (items & lines & o & Hitems & Hmap & Hlines & Hsub & Hfee & Htotal
          & Horders & _ & _ & Hres).
    exists o. split; [exact Horders|]. split; [exact Hfee|].
    split; [exact Htotal|]. split; [subst res; reflexivity|].
    intros item m Hbody Hresolve Hprice.
    rewrite Hitems in Hbody. injection Hbody as ->.
    destruct lines as [|l [|l' lines]]; try discriminate.
    simpl in Hmap. injection Hmap as Hsnap.
    unfold snapshot in Hsnap. rewrite Hresolve in Hsnap.
    split; intros Hq; rewrite Hq in Hsnap; injection Hsnap as <-.
    + assert (Hs : Order.subtotal o = 160%float).
      { rewrite Hsub. unfold sum_line_totals, add_lines. simpl. rewrite Hprice.
        reflexivity. }
      rewrite Htotal, Hfee, Hs. repeat split; reflexivity.
    + assert (Hs : Order.subtotal o = 320%float).
      { rewrite Hsub. unfold sum_line_totals, add_lines. simpl. rewrite Hprice.
        reflexivity. }
      rewrite Htotal, Hfee, Hs. repeat split; reflexivity.
  - intros w o Hreach Hin.
    pose proof (priced_reachable platform w Hreach) as Hall.
    rewrite Forall_forall in Hall. destruct (Hall o Hin) as (_ & Hfee & Htotal).
    split; [exact Hfee|exact Htotal].
Qed.

Lemma created_order_fee_and_total_witness :
  Res.status (fst (Sample.placed 2)) = 201
  /\ exists o,
       orders (snd (Sample.placed 2)) = [o]
       /\ Order.subtotal o = 160%float
       /\ Order.deliveryFee o = 30%float
       /\ Order.total o = 190%float.
Proof.
  split; [reflexivity|].
  destruct (created_order_fee_and_total Sample.server) as [Hcreated _].
  destruct (Hcreated Sample.world (snd (Sample.placed 2))
              (Sample.order_of [Sample.line 2]) (fst (Sample.placed 2)))
    as (o & Ho & _ & _ & _ & Hexample).
  - vm_compute. reflexivity.
  - reflexivity.
  - exists o. split; [exact Ho|].
    destruct (Hexample (Sample.line 2) Sample.cappuccino) as [H2 _];
      try reflexivity.
    apply H2. reflexivity.
Defined.

(** C2.  For every successfully created order, the stored line items are
    the snapshots of the resolved catalog documents (their id, name,
    price and image) with the requested quantities, in input order; the
    subtotal is the sum of catalog price times quantity over them, and
    stays the sum over the stored lines in every world the server can
    reach; and what the client says about an item's name or price changes
    neither the stored state nor the response. *)
Theorem created_order_lines_from_catalog (platform : Platform) :
  (forall (w w' : World) (body : Req.t) (res : Res.t),
     post_orders platform w body = (res, w') ->
     Res.status res = 201 ->
     (exists items lines o,
        Req.items body = Some items
        /\ orders w' = orders w ++ [o]
        /\ map (snapshot w) items = map Some lines
        /\ Order.items o = lines
        /\ Order.subtotal o = sum_line_totals lines)
     /\ post_orders platform w (forget body) = (res, w'))
  /\ (forall (w : World) (o : Order.t),
        reachable platform w ->
        In o (orders w) ->
        Order.subtotal o = sum_line_totals (Order.items o)).
Proof.
  split.
  - intros w w' body res H H201. split.
    + destruct (post_orders_stored _ _ _ _ _ H H201)
        as (items & lines & o & Hitems & Hmap & Hlines & Hsub & _ & _ & Horders & _).
      exists items, lines, o. auto.
    + rewrite <- H. apply post_orders_forget.
      rewrite H. exact H201.
  - intros w o Hreach Hin.
    pose proof (priced_reachable platform w Hreach) as Hall.
    rewrite Forall_forall in Hall. destruct (Hall o Hin) as (Hsub & _).
    exact Hsub.
Qed.

Lemma created_order_lines_from_catalog_witness :
  Res.status (fst (Sample.placed 4)) = 201
  /\ (exists o,
        orders (snd (Sample.placed 4)) = [o]
        /\ map OrderItem.name (Order.items o) = ["CAPPUCCINO"]
        /\ map OrderItem.price (Order.items o) = [80%float]
        /\ Order.subtotal o = 320%float)
  /\ post_orders Sample.server Sample.world
       (forget (Sample.order_of [Sample.line 4])) = Sample.placed 4.
Proof.
  split; [reflexivity|].
  destruct (created_order_lines_from_catalog Sample.server) as [Hcreated _].
  destruct (Hcreated Sample.world (snd (Sample.placed 4))
              (Sample.order_of [Sample.line 4]) (fst (Sample.placed 4)))
    as ((items & lines & o & Hitems & Horders & Hmap & Hlines & Hsub) & Hforget).
  - vm_compute. reflexivity.
  - reflexivity.
  - split.
    + exists o. split; [exact Horders|].
      injection Hitems as <-. vm_compute in Hmap.
      destruct lines as [|l [|l' lines]]; try discriminate Hmap.
      injection Hmap as <-.
      rewrite Hsub, Hlines. repeat split; reflexivity.
    + rewrite Hforget. vm_compute. reflexivity.
Defined.

(** C3, as stated, fails: a request of a valid line and a line for 2.5
    cappuccinos has an item with a bad quantity (not an integer), so it
    breaks a validation step as the specification words them; the route
    answers 201 and stores the order, with both lines. *)
Lemma fractional_quantity_order_stored :
  invalid_request_as_stated Sample.server Sample.world
    (Sample.order_of [Sample.line 2; Sample.line 2.5])
  /\ Res.status (fst (post_orders Sample.server Sample.world
                        (Sample.order_of [Sample.line 2; Sample.line 2.5]))) = 201
  /\ exists o,
       orders (snd (post_orders Sample.server Sample.world
                      (Sample.order_of [Sample.line 2; Sample.line 2.5]))) = [o]
       /\ map OrderItem.quantity (Order.items o) = [2%float; 2.5%float].
Proof.
  split.
  - do 6 right. exists [Sample.line 2; Sample.line 2.5], (Sample.line 2.5).
    split; [reflexivity|]. split; [simpl; auto|].
    vm_compute. discriminate.
  - split; [vm_compute; reflexivity|].
    eexists. split; [vm_compute; reflexivity|]. reflexivity.
Qed.

(** C3, amended.  Order creation is all-or-nothing for the requests the
    route refuses: a request that breaks a validation step as the route
    tests them (a missing customer, address or item list, an empty item
    list, a missing customer or address field, or any line with a bad id,
    an id the catalog lacks, an unavailable item, or a quantity that is
    missing, zero, NaN or below 1, even among valid lines) is answered
    with a 400 and leaves the collections as they were; an empty item
    list is answered with the missing-fields message; and whatever the
    request, a response other than 201 comes with an unchanged world.  A
    quantity that is at least 1 and not an integer is not refused. *)
Theorem invalid_request_refused_whole
  (platform : Platform) (w : World) (body : Req.t) :
  (invalid_request platform w body ->
   Res.status (fst (post_orders platform w body)) = 400
   /\ snd (post_orders platform w body) = w)
  /\ (Req.items body = Some [] ->
      post_orders platform w body
      = (failure 400 "Customer details, delivery address, and items are required", w))
  /\ (Res.status (fst (post_orders platform w body)) <> 201 ->
      snd (post_orders platform w body) = w).
Proof.
  split; [|split].
  - intros Hinvalid.
    destruct (invalid_request_violation platform w body Hinvalid) as [k Hk].
    pose proof (post_orders_first_violation platform w body) as Hpost.
    rewrite Hk in Hpost. rewrite Hpost. split; reflexivity.
  - intros Hempty. unfold post_orders. rewrite Hempty.
    destruct (Req.customer body), (Req.deliveryAddress body); reflexivity.
  - intros Hnot.
    destruct (post_orders platform w body) as [res w'] eqn:Hpost.
    eapply post_orders_refused; eassumption.
Qed.

Lemma invalid_request_refused_whole_witness :
  invalid_request Sample.server Sample.world
    (Sample.order_of [Sample.line 2; Sample.samosa_line])
  /\ Res.status (fst (post_orders Sample.server Sample.world
                        (Sample.order_of [Sample.line 2; Sample.samosa_line]))) = 400
  /\ snd (post_orders Sample.server Sample.world
            (Sample.order_of [Sample.line 2; Sample.samosa_line])) = Sample.world.
Proof.
  assert (Hinvalid : invalid_request Sample.server Sample.world
                       (Sample.order_of [Sample.line 2; Sample.samosa_line])).
  { do 6 right. exists [Sample.line 2; Sample.samosa_line], Sample.samosa_line.
    split; [reflexivity|]. split; [simpl; auto|].
    vm_compute. discriminate. }
  split; [exact Hinvalid|].
  destruct (invalid_request_refused_whole Sample.server Sample.world
              (Sample.order_of [Sample.line 2; Sample.samosa_line]))
    as (Hrefused & _ & _).
  exact (Hrefused Hinvalid).
Defined.

(** C4, as stated, fails: a single line for 2.5 cappuccinos is offending
    by the rule "an integer, at least 1", so the sequence as stated ends
    in InvalidQuantity; the route answers 201 and stores the order with
    quantity 2.5. *)
Lemma quantity_not_integer_accepted :
  integer_at_least_1 2 = true
  /\ integer_at_least_1 2.5 = false
  /\ first_violation Sample.server integer_at_least_1 Sample.world
       (Sample.order_of [Sample.line 2.5])
     = Some (InvalidQuantity "CAPPUCCINO")
  /\ Res.status (fst (Sample.placed 2.5)) = 201
  /\ exists o,
       orders (snd (Sample.placed 2.5)) = [o]
       /\ map OrderItem.quantity (Order.items o) = [2.5%float]
       /\ Order.subtotal o = 200%float.
Proof.
  split; [vm_compute; reflexivity|].
  split; [vm_compute; reflexivity|].
  split; [vm_compute; reflexivity|].
  split; [vm_compute; reflexivity|].
  eexists. split; [vm_compute; reflexivity|].
  split; reflexivity.
Qed.

(** C4, amended.  Validation is fail-fast in the stated order, and the
    first violation is the response: missing customer, address or items
    (or an empty item list), then a missing customer name, email or
    phone, then a missing street, area or pincode, then for each line in
    input order: a missing or syntactically invalid id (the message ends
    with the id), an id the catalog does not have, an unavailable item, a
    quantity that is missing, falsy or below 1.  A quantity need not be an
    integer.  A request with no violation goes on to [save]. *)
Theorem validation_first_violation_wins
  (platform : Platform) (w : World) (body : Req.t) :
  match first_violation platform truthy_not_below_1 w body with
  | Some k =>
      post_orders platform w body = (failure 400 (message_of k), w)
      /\ (forall id, k = InvalidItemId (Some id) ->
          message_of k = ("Invalid menu item ID: " ++ id)%string)
  | None =>
      exists d,
        post_orders platform w body
        = match Order_save platform w d with
          | inr (savedOrder, w') => (created savedOrder, w')
          | inl error => (post_catch platform error, w)
          end
  end.
Proof.
  pose proof (post_orders_first_violation platform w body) as H.
  destruct (first_violation platform truthy_not_below_1 w body) as [k|].
  - split; [exact H|]. intros id ->. reflexivity.
  - exact H.
Qed.

Lemma validation_first_violation_wins_witness :
  post_orders Sample.server Sample.world
    (Sample.order_of [Sample.line 2; Sample.samosa_line])
  = (failure 400 (message_of (ItemUnavailable "SAMOSA")), Sample.world).
Proof.
  pose proof (validation_first_violation_wins Sample.server Sample.world
                (Sample.order_of [Sample.line 2; Sample.samosa_line])) as H.
  assert (Hk : first_violation Sample.server truthy_not_below_1 Sample.world
                 (Sample.order_of [Sample.line 2; Sample.samosa_line])
               = Some (ItemUnavailable "SAMOSA"))
    by (vm_compute; reflexivity).
  rewrite Hk in H. exact (proj1 H).
Defined.

(** C5, as stated, fails: order numbers do not have a fixed width.  On
    the sample server the first order gets an 11-character number and the
    thousandth a 12-character one. *)
Lemma orderNumber_width_grows :
  reachable Sample.server Sample.busy
  /\ option_map Order.orderNumber (nth_error (orders Sample.busy) 0)
     = Some "CA000123001"
  /\ option_map Order.orderNumber (nth_error (orders Sample.busy) 999)
     = Some "CA9991231000"
  /\ String.length "CA000123001" = 11
  /\ String.length "CA9991231000" = 12.
Proof.
  split.
  - apply run_reachable. reflexivity.
  - split; [vm_compute; reflexivity|].
    split; [vm_compute; reflexivity|].
    split; reflexivity.
Qed.

(** C5, amended.  In every world the server can reach, the order at
    position [i] of the collection (the [i+1]-th created) has the number
    "CA", then the last six decimal digits of the clock as the pre-save
    hook read it (an instant [t] in milliseconds that is not before the
    order's [createdAt] and not after its [updatedAt], the estimated
    delivery being at least 45 minutes after [t] and at most 45 minutes
    after [updatedAt]), then [i + 1] in decimal, padded with zeros on
    the left to at least three characters.  The
    sequence part reads as the number [i + 1], so it grows by one with
    each order; it is three characters long up to the 999th order and
    longer from the 1000th on.  For an order created when the clock was
    past 100000 ms, the number is 11 characters long up to the 999th
    order and longer afterwards, and what follows its eighth character
    reads as [i + 1].  No two stored orders share a number. *)
Theorem orderNumber_format_and_distinct (platform : Platform) (w : World) :
  reachable platform w ->
  (forall i o,
     nth_error (orders w) i = Some o ->
     let sequence := JS.padStart 3 "0" (JS.Number_toString (N.of_nat i + 1)) in
     (exists t,
        (Order.createdAt o <= t)%N
        /\ (t + 2700000 <= Order.estimatedDeliveryTime o)%N
        /\ (Order.estimatedDeliveryTime o <= Order.updatedAt o + 2700000)%N
        /\ Order.orderNumber o
           = ("CA" ++ JS.slice_last 6 (JS.Number_toString t) ++ sequence)%string)
     /\ decimal sequence = (N.of_nat i + 1)%N
     /\ ((N.of_nat i + 1 < 1000)%N -> String.length sequence = 3)
     /\ ((1000 <= N.of_nat i + 1)%N -> 3 < String.length sequence)
     /\ ((100000 <= Order.createdAt o)%N ->
         decimal (JS.drop 8 (Order.orderNumber o)) = (N.of_nat i + 1)%N
         /\ ((N.of_nat i + 1 < 1000)%N -> String.length (Order.orderNumber o) = 11)
         /\ ((1000 <= N.of_nat i + 1)%N -> 11 < String.length (Order.orderNumber o))))
  /\ NoDup (map Order.orderNumber (orders w)).
Proof.
  intros Hreach. split; [|apply (distinct_numbers_reachable platform w Hreach)].
  intros i o Hi sequence.
  destruct (numbered_reachable platform w Hreach i o Hi)
    as (t & Hcreated & Hestimated & Hupdated & Hnumber).
  fold sequence in Hnumber.
  assert (Hseq : String.length sequence
                 = Nat.max 3 (String.length (JS.Number_toString (N.of_nat i + 1))))
    by apply length_padStart.
  assert (Hlen : String.length (Order.orderNumber o)
                 = 2 + Nat.min 6 (String.length (JS.Number_toString t))
                   + String.length sequence).
  { rewrite Hnumber, !length_append, length_slice_last.
    change (String.length "CA") with 2. lia. }
  split; [exists t; auto|].
  split; [apply decimal_padStart|].
  split; [|split].
  - intros Hsmall. apply length_Number_toString_below_1000 in Hsmall. lia.
  - intros Hbig. apply length_Number_toString_from_1000 in Hbig. lia.
  - intros Hclock.
    assert (Hdigits : 6 <= String.length (JS.Number_toString t)).
    { apply length_Number_toString_from_100000. lia. }
    split; [|split].
    + rewrite Hnumber, <- append_assoc.
      replace 8 with (String.length
                        ("CA" ++ JS.slice_last 6 (JS.Number_toString t))).
      * rewrite drop_append. apply decimal_padStart.
      * rewrite length_append, length_slice_last.
        change (String.length "CA") with 2. lia.
    + intros Hsmall. apply length_Number_toString_below_1000 in Hsmall. lia.
    + intros Hbig. apply length_Number_toString_from_1000 in Hbig. lia.
Qed.

Lemma orderNumber_format_and_distinct_witness :
  reachable Sample.slow (run Sample.slow Sample.world Sample.first_minute)
  /\ (forall o,
        nth_error (orders (run Sample.slow Sample.world Sample.first_minute)) 0
        = Some o ->
        Order.createdAt o = 1790000000123%N
        /\ Order.orderNumber o = "CA000130001"
        /\ String.length (Order.orderNumber o) = 11)
  /\ NoDup (map Order.orderNumber
              (orders (run Sample.slow Sample.world Sample.first_minute))).
Proof.
  assert (Hreach : reachable Sample.slow
                     (run Sample.slow Sample.world Sample.first_minute)).
  { apply run_reachable. reflexivity. }
  split; [exact Hreach|].
  destruct (orderNumber_format_and_distinct Sample.slow _ Hreach)
    as [Hformat Hdistinct].
  split; [|exact Hdistinct].
  intros o Ho. destruct (Hformat 0%nat o Ho) as (_ & _ & _ & _ & Hwidth).
  vm_compute in Ho. injection Ho as <-.
  split; [reflexivity|]. split; [reflexivity|].
  apply Hwidth; [|reflexivity]. vm_compute. discriminate.
Defined.

(** C6.  In every world the server can reach, a transition of an
    existing order to [delivered] sets its [actualDeliveryTime] to the
    current time, which is not before its [createdAt]; a transition to any
    other status of the enumeration leaves [actualDeliveryTime] as it was
    (unset, unless it was already set). *)
Theorem delivered_sets_actualDeliveryTime
  (platform : Platform) (w : World) (orderNumber status : string) (order : Order.t) :
  reachable platform w ->
  Order_findOne w orderNumber = Some order ->
  In status validStatuses ->
  exists order',
    Order_findOne (snd (put_status w orderNumber (Some status))) orderNumber
    = Some order'
    /\ Order.status order' = status
    /\ Order.createdAt order' = Order.createdAt order
    /\ (status = "delivered" ->
        Order.actualDeliveryTime order' = Some (now w)
        /\ (Order.createdAt order' <= now w)%N)
    /\ (status <> "delivered" ->
        Order.actualDeliveryTime order' = Order.actualDeliveryTime order).
Proof.
  intros Hreach Hfind Hvalid.
  assert (Hincludes : includes validStatuses (Some status) = true).
  { apply existsb_exists. exists status. split; [exact Hvalid|apply String.eqb_refl]. }
  assert (Hpast : (Order.createdAt order <= now w)%N).
  { pose proof (created_in_the_past_reachable platform w Hreach) as Hall.
    unfold created_in_the_past in Hall. rewrite Forall_forall in Hall.
    apply Hall. unfold Order_findOne in Hfind.
    apply find_some in Hfind. tauto. }
  unfold put_status, Order_findOneAndUpdate. rewrite Hincludes. simpl negb. cbv iota.
  unfold Order_findOne in Hfind.
  destruct (update_first_found orderNumber
              {| UpdateData.status := status;
                 UpdateData.actualDeliveryTime :=
                   if status =? "delivered" then Some (now w) else None |}
              _ _ Hfind) as (l' & -> & Hfind').
  exists (apply_update
            {| UpdateData.status := status;
               UpdateData.actualDeliveryTime :=
                 if status =? "delivered" then Some (now w) else None |} order).
  split; [exact Hfind'|]. split; [reflexivity|]. split; [reflexivity|].
  split.
  - intros ->. simpl. split; [reflexivity|exact Hpast].
  - intros Hother. apply String.eqb_neq in Hother. simpl. rewrite Hother. reflexivity.
Qed.

Lemma delivered_sets_actualDeliveryTime_witness :
  reachable Sample.server Sample.later
  /\ exists order',
       Order_findOne (snd (put_status Sample.later Sample.first_number (Some "delivered")))
         Sample.first_number = Some order'
       /\ Order.actualDeliveryTime order' = Some 1790000060123%N
       /\ Order.createdAt order' = 1790000000123%N.
Proof.
  assert (Hreach : reachable Sample.server Sample.later).
  { apply run_reachable. reflexivity. }
  split; [exact Hreach|].
  assert (Hfind : exists order,
             Order_findOne Sample.later Sample.first_number = Some order
             /\ Order.createdAt order = 1790000000123%N)
    by (vm_compute; eexists; split; reflexivity).
  destruct Hfind as (order & Hfind & Hcreated).
  destruct (delivered_sets_actualDeliveryTime Sample.server Sample.later
              Sample.first_number "delivered" order Hreach Hfind)
    as (order' & Hfind' & _ & Hsame & Hdelivered & _).
  - simpl. tauto.
  - exists order'. split; [exact Hfind'|].
    destruct (Hdelivered eq_refl) as [-> _].
    split; [reflexivity|]. rewrite Hsame. exact Hcreated.
Defined.

(** C7.  The status transition accepts exactly the six statuses of the
    enumeration.  Any other value (a missing one, or "shipped") is
    answered with 400 "Invalid status value" and changes nothing; a valid
    status for a number no order has is answered with 404 "Order not
    found" and changes nothing; a valid status for an existing order is
    answered with 200 and the updated order, which is then the stored
    one. *)
Theorem status_transition_responses
  (w : World) (orderNumber : string) (status : option string) :
  (includes validStatuses status = true <->
   exists s, status = Some s
             /\ (s = "pending" \/ s = "confirmed" \/ s = "preparing"
                 \/ s = "out-for-delivery" \/ s = "delivered" \/ s = "cancelled"))
  /\ (includes validStatuses status = false ->
      put_status w orderNumber status = (invalid_status, w))
  /\ put_status w orderNumber (Some "shipped") = (invalid_status, w)
  /\ (includes validStatuses status = true ->
      Order_findOne w orderNumber = None ->
      put_status w orderNumber status = (not_found, w))
  /\ (forall s order,
        status = Some s ->
        includes validStatuses status = true ->
        Order_findOne w orderNumber = Some order ->
        exists order' w',
          put_status w orderNumber status
          = ({| Res.status := 200;
                Res.body := Json.Obj [("success", Json.Bool true);
                                      ("message", Json.Str "Order status updated successfully");
                                      ("data", Json.Doc order' (populate w' order'))] |}, w')
          /\ Order.status order' = s
          /\ Order_findOne w' orderNumber = Some order').
Proof.
  split; [apply includes_validStatuses|].
  split; [|split; [reflexivity|split]].
  - intros H. unfold put_status. rewrite H. reflexivity.
  - intros H Hnone. unfold put_status, Order_findOneAndUpdate. rewrite H. simpl.
    unfold Order_findOne in Hnone.
    rewrite (update_first_missing _ _ _ Hnone). reflexivity.
  - intros s order -> H Hsome. unfold put_status, Order_findOneAndUpdate.
    rewrite H. simpl. unfold Order_findOne in Hsome.
    destruct (update_first_found orderNumber
                {| UpdateData.status := s;
                   UpdateData.actualDeliveryTime :=
                     if s =? "delivered" then Some (now w) else None |}
                _ _ Hsome) as (l' & -> & Hfind).
    eexists. eexists. split; [reflexivity|]. split; [reflexivity|].
    exact Hfind.
Qed.

Lemma status_transition_responses_witness :
  Order_findOne (snd (Sample.placed 2)) Sample.first_number <> None
  /\ Res.status (fst (put_status (snd (Sample.placed 2)) Sample.first_number
                        (Some "preparing"))) = 200
  /\ put_status (snd (Sample.placed 2)) Sample.first_number (Some "shipped")
     = (invalid_status, snd (Sample.placed 2))
  /\ put_status (snd (Sample.placed 2)) "CA000000000" (Some "preparing")
     = (not_found, snd (Sample.placed 2)).
Proof.
  destruct (status_transition_responses (snd (Sample.placed 2)) Sample.first_number
              (Some "preparing")) as (_ & _ & _ & _ & Hok).
  destruct (status_transition_responses (snd (Sample.placed 2)) "CA000000000"
              (Some "preparing")) as (_ & _ & Hshipped & Hmissing & _).
  split; [vm_compute; discriminate|].
  split.
  - assert (Hfind : exists order,
               Order_findOne (snd (Sample.placed 2)) Sample.first_number = Some order)
      by (vm_compute; eexists; reflexivity).
    destruct Hfind as [order Hfind].
    destruct (Hok "preparing" order eq_refl eq_refl Hfind) as (o' & w' & -> & _).
    reflexivity.
  - split.
    + vm_compute. reflexivity.
    + apply Hmissing; reflexivity.
Defined.

(** C8.  Looking up a number no order has answers 404 "Order not found".
    Looking up an existing order answers 200 with one view per stored
    line, in order, in which [name], [price] and [image] are the stored
    snapshot value when it is truthy, else the value of the catalog
    document the line refers to when that document exists and the value
    is truthy, else the default: "Unnamed Item", 0, the empty string. *)
Theorem lookup_falls_back_snapshot_catalog_default (w : World) (orderNumber : string) :
  (Order_findOne w orderNumber = None -> get_order w orderNumber = not_found)
  /\ forall order,
       Order_findOne w orderNumber = Some order ->
       exists data views,
         get_order w orderNumber
         = {| Res.status := 200;
              Res.body := Json.Obj [("success", Json.Bool true); ("data", data)] |}
         /\ Json.member "items" data = Some (Json.Arr views)
         /\ List.length views = List.length (Order.items order)
         /\ forall i item,
              nth_error (Order.items order) i = Some item ->
              exists name price image,
                nth_error views i
                = Some (Json.Obj [("name", Json.Str name);
                                  ("price", Json.Num price);
                                  ("quantity", Json.Num (OrderItem.quantity item));
                                  ("image", Json.Str image)])
                /\ (let live := MenuItem_findById w (OrderItem.menuItem item) in
                    (OrderItem.name item <> "" -> name = OrderItem.name item)
                    /\ (OrderItem.name item = "" ->
                        forall m, live = Some m -> MenuItem.name m <> "" ->
                                  name = MenuItem.name m)
                    /\ (OrderItem.name item = "" ->
                        (live = None \/ exists m, live = Some m /\ MenuItem.name m = "") ->
                        name = "Unnamed Item")
                    /\ (JS.truthy_number (OrderItem.price item) = true ->
                        price = OrderItem.price item)
                    /\ (JS.truthy_number (OrderItem.price item) = false ->
                        forall m, live = Some m ->
                                  JS.truthy_number (MenuItem.price m) = true ->
                                  price = MenuItem.price m)
                    /\ (JS.truthy_number (OrderItem.price item) = false ->
                        (live = None
                         \/ exists m, live = Some m
                                      /\ JS.truthy_number (MenuItem.price m) = false) ->
                        price = 0%float)
                    /\ (OrderItem.image item <> "" -> image = OrderItem.image item)
                    /\ (OrderItem.image item = "" ->
                        forall m, live = Some m -> MenuItem.image m <> "" ->
                                  image = MenuItem.image m)
                    /\ (OrderItem.image item = "" ->
                        (live = None \/ exists m, live = Some m /\ MenuItem.image m = "") ->
                        image = "")).
Proof.
  unfold get_order. split.
  - intros ->. reflexivity.
  - intros order ->. eexists. eexists. split; [reflexivity|].
    split; [reflexivity|]. split; [apply items_view_length|].
    intros i item Hi. do 3 eexists.
    split; [apply items_view_nth; exact Hi|].
    cbv zeta. unfold or_string, or_number, JS.truthy_string.
    repeat split.
    + intros H. apply String.eqb_neq in H. rewrite H. reflexivity.
    + intros Hn m Hl Hm. apply String.eqb_neq in Hm.
      rewrite Hn, Hl. simpl. rewrite Hm. reflexivity.
    + intros Hn [Hl|(m & Hl & Hm)]; rewrite Hn, Hl; simpl; rewrite ?Hm; reflexivity.
    + intros Hp. rewrite Hp. reflexivity.
    + intros Hp m Hl Hm. rewrite Hp, Hl. simpl. rewrite Hm. reflexivity.
    + intros Hp [Hl|(m & Hl & Hm)]; rewrite Hp, Hl; simpl; rewrite ?Hm; reflexivity.
    + intros H. apply String.eqb_neq in H. rewrite H. reflexivity.
    + intros Hn m Hl Hm. apply String.eqb_neq in Hm.
      rewrite Hn, Hl. simpl. rewrite Hm. reflexivity.
    + intros Hn [Hl|(m & Hl & Hm)]; rewrite Hn, Hl; simpl; rewrite ?Hm; reflexivity.
Qed.

Lemma lookup_falls_back_snapshot_catalog_default_witness :
  exists order data views,
    Order_findOne (snd (Sample.placed 2)) Sample.first_number = Some order
    /\ get_order (snd (Sample.placed 2)) Sample.first_number
       = {| Res.status := 200;
            Res.body := Json.Obj [("success", Json.Bool true); ("data", data)] |}
    /\ Json.member "items" data = Some (Json.Arr views)
    /\ List.length views = 1.
Proof.
  destruct (Order_findOne (snd (Sample.placed 2)) Sample.first_number)
    as [order|] eqn:Hfind; [|vm_compute in Hfind; discriminate].
  destruct (lookup_falls_back_snapshot_catalog_default
              (snd (Sample.placed 2)) Sample.first_number) as [_ Hfound].
  destruct (Hfound order Hfind) as (data & views & Hres & Hitems & Hlen & _).
  exists order, data, views.
  split; [reflexivity|]. split; [exact Hres|]. split; [exact Hitems|].
  rewrite Hlen. vm_compute in Hfind. injection Hfind as <-. reflexivity.
Defined.

(** C9.  The status transition does not touch [updatedAt], although the
    pre-save hook of the schema refreshes it on every save:
    [findOneAndUpdate] runs no save middleware.  On the sample server, an
    order placed at 1790000000123 and confirmed a minute later still has
    the [updatedAt] of its creation. *)
Lemma status_transition_leaves_updatedAt :
  now Sample.later = 1790000060123%N
  /\ option_map Order.updatedAt (Order_findOne Sample.later Sample.first_number)
     = Some 1790000000123%N
  /\ Res.status (fst (put_status Sample.later Sample.first_number (Some "confirmed")))
     = 200
  /\ option_map Order.status
       (Order_findOne (snd (put_status Sample.later Sample.first_number (Some "confirmed")))
          Sample.first_number)
     = Some "confirmed"
  /\ option_map Order.updatedAt
       (Order_findOne (snd (put_status Sample.later Sample.first_number (Some "confirmed")))
          Sample.first_number)
     = Some 1790000000123%N.
Proof.
  split; [vm_compute; reflexivity|].
  split; [vm_compute; reflexivity|].
  split; [vm_compute; reflexivity|].
  split; vm_compute; reflexivity.
Qed.

(** X14.  The frame of the order routes.  Whatever happens (time
    passing, a change of the catalog, or any call of an order route),
    every stored order stays at its position in the collection, so none
    is deleted, and keeps its
    [orderNumber], [customer], [deliveryAddress], [items], [subtotal],
    [deliveryFee], [total], [paymentMethod], [specialInstructions],
    [estimatedDeliveryTime], [createdAt] and [updatedAt].  The order is
    unchanged altogether unless the event is a status transition on its
    number to a status of the enumeration, which sets [status] and, when
    the status is [delivered], sets [actualDeliveryTime] to the current
    time. *)
Theorem stored_order_changes_only_by_status_transition
  (platform : Platform) (w : World) (e : Event) (i : nat) (o : Order.t) :
  nth_error (orders w) i = Some o ->
  List.length (orders w) <= List.length (orders (step platform w e))
  /\ exists o',
       nth_error (orders (step platform w e)) i = Some o'
       /\ same_but_status o o'
       /\ (o' = o
           \/ exists s,
                e = Call (PUT_status (Order.orderNumber o) (Some s))
                /\ In s validStatuses
                /\ Order.status o' = s
                /\ Order.actualDeliveryTime o'
                   = if s =? "delivered" then Some (now w)
                     else Order.actualDeliveryTime o).
Proof.
  intros Hi.
  destruct e as [ms|catalog|[body|n|q|n status]]; simpl;
    try (split; [lia|]; exists o; unchanged).
  - destruct (post_orders_world platform w body) as [->|(d & _ & ->)]; simpl.
    + split; [lia|]. exists o. unchanged.
    + split; [rewrite length_app; lia|]. exists o.
      split; [|unchanged].
      rewrite nth_error_app1; [exact Hi|].
      apply nth_error_Some. congruence.
  - destruct (put_status_world w n status) as [->|(s & -> & Hvalid & ->)]; simpl.
    + split; [lia|]. exists o. unchanged.
    + split; [rewrite update_first_length; lia|].
      destruct (update_first_nth n
                  {| UpdateData.status := s;
                     UpdateData.actualDeliveryTime :=
                       if s =? "delivered" then Some (now w) else None |}
                  _ _ _ Hi) as [Hsame|[<- Hupdated]].
      * exists o. unchanged.
      * eexists. split; [exact Hupdated|].
        split; [unchanged|].
        right. exists s. split; [reflexivity|]. split; [exact Hvalid|].
        split; [reflexivity|]. simpl. destruct (s =? "delivered"); reflexivity.
Qed.

Lemma stored_order_changes_only_by_status_transition_witness :
  exists o o',
    nth_error (orders Sample.later) 0 = Some o
    /\ nth_error
         (orders (step Sample.server Sample.later
                    (Call (PUT_status Sample.first_number (Some "delivered"))))) 0
       = Some o'
    /\ same_but_status o o'
    /\ Order.status o' = "delivered".
Proof.
  assert (Ho : exists o, nth_error (orders Sample.later) 0 = Some o)
    by (vm_compute; eexists; reflexivity).
  destruct Ho as [o Ho].
  destruct (stored_order_changes_only_by_status_transition Sample.server Sample.later
              (Call (PUT_status Sample.first_number (Some "delivered"))) 0 o Ho)
    as (_ & o' & Ho' & Hsame & _).
  exists o, o'. split; [exact Ho|]. split; [exact Ho'|]. split; [exact Hsame|].
  vm_compute in Ho'. injection Ho' as <-. reflexivity.
Defined.


(** C10.  For every existing order, the [data] of the lookup by
    orderNumber has exactly the keys [status], [estimatedDeliveryTime],
    [deliveryAddress], [paymentMethod], [items], [subtotal],
    [deliveryFee] and [totalAmount], in this order; the order's total is
    under [totalAmount], and there is no key [total] or [customer]; the
    address has the keys [street], [area], [city], [pincode] and
    [landmark]; and the response is the same whatever the order's
    customer name, email and phone are. *)
Theorem lookup_projection_fields (w : World) (orderNumber : string) (order : Order.t) :
  Order_findOne w orderNumber = Some order ->
  exists data,
    get_order w orderNumber
    = {| Res.status := 200;
         Res.body := Json.Obj [("success", Json.Bool true); ("data", data)] |}
    /\ Json.keys data
       = ["status"; "estimatedDeliveryTime"; "deliveryAddress"; "paymentMethod";
          "items"; "subtotal"; "deliveryFee"; "totalAmount"]
    /\ Json.member "totalAmount" data = Some (Json.Num (Order.total order))
    /\ Json.member "total" data = None
    /\ Json.member "customer" data = None
    /\ option_map Json.keys (Json.member "deliveryAddress" data)
       = Some ["street"; "area"; "city"; "pincode"; "landmark"]
    /\ forall c : Customer.t,
         order_view (with_customer c order) (populate w (with_customer c order)) = data.
Proof.
  intros Hfind. unfold get_order. rewrite Hfind.
  eexists. split; [reflexivity|]. repeat split; reflexivity.
Qed.

Lemma lookup_projection_fields_witness :
  exists order data,
    Order_findOne (snd (Sample.placed 4)) Sample.first_number = Some order
    /\ Res.body (get_order (snd (Sample.placed 4)) Sample.first_number)
       = Json.Obj [("success", Json.Bool true); ("data", data)]
    /\ Json.member "totalAmount" data = Some (Json.Num 320)
    /\ Json.member "total" data = None.
Proof.
  destruct (Order_findOne (snd (Sample.placed 4)) Sample.first_number)
    as [order|] eqn:Hfind; [|vm_compute in Hfind; discriminate].
  destruct (lookup_projection_fields (snd (Sample.placed 4)) Sample.first_number
              order Hfind) as (data & Hres & _ & Htotal & Hnone & _).
  exists order, data. split; [reflexivity|].
  rewrite Hres. split; [reflexivity|]. split; [|exact Hnone].
  rewrite Htotal. vm_compute in Hfind. injection Hfind as <-. reflexivity.
Defined.

(** * Further properties *)

(** ** Trimming and letter case *)

Lemma is_space_lower_char (c : ascii) : JS.is_space (JS.lower_char c) = JS.is_space c.
Proof. destruct c as [[] [] [] [] [] [] [] []]; reflexivity. Qed.

Lemma lower_char_idempotent (c : ascii) :
  JS.lower_char (JS.lower_char c) = JS.lower_char c.
Proof. destruct c as [[] [] [] [] [] [] [] []]; reflexivity. Qed.

Lemma toLowerCase_idempotent (s : string) :
  JS.toLowerCase (JS.toLowerCase s) = JS.toLowerCase s.
Proof.
  induction s as [|c s IH]; simpl; [reflexivity|].
  rewrite lower_char_idempotent, IH. reflexivity.
Qed.

Lemma toLowerCase_empty (s : string) : (JS.toLowerCase s =? "") = (s =? "").
Proof. destruct s; reflexivity. Qed.

Lemma trimStart_toLowerCase (s : string) :
  JS.trimStart (JS.toLowerCase s) = JS.toLowerCase (JS.trimStart s).
Proof.
  induction s as [|c s IH]; simpl; [reflexivity|].
  rewrite is_space_lower_char. destruct (JS.is_space c); [exact IH|reflexivity].
Qed.

Lemma trimEnd_toLowerCase (s : string) :
  JS.trimEnd (JS.toLowerCase s) = JS.toLowerCase (JS.trimEnd s).
Proof.
  induction s as [|c s IH]; simpl; [reflexivity|].
  rewrite is_space_lower_char, IH, toLowerCase_empty.
  destruct (JS.is_space c && (JS.trimEnd s =? "")); reflexivity.
Qed.

(** Trimming and lower-casing commute. *)
Lemma trim_toLowerCase (s : string) :
  JS.trim (JS.toLowerCase s) = JS.toLowerCase (JS.trim s).
Proof. unfold JS.trim. rewrite trimStart_toLowerCase, trimEnd_toLowerCase. reflexivity. Qed.

Lemma first_char_ok_trimStart (s : string) : first_char_ok (JS.trimStart s) = true.
Proof.
  induction s as [|c s IH]; simpl; [reflexivity|].
  destruct (JS.is_space c) eqn:Hc; [exact IH|]. simpl. rewrite Hc. reflexivity.
Qed.

Lemma last_char_ok_trimEnd (s : string) : last_char_ok (JS.trimEnd s) = true.
Proof.
  induction s as [|c s IH]; simpl; [reflexivity|].
  destruct (JS.is_space c) eqn:Hc; destruct (JS.trimEnd s) as [|c' r] eqn:Hr;
    simpl in *; rewrite ?Hc; auto.
Qed.

Lemma first_char_ok_trimEnd (s : string) :
  first_char_ok s = true -> first_char_ok (JS.trimEnd s) = true.
Proof.
  destruct s as [|c s]; simpl; [reflexivity|].
  intros Hc. apply negb_true_iff in Hc. rewrite Hc. simpl. rewrite Hc. reflexivity.
Qed.

(** What [trim] returns has no white space at either end. *)
Lemma trimmed_trim (s : string) : trimmed (JS.trim s).
Proof.
  unfold trimmed, JS.trim. split.
  - apply first_char_ok_trimEnd, first_char_ok_trimStart.
  - apply last_char_ok_trimEnd.
Qed.

Lemma trimStart_fixed (s : string) : first_char_ok s = true -> JS.trimStart s = s.
Proof.
  destruct s as [|c s]; simpl; [reflexivity|].
  intros Hc. apply negb_true_iff in Hc. rewrite Hc. reflexivity.
Qed.

Lemma trimEnd_fixed (s : string) : last_char_ok s = true -> JS.trimEnd s = s.
Proof.
  induction s as [|c s IH]; simpl; [reflexivity|].
  destruct s as [|c' r].
  - intros Hc. apply negb_true_iff in Hc. simpl. rewrite Hc. reflexivity.
  - intros Hlast. rewrite (IH Hlast). rewrite andb_false_r. reflexivity.
Qed.

Lemma trim_fixed (s : string) : trimmed s -> JS.trim s = s.
Proof.
  intros [Hfirst Hlast]. unfold JS.trim.
  rewrite (trimStart_fixed _ Hfirst). apply trimEnd_fixed. exact Hlast.
Qed.

(** Trimming twice is trimming once. *)
Lemma trim_idempotent (s : string) : JS.trim (JS.trim s) = JS.trim s.
Proof. apply trim_fixed, trimmed_trim. Qed.

Lemma trimmed_toLowerCase (s : string) : trimmed s -> trimmed (JS.toLowerCase s).
Proof.
  intros H. rewrite <- (trim_fixed _ H), <- trim_toLowerCase. apply trimmed_trim.
Qed.

(** ** Schema validation at save *)

Lemma truthy_string_true (s : string) :
  JS.truthy_string s = true <-> s <> "".
Proof.
  unfold JS.truthy_string. destruct (String.eqb_spec s "") as [->|Hs]; simpl.
  - split; [discriminate | intros H; now elim H].
  - split; auto.
Qed.

Lemma trim_trim_or (v : option string) (d : string) :
  JS.trim d = d -> JS.trim (trim_or v d) = trim_or v d.
Proof.
  intros Hd. unfold trim_or. destruct v as [s|]; [|exact Hd].
  destruct (JS.truthy_string (JS.trim s)); [apply trim_idempotent | exact Hd].
Qed.

Lemma trim_or_value (v : option string) (d : string) :
  trim_or v d = if JS.trim (value v) =? "" then d else JS.trim (value v).
Proof.
  unfold trim_or, value, JS.truthy_string.
  destruct v as [s|]; [|reflexivity].
  destruct (JS.trim s =? ""); reflexivity.
Qed.

Lemma trim_or_empty (v : option string) : trim_or v "" = JS.trim (value v).
Proof.
  rewrite trim_or_value.
  destruct (String.eqb_spec (JS.trim (value v)) "") as [->|_]; reflexivity.
Qed.

Section SaveValidation.

Variable platform : Platform.

(** A request with no violation reaches [save] with the document built
    from its validated lines. *)
Lemma post_orders_validated (w : World) (body : Req.t) :
  first_violation platform truthy_not_below_1 w body = None ->
  exists customer deliveryAddress items subtotal validatedItems,
    Req.customer body = Some customer
    /\ Req.deliveryAddress body = Some deliveryAddress
    /\ Req.items body = Some items
    /\ items <> []
    /\ validate_lines platform w items 0%float [] = inr (subtotal, validatedItems)
    /\ post_orders platform w body
       = match Order_save platform w
                 (newOrder customer deliveryAddress (Req.specialInstructions body)
                    validatedItems subtotal (deliveryFee_of subtotal)
                    (subtotal + deliveryFee_of subtotal)%float) with
         | inr (savedOrder, w') => (created savedOrder, w')
         | inl error => (post_catch platform error, w)
         end.
Proof.
  unfold first_violation, post_orders.
  destruct (Req.customer body) as [customer|]; [|discriminate].
  destruct (Req.deliveryAddress body) as [deliveryAddress|]; [|discriminate].
  destruct (Req.items body) as [[|item items]|]; try discriminate.
  change (JS.truthy JS.truthy_string) with present.
  rewrite !negb_andb.
  destruct (_ || _ || _); [discriminate|].
  destruct (_ || _ || _); [discriminate|].
  intros Hnone.
  pose proof (validate_lines_first_violation platform w (item :: items) 0%float [])
    as H.
  rewrite Hnone in H. destruct H as [[subtotal validatedItems] Hlines].
  exists customer, deliveryAddress, (item :: items), subtotal, validatedItems.
  rewrite Hlines. repeat split; try reflexivity. discriminate.
Qed.

(** A failed validation is answered with its messages and stores
    nothing. *)
Lemma Order_save_invalid (w : World) (d : NewOrder.t) :
  orderSchema_validate (orderSchema_set d) <> [] ->
  Order_save platform w d
  = inl (ValidationError (orderSchema_validate (orderSchema_set d))).
Proof.
  unfold Order_save.
  destruct (orderSchema_validate (orderSchema_set d)); [contradiction|reflexivity].
Qed.

Lemma post_catch_validation (errors : list ValidatorError) :
  post_catch platform (ValidationError errors)
  = validation_failed (map (errorMessage platform) errors).
Proof. unfold post_catch, validation_failed. rewrite map_map. reflexivity. Qed.

(** X1.  A request that passes the checks of the route but whose
    customer name, e-mail or phone, or street, area or pincode is white
    space only is refused by the schema: the answer is 400 "Validation
    error" with the schema's message for each such field, and nothing is
    stored. *)
Theorem blank_required_field_refused
  (w : World) (body : Req.t) (customer : ReqCustomer.t) (deliveryAddress : ReqAddress.t) :
  first_violation platform truthy_not_below_1 w body = None ->
  Req.customer body = Some customer ->
  Req.deliveryAddress body = Some deliveryAddress ->
  (exists p, In p (required_inputs customer deliveryAddress)
             /\ JS.trim (value (fst p)) = "") ->
  exists messages,
    post_orders platform w body = (validation_failed messages, w)
    /\ forall p, In p (required_inputs customer deliveryAddress) ->
                 JS.trim (value (fst p)) = "" ->
                 In (snd p) messages.
Proof.
  intros Hnone Hcustomer Haddress Hblank.
  destruct (post_orders_validated w body Hnone)
    as (c & a & items & subtotal & validatedItems & Hc & Ha & _ & _ & _ & Hpost).
  rewrite Hcustomer in Hc. injection Hc as <-.
  rewrite Haddress in Ha. injection Ha as <-.
  set (d := newOrder customer deliveryAddress (Req.specialInstructions body)
              validatedItems subtotal (deliveryFee_of subtotal)
              (subtotal + deliveryFee_of subtotal)%float) in *.
  assert (Hin : forall p, In p (required_inputs customer deliveryAddress) ->
                          JS.trim (value (fst p)) = "" ->
                          In (snd p)
                             (map (errorMessage platform)
                                (orderSchema_validate (orderSchema_set d)))).
  { intros p Hp Hnil. apply in_map_iff.
    unfold required_inputs in Hp. simpl in Hp.
    unfold orderSchema_validate, orderSchema_set, d, newOrder. simpl.
    destruct Hp as [<-|[<-|[<-|[<-|[<-|[<-|[]]]]]]]; simpl in Hnil; rewrite Hnil;
      simpl; eexists;
      (split; [|rewrite !in_app_iff; simpl;
                repeat first [left; reflexivity | right]]);
      reflexivity. }
  exists (map (errorMessage platform) (orderSchema_validate (orderSchema_set d))).
  split; [|exact Hin].
  rewrite Hpost, Order_save_invalid, post_catch_validation; [reflexivity|].
  destruct Hblank as (p & Hp & Hnil). specialize (Hin p Hp Hnil).
  intros Hempty. rewrite Hempty in Hin. exact Hin.
Qed.

(** X2.  A request that passes the checks of the route but whose
    special instructions, once trimmed, are longer than 500 characters is
    refused by the schema with 400 "Validation error", and nothing is
    stored. *)
Theorem long_instructions_refused (w : World) (body : Req.t) (s : string) :
  first_violation platform truthy_not_below_1 w body = None ->
  Req.specialInstructions body = Some s ->
  500 < String.length (JS.trim s) ->
  exists messages,
    post_orders platform w body = (validation_failed messages, w)
    /\ In (builtinMessage platform
             (MaxlengthError "specialInstructions" (JS.trim s) 500)) messages.
Proof.
  intros Hnone Hs Hlong.
  destruct (post_orders_validated w body Hnone)
    as (c & a & items & subtotal & validatedItems & _ & _ & _ & _ & _ & Hpost).
  set (d := newOrder c a (Req.specialInstructions body)
              validatedItems subtotal (deliveryFee_of subtotal)
              (subtotal + deliveryFee_of subtotal)%float) in *.
  assert (Hstored : NewOrder.specialInstructions (orderSchema_set d) = JS.trim s).
  { unfold d, orderSchema_set, newOrder. simpl. rewrite Hs. unfold trim_or.
    rewrite (proj2 (truthy_string_true (JS.trim s))).
    - apply trim_idempotent.
    - intros Hempty. rewrite Hempty in Hlong. simpl in Hlong. lia. }
  assert (Hin : In (MaxlengthError "specialInstructions" (JS.trim s) 500)
                   (orderSchema_validate (orderSchema_set d))).
  { unfold orderSchema_validate. rewrite Hstored.
    rewrite !in_app_iff. do 11 right. unfold maxlength.
    destruct (String.length (JS.trim s) <=? 500)%nat eqn:Hle.
    - apply Nat.leb_le in Hle. lia.
    - left. reflexivity. }
  exists (map (errorMessage platform) (orderSchema_validate (orderSchema_set d))).
  split.
  - rewrite Hpost, Order_save_invalid, post_catch_validation; [reflexivity|].
    intros Hempty. rewrite Hempty in Hin. exact Hin.
  - apply in_map_iff. eexists. split; [|exact Hin]. reflexivity.
Qed.

End SaveValidation.

Lemma blank_required_field_refused_witness :
  exists messages,
    post_orders Sample.server Sample.world Refused.blank_name
    = (validation_failed messages, Sample.world)
    /\ In "Customer name is required" messages.
Proof.
  destruct (blank_required_field_refused Sample.server Sample.world
              Refused.blank_name Refused.nameless Sample.address)
    as (messages & Hpost & Hmessages).
  - vm_compute. reflexivity.
  - reflexivity.
  - reflexivity.
  - exists (Some "   ", "Customer name is required").
    split; [left; reflexivity | vm_compute; reflexivity].
  - exists messages. split; [exact Hpost|].
    apply (Hmessages (Some "   ", "Customer name is required")).
    + left. reflexivity.
    + vm_compute. reflexivity.
Defined.

Lemma long_instructions_refused_witness :
  exists messages,
    post_orders Sample.server Sample.world Refused.wordy
    = (validation_failed messages, Sample.world)
    /\ In ("Path `specialInstructions` is longer than the maximum allowed length.")
          messages.
Proof.
  destruct (long_instructions_refused Sample.server Sample.world
              Refused.wordy Refused.essay)
    as (messages & Hpost & Hmessages).
  - vm_compute. reflexivity.
  - reflexivity.
  - vm_compute. lia.
  - exists messages. split; [exact Hpost | exact Hmessages].
Defined.

(** ** What the collection holds *)

Lemma required_nil (path : string) (message : option string) (v : string) :
  required path message v = [] -> v <> "".
Proof.
  unfold required. destruct (JS.truthy_string v) eqn:Hv; [|discriminate].
  intros _. apply truthy_string_true. exact Hv.
Qed.

Lemma number_nil (path : string) (v : float) :
  number path v = [] -> is_nan v = false.
Proof. unfold number. destruct (is_nan v); [discriminate|reflexivity]. Qed.

Lemma number_min_nil (path : string) (min v : float) :
  number_min path min v = [] -> is_nan v = false /\ (min <=? v)%float = true.
Proof.
  unfold number_min. destruct (is_nan v); [discriminate|].
  destruct (min <=? v)%float; [auto|discriminate].
Qed.

Lemma maxlength_nil (path : string) (n : nat) (v : string) :
  maxlength path n v = [] -> String.length v <= n.
Proof.
  unfold maxlength. destruct (String.length v <=? n)%nat eqn:H; [|discriminate].
  intros _. apply Nat.leb_le. exact H.
Qed.

Lemma validate_items_nil (l : list OrderItem.t) :
  forall i, validate_items i l = [] -> Forall line_ok l.
Proof.
  induction l as [|it rest IH]; simpl; intros i H; [constructor|].
  apply app_eq_nil in H. destruct H as [Hit Hrest].
  constructor; [|exact (IH _ Hrest)].
  unfold orderItemSchema_validate in Hit.
  apply app_eq_nil in Hit. destruct Hit as [HmenuItem Hit].
  apply app_eq_nil in Hit. destruct Hit as [Hname Hit].
  apply app_eq_nil in Hit. destruct Hit as [Hprice Hquantity].
  apply required_nil in HmenuItem, Hname.
  apply number_nil in Hprice. apply number_min_nil in Hquantity.
  unfold line_ok. tauto.
Qed.

(** What passes the validators and the pre-save hook is well formed. *)
Lemma validated_well_formed (w : World) (e : Delays.t) (d : NewOrder.t) :
  orderSchema_validate (orderSchema_set d) = [] ->
  NewOrder.items d <> [] ->
  well_formed (orderSchema_pre_save w e (orderSchema_set d)).
Proof.
  unfold orderSchema_validate. intros H Hitems.
  apply app_eq_nil in H. destruct H as [Hname H].
  apply app_eq_nil in H. destruct H as [Hemail H].
  apply app_eq_nil in H. destruct H as [Hphone H].
  apply app_eq_nil in H. destruct H as [Hstreet H].
  apply app_eq_nil in H. destruct H as [Harea H].
  apply app_eq_nil in H. destruct H as [Hcity H].
  apply app_eq_nil in H. destruct H as [Hpincode H].
  apply app_eq_nil in H. destruct H as [Hlines H].
  apply app_eq_nil in H. destruct H as [Hsubtotal H].
  apply app_eq_nil in H. destruct H as [_ H].
  apply app_eq_nil in H. destruct H as [Htotal Hlength].
  apply required_nil in Hname, Hemail, Hphone, Hstreet, Harea, Hcity, Hpincode.
  apply validate_items_nil in Hlines.
  apply number_min_nil in Hsubtotal, Htotal. apply maxlength_nil in Hlength.
  simpl in *.
  unfold well_formed. simpl.
  split; [tauto|]. split; [reflexivity|]. split; [exact Hitems|].
  split; [exact Hlines|]. split; [tauto|]. split; [tauto|].
  split.
  { repeat (apply Forall_cons; [split; [assumption|]|]);
      try apply Forall_nil;
      try apply trimmed_toLowerCase; apply trimmed_trim. }
  split; [apply toLowerCase_idempotent|].
  split; [apply trimmed_trim|]. split; [apply trimmed_trim|].
  split; [exact Hlength|]. split; lia.
Qed.

Lemma well_formed_apply_update (u : UpdateData.t) (o : Order.t) :
  In (UpdateData.status u) validStatuses ->
  well_formed o -> well_formed (apply_update u o).
Proof. unfold well_formed. simpl. tauto. Qed.

Section Stored.

Variable platform : Platform.

(** A created order: the route has found every line, and the save has
    stored the document. *)
Lemma post_orders_accepted (w w' : World) (body : Req.t) (res : Res.t) :
  post_orders platform w body = (res, w') ->
  Res.status res = 201 ->
  exists customer deliveryAddress items subtotal validatedItems o,
    Req.customer body = Some customer
    /\ Req.deliveryAddress body = Some deliveryAddress
    /\ Req.items body = Some items
    /\ validatedItems <> []
    /\ validate_lines platform w items 0%float [] = inr (subtotal, validatedItems)
    /\ Order_save platform w
         (newOrder customer deliveryAddress (Req.specialInstructions body)
            validatedItems subtotal (deliveryFee_of subtotal)
            (subtotal + deliveryFee_of subtotal)%float) = inr (o, w')
    /\ res = created o.
Proof.
  unfold post_orders. intros H H201.
  destruct (Req.customer body) as [customer|];
    [|injection H as <- <-; discriminate].
  destruct (Req.deliveryAddress body) as [deliveryAddress|];
    [|injection H as <- <-; discriminate].
  destruct (Req.items body) as [[|item items]|];
    try (injection H as <- <-; discriminate).
  destruct (_ || _ || _); [injection H as <- <-; discriminate|].
  destruct (_ || _ || _); [injection H as <- <-; discriminate|].
  destruct (validate_lines platform w (item :: items) 0%float [])
    as [response|[subtotal validatedItems]] eqn:Hlines.
  - injection H as <- <-.
    apply validate_lines_inl in Hlines. congruence.
  - destruct (Order_save platform w _) as [error|[o w1]] eqn:Hsave.
    + injection H as <- <-.
      destruct (post_catch_status platform error); congruence.
    + injection H as <- <-.
      exists customer, deliveryAddress, (item :: items), subtotal, validatedItems, o.
      assert (Hsome : validatedItems <> []).
      { destruct (validate_lines_inr platform _ _ _ _ _ _ Hlines)
          as (lines & Hmap & -> & _).
        destruct lines; [discriminate Hmap|discriminate]. }
      auto 10.
Qed.

(** X3.  Every order the collection of a running server holds satisfies
    the schema as the route fills it in: its status is one of the six
    statuses, its payment method is cod, it has at least one line, every
    line has a menu item, a name, a price and a quantity of at least 1,
    subtotal and total are not negative, the customer's and the
    address's required strings are non-empty and trimmed, the email is in
    lower case, the special instructions are trimmed and at most 500
    characters long, and the estimated delivery is at least 45 minutes
    after [createdAt] and at most 45 minutes after [updatedAt]. *)
Theorem stored_orders_well_formed (w : World) :
  reachable platform w -> Forall well_formed (orders w).
Proof.
  revert w. apply (reachable_invariant platform (fun w => Forall well_formed (orders w))).
  - intros w0 H0. rewrite H0. constructor.
  - intros w0 [ms|catalog|[body|n|q|n status]] H; simpl; try exact H.
    + destruct (post_orders platform w0 body) as [res w'] eqn:Hpost. simpl.
      destruct (Nat.eq_dec (Res.status res) 201) as [H201|Hnot].
      * destruct (post_orders_accepted _ _ _ _ Hpost H201)
          as (c & a & items & subtotal & lines & o & _ & _ & _ & Hsome & _ & Hsave & _).
        destruct (Order_save_inr platform _ _ _ _ Hsave) as (-> & Hvalid & _ & ->).
        simpl. apply Forall_app. split; [exact H|].
        constructor; [|constructor].
        apply validated_well_formed; [exact Hvalid|exact Hsome].
      * rewrite (post_orders_refused platform _ _ _ _ Hpost Hnot). exact H.
    + destruct (put_status_world w0 n status) as [->|(s & _ & Hs & ->)]; [exact H|].
      simpl. apply Forall_update_first; [|exact H].
      intros o Ho. apply well_formed_apply_update; [exact Hs|exact Ho].
Qed.

(** X4.  In every world a running server can be in, a delivered order
    carries a delivery stamp, and a delivery stamp lies between the
    order's creation and the present. *)
Theorem delivered_orders_stamped (w : World) :
  reachable platform w -> Forall (delivery_consistent w) (orders w).
Proof.
  intros Hw.
  cut (Forall (fun o => (Order.createdAt o <= now w)%N /\ delivery_consistent w o)
         (orders w)).
  { apply Forall_impl. tauto. }
  revert w Hw.
  apply (reachable_invariant platform
           (fun w => Forall (fun o => (Order.createdAt o <= now w)%N
                                      /\ delivery_consistent w o) (orders w))).
  - intros w0 H0. rewrite H0. constructor.
  - intros w0 [ms|catalog|[body|n|q|n status]] H; simpl; try exact H.
    + revert H. apply Forall_impl. unfold delivery_consistent. simpl.
      intros o (Hcreated & Hstamp & Hbounds).
      split; [lia|]. split; [exact Hstamp|].
      intros t Ht. destruct (Hbounds t Ht). lia.
    + destruct (post_orders platform w0 body) as [res w'] eqn:Hpost. simpl.
      destruct (Nat.eq_dec (Res.status res) 201) as [H201|Hnot].
      * destruct (post_orders_accepted _ _ _ _ Hpost H201)
          as (c & a & items & subtotal & lines & o & _ & _ & _ & _ & _ & Hsave & _).
        destruct (Order_save_inr platform _ _ _ _ Hsave) as (-> & _ & _ & ->).
        simpl. apply Forall_app. split.
        { revert H. apply Forall_impl. unfold delivery_consistent. simpl.
          intros o (Hcreated & Hstamp & Hbounds).
          split; [lia|]. split; [exact Hstamp|].
          intros t Ht. destruct (Hbounds t Ht). lia. }
        constructor; [|constructor].
        unfold delivery_consistent. simpl.
        split; [lia|]. split; [discriminate|discriminate].
      * rewrite (post_orders_refused platform _ _ _ _ Hpost Hnot). exact H.
    + destruct (put_status_world w0 n status) as [->|(s & _ & Hs & ->)]; [exact H|].
      simpl. apply Forall_update_first; [|exact H].
      unfold delivery_consistent. simpl.
      intros o (Hcreated & Hstamp & Hbounds).
      split; [exact Hcreated|].
      destruct (String.eqb_spec s "delivered") as [->|Hother].
      * split; [discriminate|].
        intros t Ht. injection Ht as <-. lia.
      * split; [intros Hdelivered; contradiction|exact Hbounds].
Qed.

End Stored.

Lemma stored_orders_well_formed_witness :
  Forall well_formed (orders Sample.later).
Proof.
  apply (stored_orders_well_formed Sample.server).
  apply run_reachable. reflexivity.
Defined.

Lemma delivered_orders_stamped_witness :
  Forall (delivery_consistent Listing.delivered) (orders Listing.delivered)
  /\ map (fun o => (Order.status o, Order.actualDeliveryTime o))
       (orders Listing.delivered)
     = [("delivered", Some 1790000060123%N)].
Proof.
  split; [|vm_compute; reflexivity].
  apply (delivered_orders_stamped Sample.server).
  apply run_reachable. reflexivity.
Defined.

(** ** Order numbers are fresh *)

(** A larger number has no fewer digits. *)
Lemma length_Number_toString_mono (m : N) :
  forall n, (n <= m)%N ->
    String.length (JS.Number_toString n) <= String.length (JS.Number_toString m).
Proof.
  induction m as [m IH] using (well_founded_induction N.lt_wf_0).
  intros n Hn.
  destruct (N.lt_ge_cases m 10) as [Hm|Hm].
  - rewrite !length_Number_toString_small by lia. lia.
  - rewrite (length_Number_toString_step m) by exact Hm.
    destruct (N.lt_ge_cases n 10) as [Hsmall|Hbig].
    + rewrite length_Number_toString_small by exact Hsmall. lia.
    + rewrite (length_Number_toString_step n) by exact Hbig.
      apply le_n_S. apply IH.
      * apply N.Div0.div_lt_upper_bound. lia.
      * apply N.Div0.div_le_mono. exact Hn.
Qed.

(** Two strings with ends of the same length are equal only if the ends
    are. *)
Lemma append_end_eq (a c b d : string) :
  String.length b = String.length d ->
  (a ++ b)%string = (c ++ d)%string -> b = d.
Proof.
  revert c. induction a as [|x a IH]; intros [|y c] Hlen H; simpl in *.
  - exact H.
  - apply (f_equal String.length) in H. simpl in H.
    rewrite length_append in H. lia.
  - apply (f_equal String.length) in H. simpl in H.
    rewrite length_append in H. lia.
  - injection H as _ H. exact (IH c Hlen H).
Qed.

(** The number the hook gives a new order is not in a collection whose
    orders are numbered in sequence and were saved in the past. *)
Lemma orderNumber_not_taken (w : World) (e : Delays.t) (d : NewOrder.t) :
  numbered w -> updated_in_the_past w ->
  orderNumber_taken w (Order.orderNumber (orderSchema_pre_save w e d)) = false.
Proof.
  intros Hnumbered Hpast.
  destruct (orderNumber_taken w _) eqn:Htaken; [|reflexivity].
  exfalso. unfold orderNumber_taken in Htaken.
  apply existsb_exists in Htaken. destruct Htaken as (o & Hin & Heq).
  apply String.eqb_eq in Heq.
  destruct (In_nth_error _ _ Hin) as [i Hi].
  assert (Hlt : i < List.length (orders w)).
  { apply nth_error_Some. congruence. }
  destruct (Hnumbered i o Hi) as (t & _ & Hestimated & Hupdated & Hnumber).
  rewrite Hnumber in Heq. simpl in Heq.
  unfold updated_in_the_past in Hpast. rewrite Forall_forall in Hpast.
  pose proof (Hpast o Hin) as Hsaved.
  assert (Hbefore : (t <= now w + Delays.to_number e)%N) by lia.
  unfold Order_countDocuments in Heq.
  set (t1 := JS.slice_last 6 (JS.Number_toString t)) in *.
  set (t2 := JS.slice_last 6 (JS.Number_toString (now w + Delays.to_number e))) in *.
  set (s1 := JS.padStart 3 "0" (JS.Number_toString (N.of_nat i + 1))) in *.
  set (s2 := JS.padStart 3 "0"
               (JS.Number_toString (N.of_nat (List.length (orders w)) + 1))) in *.
  assert (Ht : String.length t1 <= String.length t2).
  { unfold t1, t2. rewrite !length_slice_last.
    pose proof (length_Number_toString_mono _ _ Hbefore). lia. }
  assert (Hs : String.length s1 <= String.length s2).
  { unfold s1, s2. rewrite !length_padStart.
    pose proof (length_Number_toString_mono
                  (N.of_nat (List.length (orders w)) + 1) (N.of_nat i + 1)).
    lia. }
  assert (Hlen : String.length s1 = String.length s2).
  { injection Heq as Heq. apply (f_equal String.length) in Heq.
    rewrite !length_append in Heq. lia. }
  injection Heq as Heq.
  apply (append_end_eq _ _ _ _ Hlen) in Heq.
  apply (f_equal decimal) in Heq. unfold s1, s2 in Heq.
  rewrite !decimal_padStart in Heq. lia.
Qed.

Section Fresh.

Variable platform : Platform.

(** X5.  On a running server that handles its requests one after
    another, with a clock that does not run backwards, the number the
    pre-save hook generates is never the number of a stored order,
    however long the save takes.  So the unique index never refuses an
    insert: a save either fails in validation or stores the document,
    and the [catch] of the route never receives a duplicate-key
    error. *)
Theorem generated_order_number_is_fresh (w : World) :
  reachable platform w ->
  (forall e d,
     orderNumber_taken w (Order.orderNumber (orderSchema_pre_save w e d)) = false)
  /\ (forall d,
        (orderSchema_validate (orderSchema_set d) <> []
         /\ Order_save platform w d
            = inl (ValidationError (orderSchema_validate (orderSchema_set d))))
        \/ (orderSchema_validate (orderSchema_set d) = []
            /\ exists o w', Order_save platform w d = inr (o, w')))
  /\ (forall d message, Order_save platform w d <> inl (Error message)).
Proof.
  intros Hw.
  assert (Hfresh : forall e d,
            orderNumber_taken w
              (Order.orderNumber (orderSchema_pre_save w e d)) = false).
  { intros e d. apply orderNumber_not_taken.
    - exact (numbered_reachable platform w Hw).
    - exact (updated_in_the_past_reachable platform w Hw). }
  split; [exact Hfresh|]. split.
  - intros d. unfold Order_save.
    destruct (orderSchema_validate (orderSchema_set d)) as [|x errors].
    + right. split; [reflexivity|]. rewrite Hfresh. eexists. eexists. reflexivity.
    + left. split; [discriminate|reflexivity].
  - intros d message. unfold Order_save.
    destruct (orderSchema_validate (orderSchema_set d)) as [|x errors];
      [|discriminate].
    rewrite Hfresh. discriminate.
Qed.

End Fresh.

Lemma generated_order_number_is_fresh_witness :
  (forall e d,
     orderNumber_taken (run Sample.slow Sample.world Sample.first_minute)
       (Order.orderNumber
          (orderSchema_pre_save (run Sample.slow Sample.world Sample.first_minute) e d))
     = false)
  /\ (forall d message,
        Order_save Sample.slow (run Sample.slow Sample.world Sample.first_minute) d
        <> inl (Error message)).
Proof.
  destruct (generated_order_number_is_fresh Sample.slow
              (run Sample.slow Sample.world Sample.first_minute))
    as (Hfresh & _ & Hnever).
  - apply run_reachable. reflexivity.
  - split; [exact Hfresh|exact Hnever].
Defined.

(** ** Creation, lookup and status transitions together *)

Lemma find_none_app {A : Type} (f : A -> bool) (l l' : list A) :
  existsb f l = false -> find f (l ++ l') = find f l'.
Proof.
  induction l as [|x rest IH]; simpl; [reflexivity|].
  destruct (f x); [discriminate|]. exact IH.
Qed.

Lemma find_by_number (l : list Order.t) (o : Order.t) :
  NoDup (map Order.orderNumber l) ->
  In o l ->
  find (fun x => Order.orderNumber x =? Order.orderNumber o) l = Some o.
Proof.
  induction l as [|x rest IH]; simpl; intros Hnodup Hin; [contradiction|].
  inversion Hnodup as [|? ? Hx Hrest]; subst.
  destruct Hin as [->|Hin].
  - rewrite String.eqb_refl. reflexivity.
  - destruct (String.eqb_spec (Order.orderNumber x) (Order.orderNumber o)) as [Heq|_].
    + elim Hx. rewrite Heq. apply in_map. exact Hin.
    + apply IH; assumption.
Qed.

(** A line whose snapshot is complete is shown from the snapshot. *)
Lemma item_view_snapshot (item : OrderItem.t) (m m' : option MenuItem.t) :
  OrderItem.name item <> "" ->
  JS.truthy_number (OrderItem.price item) = true ->
  OrderItem.image item <> "" ->
  item_view item m = item_view item m'.
Proof.
  intros Hname Hprice Himage. unfold item_view, or_string, or_number.
  rewrite Hprice.
  rewrite (proj2 (truthy_string_true _) Hname).
  rewrite (proj2 (truthy_string_true _) Himage).
  reflexivity.
Qed.

Lemma items_view_snapshot (f g : OrderItem.t -> option MenuItem.t)
  (items : list OrderItem.t) :
  Forall (fun l => OrderItem.name l <> ""
                   /\ JS.truthy_number (OrderItem.price l) = true
                   /\ OrderItem.image l <> "") items ->
  items_view items (map f items) = items_view items (map g items).
Proof.
  unfold items_view.
  induction 1 as [|item rest (Hname & Hprice & Himage) _ IH]; simpl; [reflexivity|].
  rewrite IH. f_equal. apply item_view_snapshot; assumption.
Qed.

Section Together.

Variable platform : Platform.

(** X6.  An order that has just been created can be looked up under the
    number the 201 response gives: the lookup answers 200 with the view of
    that very order, which is pending and has no delivery stamp. *)
Theorem created_order_can_be_looked_up (w w' : World) (body : Req.t) (res : Res.t) :
  post_orders platform w body = (res, w') ->
  Res.status res = 201 ->
  exists o,
    res = created o
    /\ Order_findOne w' (Order.orderNumber o) = Some o
    /\ Res.status (get_order w' (Order.orderNumber o)) = 200
    /\ Json.member "data" (Res.body (get_order w' (Order.orderNumber o)))
       = Some (order_view o (populate w' o))
    /\ Order.status o = "pending"
    /\ Order.actualDeliveryTime o = None.
Proof.
  intros Hpost H201.
  destruct (post_orders_accepted platform _ _ _ _ Hpost H201)
    as (c & a & items & subtotal & lines & o & _ & _ & _ & _ & _ & Hsave & ->).
  destruct (Order_save_inr platform _ _ _ _ Hsave) as (Ho & _ & Htaken & ->).
  exists o. split; [reflexivity|].
  assert (Hfind : Order_findOne
                    {| now := Order.updatedAt o;
                       menuitems := menuitems w;
                       orders := orders w ++ [o] |}
                    (Order.orderNumber o) = Some o).
  { unfold Order_findOne. simpl. rewrite find_none_app by exact Htaken.
    simpl. rewrite String.eqb_refl. reflexivity. }
  split; [exact Hfind|].
  unfold get_order. rewrite Hfind.
  split; [reflexivity|]. split; [reflexivity|].
  rewrite Ho. split; reflexivity.
Qed.

(** X7.  On a running server every stored order is found under its own
    number: no other order shadows it, and the lookup answers 200 with its
    view. *)
Theorem stored_order_found_by_number (w : World) (o : Order.t) :
  reachable platform w ->
  In o (orders w) ->
  Order_findOne w (Order.orderNumber o) = Some o
  /\ Res.status (get_order w (Order.orderNumber o)) = 200
  /\ Json.member "data" (Res.body (get_order w (Order.orderNumber o)))
     = Some (order_view o (populate w o)).
Proof.
  intros Hw Hin.
  assert (Hfind : Order_findOne w (Order.orderNumber o) = Some o).
  { apply find_by_number; [|exact Hin].
    apply (distinct_numbers_reachable platform). exact Hw. }
  split; [exact Hfind|].
  unfold get_order. rewrite Hfind. split; reflexivity.
Qed.

(** X8.  What a created order stores of a request whose strings are
    ASCII: the customer's name and phone and the address's street, area
    and pincode trimmed, the email trimmed and in lower case, the city
    and the landmark trimmed, with "Ahmedabad" for a city and the empty
    string for a landmark that is absent or blank, and the like for the
    special instructions; the schema's own setters change nothing more.
    The order is pending, paid on delivery and not delivered.  Its
    [createdAt] is the instant the document was constructed; its delivery
    is estimated 45 minutes after the instant the pre-save hook read for
    it, and its [updatedAt] is the hook's last reading of the clock,
    each later by what the save took; the clock has moved on to that
    reading when the request ends. *)
Theorem created_order_normalised (w w' : World) (body : Req.t) (res : Res.t) :
  plain_request body = true ->
  post_orders platform w body = (res, w') ->
  Res.status res = 201 ->
  exists customer deliveryAddress o,
    Req.customer body = Some customer
    /\ Req.deliveryAddress body = Some deliveryAddress
    /\ orders w' = orders w ++ [o]
    /\ Order.customer o
       = {| Customer.name := JS.trim (value (ReqCustomer.name customer));
            Customer.email :=
              JS.toLowerCase (JS.trim (value (ReqCustomer.email customer)));
            Customer.phone := JS.trim (value (ReqCustomer.phone customer)) |}
    /\ Order.deliveryAddress o
       = {| Address.street := JS.trim (value (ReqAddress.street deliveryAddress));
            Address.area := JS.trim (value (ReqAddress.area deliveryAddress));
            Address.city :=
              if JS.trim (value (ReqAddress.city deliveryAddress)) =? ""
              then "Ahmedabad"
              else JS.trim (value (ReqAddress.city deliveryAddress));
            Address.pincode :=
              JS.trim (value (ReqAddress.pincode deliveryAddress));
            Address.landmark :=
              JS.trim (value (ReqAddress.landmark deliveryAddress)) |}
    /\ Order.specialInstructions o
       = JS.trim (value (Req.specialInstructions body))
    /\ Order.status o = "pending"
    /\ Order.paymentMethod o = "cod"
    /\ Order.actualDeliveryTime o = None
    /\ Order.createdAt o = now w
    /\ Order.estimatedDeliveryTime o
       = (now w + Delays.to_number (delays platform w)
          + Delays.to_estimate (delays platform w) + 2700000)%N
    /\ Order.updatedAt o
       = (now w + Delays.to_number (delays platform w)
          + Delays.to_estimate (delays platform w)
          + Delays.to_update (delays platform w))%N
    /\ now w' = Order.updatedAt o.
Proof.
  intros _ Hpost H201.
  destruct (post_orders_accepted platform _ _ _ _ Hpost H201)
    as (c & a & items & subtotal & lines & o & Hc & Ha & _ & _ & _ & Hsave & _).
  destruct (Order_save_inr platform _ _ _ _ Hsave) as (Ho & _ & _ & ->).
  exists c, a, o. rewrite Ho. simpl.
  rewrite !trim_idempotent, trim_toLowerCase, toLowerCase_idempotent,
    !trim_idempotent, !trim_trim_or by reflexivity.
  rewrite !trim_or_empty, trim_or_value.
  split; [exact Hc|]. split; [exact Ha|]. split; [reflexivity|].
  repeat (split; [reflexivity|]). reflexivity.
Qed.

(** X9.  The status route has no transition guard.  Whatever state an
    order is in, two transitions in a row to statuses of the enumeration
    both succeed and the second one wins; an order moved on from
    [delivered] keeps the delivery stamp it was given. *)
Theorem status_transitions_unguarded
  (w : World) (orderNumber s1 s2 : string) (order : Order.t) :
  Order_findOne w orderNumber = Some order ->
  In s1 validStatuses ->
  In s2 validStatuses ->
  let w1 := snd (put_status w orderNumber (Some s1)) in
  let w2 := snd (put_status w1 orderNumber (Some s2)) in
  Res.status (fst (put_status w orderNumber (Some s1))) = 200
  /\ Res.status (fst (put_status w1 orderNumber (Some s2))) = 200
  /\ exists order2,
       Order_findOne w2 orderNumber = Some order2
       /\ Order.status order2 = s2
       /\ same_but_status order order2
       /\ (s1 = "delivered" -> s2 <> "delivered" ->
           Order.actualDeliveryTime order2 = Some (now w)).
Proof.
  intros Hfind H1 H2.
  assert (Hput : forall w0 s o,
            Order_findOne w0 orderNumber = Some o ->
            In s validStatuses ->
            let u := {| UpdateData.status := s;
                        UpdateData.actualDeliveryTime :=
                          if s =? "delivered" then Some (now w0) else None |} in
            Res.status (fst (put_status w0 orderNumber (Some s))) = 200
            /\ now (snd (put_status w0 orderNumber (Some s))) = now w0
            /\ Order_findOne (snd (put_status w0 orderNumber (Some s))) orderNumber
               = Some (apply_update u o)).
  { intros w0 s o Ho Hs u.
    assert (Hincludes : includes validStatuses (Some s) = true).
    { apply existsb_exists. exists s. split; [exact Hs|apply String.eqb_refl]. }
    unfold put_status, Order_findOneAndUpdate. rewrite Hincludes.
    simpl negb. cbv iota.
    destruct (update_first_found orderNumber u _ _ Ho) as (l' & Hupdate & Hfound).
    fold u. rewrite Hupdate. simpl. auto. }
  destruct (Hput w s1 order Hfind H1) as (Hstatus1 & Hnow1 & Hfind1).
  destruct (Hput _ s2 _ Hfind1 H2) as (Hstatus2 & _ & Hfind2).
  simpl. split; [exact Hstatus1|]. split; [exact Hstatus2|].
  eexists. split; [exact Hfind2|].
  split; [reflexivity|]. split; [unchanged|].
  intros -> Hother. simpl.
  destruct (String.eqb_spec s2 "delivered") as [->|_]; [now elim Hother|].
  reflexivity.
Qed.

(** X10.  The lookup of an order whose lines all carry a name, a price
    other than zero and an image does not depend on the catalog: however
    the menu routes rewrite it, the lookup answers the same. *)
Theorem lookup_ignores_catalog_changes
  (w : World) (orderNumber : string) (order : Order.t) (catalog : list MenuItem.t) :
  Order_findOne w orderNumber = Some order ->
  Forall (fun l => OrderItem.name l <> ""
                   /\ JS.truthy_number (OrderItem.price l) = true
                   /\ OrderItem.image l <> "") (Order.items order) ->
  get_order (step platform w (Menu catalog)) orderNumber = get_order w orderNumber.
Proof.
  intros Hfind Hcomplete. unfold get_order, Order_findOne in *. simpl.
  rewrite Hfind. unfold order_view, populate.
  rewrite (items_view_snapshot _
             (fun i => MenuItem_findById w (OrderItem.menuItem i)) _ Hcomplete).
  reflexivity.
Qed.

End Together.

Lemma created_order_can_be_looked_up_witness :
  exists o,
    fst (Sample.placed 2) = created o
    /\ Order_findOne (snd (Sample.placed 2)) (Order.orderNumber o) = Some o
    /\ Res.status (get_order (snd (Sample.placed 2)) (Order.orderNumber o)) = 200
    /\ Json.member "data"
         (Res.body (get_order (snd (Sample.placed 2)) (Order.orderNumber o)))
       = Some (order_view o (populate (snd (Sample.placed 2)) o))
    /\ Order.status o = "pending"
    /\ Order.actualDeliveryTime o = None.
Proof.
  apply (created_order_can_be_looked_up Sample.server Sample.world
           (snd (Sample.placed 2)) (Sample.order_of [Sample.line 2])
           (fst (Sample.placed 2))).
  - vm_compute. reflexivity.
  - reflexivity.
Defined.

Lemma stored_order_found_by_number_witness :
  exists o,
    In o (orders Sample.later)
    /\ Order_findOne Sample.later (Order.orderNumber o) = Some o
    /\ Res.status (get_order Sample.later (Order.orderNumber o)) = 200.
Proof.
  assert (Hfirst : exists o, nth_error (orders Sample.later) 0 = Some o)
    by (vm_compute; eexists; reflexivity).
  destruct Hfirst as [o Ho]. apply nth_error_In in Ho.
  exists o. split; [exact Ho|].
  destruct (stored_order_found_by_number Sample.server Sample.later o)
    as (Hfind & Hstatus & _).
  - apply run_reachable. reflexivity.
  - exact Ho.
  - split; [exact Hfind|exact Hstatus].
Defined.

Lemma created_order_normalised_witness :
  plain_request (Sample.order_of [Sample.line 2]) = true
  /\ exists o,
    orders (snd (post_orders Sample.slow Sample.world
                   (Sample.order_of [Sample.line 2]))) = [o]
    /\ Customer.name (Order.customer o) = "Asha Patel"
    /\ Customer.email (Order.customer o) = "asha@example.com"
    /\ Address.city (Order.deliveryAddress o) = "Ahmedabad"
    /\ Order.createdAt o = 1790000000123%N
    /\ Order.estimatedDeliveryTime o = 1790002700130%N
    /\ Order.updatedAt o = 1790000000130%N.
Proof.
  destruct (created_order_normalised Sample.slow Sample.world
              (snd (post_orders Sample.slow Sample.world
                      (Sample.order_of [Sample.line 2])))
              (Sample.order_of [Sample.line 2])
              (fst (post_orders Sample.slow Sample.world
                      (Sample.order_of [Sample.line 2]))))
    as (c & a & o & Hc & Ha & Ho & Hcustomer & Haddress & _ & _ & _ & _
        & Hcreated & Heta & Hupdated & _).
  - vm_compute. reflexivity.
  - apply surjective_pairing.
  - vm_compute. reflexivity.
  - injection Hc as <-. injection Ha as <-.
    split; [vm_compute; reflexivity|].
    exists o. split; [exact Ho|].
    rewrite Hcustomer, Haddress, Hcreated, Heta, Hupdated.
    split; [vm_compute; reflexivity|]. split; [vm_compute; reflexivity|].
    split; [vm_compute; reflexivity|]. split; [reflexivity|].
    split; vm_compute; reflexivity.
Defined.

Lemma status_transitions_unguarded_witness :
  exists order2,
    Order_findOne
      (snd (put_status
              (snd (put_status Sample.later Sample.first_number (Some "delivered")))
              Sample.first_number (Some "pending")))
      Sample.first_number = Some order2
    /\ Order.status order2 = "pending"
    /\ Order.actualDeliveryTime order2 = Some (now Sample.later).
Proof.
  assert (Hfind : exists order,
             Order_findOne Sample.later Sample.first_number = Some order)
    by (vm_compute; eexists; reflexivity).
  destruct Hfind as [order Hfind].
  assert (H1 : In "delivered" validStatuses) by (unfold validStatuses; simpl; auto 10).
  assert (H2 : In "pending" validStatuses) by (unfold validStatuses; simpl; auto 10).
  pose proof (status_transitions_unguarded Sample.later Sample.first_number
                "delivered" "pending" order Hfind H1 H2) as H.
  cbv zeta in H. destruct H as (_ & _ & order2 & Hfind2 & Hstatus & _ & Hstamp).
  exists order2. split; [exact Hfind2|]. split; [exact Hstatus|].
  apply Hstamp; [reflexivity|discriminate].
Defined.

Lemma lookup_ignores_catalog_changes_witness :
  get_order (step Sample.server Sample.later (Menu [])) Sample.first_number
  = get_order Sample.later Sample.first_number.
Proof.
  assert (Hfind : exists order,
             Order_findOne Sample.later Sample.first_number = Some order
             /\ Order.items order
                = [{| OrderItem.menuItem := MenuItem._id Sample.cappuccino;
                      OrderItem.name := MenuItem.name Sample.cappuccino;
                      OrderItem.price := MenuItem.price Sample.cappuccino;
                      OrderItem.quantity := 2;
                      OrderItem.image := MenuItem.image Sample.cappuccino |}])
    by (vm_compute; eexists; split; reflexivity).
  destruct Hfind as (order & Hfind & Hitems).
  apply (lookup_ignores_catalog_changes Sample.server Sample.later
           Sample.first_number order [] Hfind).
  rewrite Hitems. constructor; [|constructor].
  split; [discriminate|]. split; [reflexivity|discriminate].
Defined.

(** ** The list of orders *)

Lemma insert_newest_perm (o : Order.t) (l : list Order.t) :
  Permutation (insert_newest o l) (o :: l).
Proof.
  induction l as [|x rest IH]; simpl; [apply Permutation_refl|].
  destruct (Order.createdAt x <? Order.createdAt o)%N; [apply Permutation_refl|].
  apply perm_trans with (x :: o :: rest); [|apply perm_swap].
  apply perm_skip. exact IH.
Qed.

Lemma sort_newest_perm (l : list Order.t) : Permutation (sort_newest l) l.
Proof.
  induction l as [|o rest IH]; simpl; [apply perm_nil|].
  apply perm_trans with (o :: sort_newest rest); [apply insert_newest_perm|].
  apply perm_skip. exact IH.
Qed.

Lemma insert_newest_descending (o : Order.t) (l : list Order.t) :
  descending l -> descending (insert_newest o l).
Proof.
  unfold descending.
  induction l as [|x rest IH]; simpl; intros H; [repeat constructor|].
  inversion H as [|? ? Hrest Hx]; subst.
  destruct (Order.createdAt x <? Order.createdAt o)%N eqn:Hlt.
  - apply N.ltb_lt in Hlt. constructor; [exact H|].
    constructor; [lia|].
    revert Hx. apply Forall_impl. intros y Hy. lia.
  - apply N.ltb_ge in Hlt. constructor; [exact (IH Hrest)|].
    apply (Permutation_Forall (Permutation_sym (insert_newest_perm o rest))).
    constructor; [exact Hlt|exact Hx].
Qed.

Lemma sort_newest_descending (l : list Order.t) : descending (sort_newest l).
Proof.
  induction l as [|o rest IH]; simpl; [constructor|].
  apply insert_newest_descending. exact IH.
Qed.

Lemma In_skipn {A : Type} (n : nat) (l : list A) (x : A) :
  In x (skipn n l) -> In x l.
Proof.
  revert l. induction n as [|n IH]; intros [|y l]; simpl; auto.
Qed.

Lemma In_firstn {A : Type} (n : nat) (l : list A) (x : A) :
  In x (firstn n l) -> In x l.
Proof.
  revert l. induction n as [|n IH]; intros [|y l]; simpl; try tauto.
  intros [->|H]; auto.
Qed.

Lemma descending_skipn (n : nat) (l : list Order.t) :
  descending l -> descending (skipn n l).
Proof.
  unfold descending. revert l.
  induction n as [|n IH]; intros [|x l] H; simpl; auto.
  inversion H; subst. auto.
Qed.

Lemma descending_firstn (n : nat) (l : list Order.t) :
  descending l -> descending (firstn n l).
Proof.
  unfold descending. revert l.
  induction n as [|n IH]; intros [|x l] H; simpl; try constructor.
  - inversion H; subst. auto.
  - inversion H as [|? ? _ Hx]; subst.
    rewrite Forall_forall in *. intros y Hy. apply Hx.
    exact (In_firstn _ _ _ Hy).
Qed.

Lemma docs_of_Doc (f : Order.t -> list (option MenuItem.t)) (l : list Order.t) :
  docs_of (Json.Arr (map (fun o => Json.Doc o (f o)) l)) = l.
Proof.
  simpl. induction l as [|o rest IH]; simpl; [reflexivity|].
  rewrite IH. reflexivity.
Qed.

(** The orders GET / lists: the page the query asks for of the matching
    orders, newest first. *)
Lemma listed_get_orders (w : World) (q : Query.t) :
  listed (get_orders w q)
  = firstn (limit_of q)
      (skipn ((page_of q - 1) * limit_of q) (sort_newest (matching w q))).
Proof.
  unfold listed, get_orders. cbn -[docs_of sort_newest firstn skipn Nat.mul Nat.sub].
  rewrite docs_of_Doc. unfold limit_of, page_of, matching.
  destruct (Query.page q), (Query.limit q); reflexivity.
Qed.

Lemma pages_bounds (total limit : N) :
  (0 < limit)%N ->
  (total <= (total + limit - 1) / limit * limit
   /\ (total + limit - 1) / limit * limit < total + limit)%N.
Proof.
  intros Hlimit.
  pose proof (N.Div0.mul_div_le (total + limit - 1) limit) as Hle.
  pose proof (N.mul_succ_div_gt (total + limit - 1) limit) as Hgt.
  nia.
Qed.

(** Pages of [k] cut a list into pieces that give it back. *)
Lemma pages_concat {A : Type} (k : nat) (l : list A) :
  0 < k ->
  forall n, List.length l <= n * k ->
  List.concat (map (fun i => firstn k (skipn (i * k) l)) (seq 0 n)) = l.
Proof.
  intros Hk n. revert l.
  induction n as [|n IH]; intros l Hn; simpl.
  - destruct l; [reflexivity|simpl in Hn; lia].
  - rewrite <- seq_shift, map_map.
    transitivity (firstn k l ++ skipn k l); [|apply firstn_skipn]. f_equal.
    rewrite <- (IH (skipn k l)) by (rewrite length_skipn; lia).
    f_equal. apply map_ext. intros i.
    rewrite skipn_skipn. f_equal. f_equal. lia.
Qed.

(** X11.  For a query whose page and limit, when given, are positive
    integers, the page of GET / holds at most [limit] orders, each of
    them a stored order the filter of the query selects, the newest
    first. *)
Theorem listed_page_sound (w : World) (q : Query.t) :
  List.length (listed (get_orders w q)) <= limit_of q
  /\ (forall o, In o (listed (get_orders w q)) ->
                In o (orders w) /\ matches q o = true)
  /\ descending (listed (get_orders w q)).
Proof.
  rewrite listed_get_orders.
  split; [apply firstn_le_length|]. split.
  - intros o Ho. apply In_firstn, In_skipn in Ho.
    apply (Permutation_in _ (sort_newest_perm _)) in Ho.
    unfold matching in Ho. apply filter_In in Ho. exact Ho.
  - apply descending_firstn, descending_skipn, sort_newest_descending.
Qed.

(** X12.  The pagination of GET / repeats the page and the limit asked
    for (1 and 10 when absent), counts in [total] the stored orders the
    filter selects, and gives in [pages] the least number of pages of
    [limit] orders that hold them all.  The page lists the orders left
    after the pages before it, up to [limit]: a page up to [pages] is not
    empty, a page past it is. *)
Theorem pagination_counts (w : World) (q : Query.t) :
  let r := get_orders w q in
  let total := List.length (matching w q) in
  pagination "page" r = Some (N.of_nat (page_of q))
  /\ pagination "limit" r = Some (N.of_nat (limit_of q))
  /\ pagination "total" r = Some (N.of_nat total)
  /\ exists pages,
       pagination "pages" r = Some (N.of_nat pages)
       /\ total <= pages * limit_of q < total + limit_of q
       /\ List.length (listed r)
          = Nat.min (limit_of q) (total - (page_of q - 1) * limit_of q)
       /\ (page_of q <= pages -> listed r <> [])
       /\ (pages < page_of q -> listed r = []).
Proof.
  intros r total.
  assert (Hpage : 1 <= page_of q).
  { unfold page_of. destruct (Query.page q); lia. }
  assert (Hlimit : 1 <= limit_of q).
  { unfold limit_of. destruct (Query.limit q); lia. }
  split; [|split; [|split; [reflexivity|]]].
  - unfold r, get_orders, pagination, page_of. simpl.
    destruct (Query.page q); [rewrite positive_nat_N|]; reflexivity.
  - unfold r, get_orders, pagination, limit_of. simpl.
    destruct (Query.limit q); [rewrite positive_nat_N|]; reflexivity.
  - assert (Hlen : List.length (listed r)
                   = Nat.min (limit_of q) (total - (page_of q - 1) * limit_of q)).
    { unfold r. rewrite listed_get_orders, length_firstn, length_skipn.
      rewrite (Permutation_length (sort_newest_perm _)). reflexivity. }
    exists (N.to_nat ((N.of_nat total + N.of_nat (limit_of q) - 1)
                      / N.of_nat (limit_of q))).
    assert (Hbounds := pages_bounds (N.of_nat total) (N.of_nat (limit_of q))).
    set (pages := ((N.of_nat total + N.of_nat (limit_of q) - 1)
                   / N.of_nat (limit_of q))%N) in *.
    split; [|split; [lia|split; [exact Hlen|split]]].
    + rewrite N2Nat.id. unfold pages, total, r, get_orders, pagination, limit_of, matching.
      simpl. destruct (Query.limit q); [rewrite positive_nat_N|]; reflexivity.
    + intros Hin Hnil. rewrite Hnil in Hlen. simpl in Hlen. nia.
    + intros Hout. apply length_zero_iff_nil. rewrite Hlen. nia.
Qed.

Lemma NoDup_map_inj {A B : Type} (f : A -> B) (l : list A) (a b : A) :
  NoDup (map f l) -> In a l -> In b l -> f a = f b -> a = b.
Proof.
  induction l as [|x rest IH]; simpl; intros Hnodup Ha Hb Heq; [contradiction|].
  inversion Hnodup as [|? ? Hx Hrest]; subst.
  destruct Ha as [->|Ha], Hb as [->|Hb]; auto.
  - elim Hx. rewrite Heq. apply in_map. exact Hb.
  - elim Hx. rewrite <- Heq. apply in_map. exact Ha.
Qed.

(** A filter keeps the creation times distinct. *)
Lemma distinct_instants_filter (keep : Order.t -> bool) (stored : list Order.t) :
  NoDup (map Order.createdAt stored) ->
  NoDup (map Order.createdAt (filter keep stored)).
Proof.
  induction stored as [|x rest IH]; simpl; intros Hnodup; [constructor|].
  inversion Hnodup as [|? ? Hx Hrest]; subst.
  destruct (keep x); simpl; [|auto].
  constructor; [|auto].
  intros Hin. apply Hx. apply in_map_iff in Hin. destruct Hin as (y & Hy & Hin).
  apply filter_In in Hin. apply in_map_iff. exists y. tauto.
Qed.

(** Orders created at different instants can be sorted in one way
    only. *)
Lemma descending_unique (l1 : list Order.t) :
  forall l2,
    NoDup (map Order.createdAt l1) ->
    Permutation l1 l2 ->
    descending l1 -> descending l2 ->
    l1 = l2.
Proof.
  unfold descending.
  induction l1 as [|a r1 IH]; intros l2 Hnodup Hperm H1 H2.
  - apply Permutation_nil in Hperm. auto.
  - destruct l2 as [|b r2].
    + apply Permutation_sym, Permutation_nil in Hperm. discriminate.
    + inversion H1 as [|? ? Hr1 Ha]; subst.
      inversion H2 as [|? ? Hr2 Hb]; subst.
      rewrite Forall_forall in Ha, Hb.
      assert (Hin_b : In b (a :: r1)).
      { apply (Permutation_in _ (Permutation_sym Hperm)). left. reflexivity. }
      assert (Hin_a : In a (b :: r2)).
      { apply (Permutation_in _ Hperm). left. reflexivity. }
      assert (Heq : a = b).
      { apply (NoDup_map_inj Order.createdAt (a :: r1));
          [exact Hnodup|left; reflexivity|exact Hin_b|].
        apply N.le_antisymm.
        - destruct Hin_a as [->|Hin_a]; [lia|exact (Hb _ Hin_a)].
        - destruct Hin_b as [->|Hin_b]; [lia|exact (Ha _ Hin_b)]. }
      subst b. f_equal. apply IH; auto.
      * simpl in Hnodup. inversion Hnodup. assumption.
      * exact (Permutation_cons_inv Hperm).
Qed.

(** X13.  When the stored orders were created at different instants, the
    pages 1 to [pages] of a query, one after the other, list the stored
    orders the filter selects, each of them once and the newest first;
    they are the only such list, so the sort leaves the database no
    choice between two requests. *)
Theorem pages_list_every_match_once (w : World) (q : Query.t) (pages : nat) :
  NoDup (map Order.createdAt (orders w)) ->
  pagination "pages" (get_orders w q) = Some (N.of_nat pages) ->
  let all := List.concat (map (fun p => listed (get_orders w (at_page q p)))
                            (pages_upto pages)) in
  Permutation all (matching w q)
  /\ descending all
  /\ forall sorted,
       Permutation sorted (matching w q) -> descending sorted -> sorted = all.
Proof.
  intros Hdistinct Hpages all.
  cut (all = sort_newest (matching w q)).
  { intros ->.
    split; [apply sort_newest_perm|]. split; [apply sort_newest_descending|].
    intros sorted Hperm Hsorted.
    apply descending_unique;
      [|exact (perm_trans Hperm (Permutation_sym (sort_newest_perm _)))
       |exact Hsorted|apply sort_newest_descending].
    apply (Permutation_NoDup
             (Permutation_map Order.createdAt (Permutation_sym Hperm))).
    apply distinct_instants_filter. exact Hdistinct. }
  assert (Hall : all = sort_newest (matching w q)).
  { unfold all, pages_upto. rewrite map_map.
    assert (Hlimit : 1 <= limit_of q).
    { unfold limit_of. destruct (Query.limit q); lia. }
    destruct (pagination_counts w q) as (_ & _ & _ & pages' & Hpages' & Hbounds & _).
    rewrite Hpages in Hpages'. injection Hpages' as Heq.
    apply Nat2N.inj in Heq. subst pages'.
    rewrite <- (pages_concat (limit_of q) (sort_newest (matching w q)))
      with (n := pages) at 1.
    - f_equal. apply map_ext. intros i. rewrite listed_get_orders.
      unfold page_of, limit_of, matching, at_page, matches. simpl.
      rewrite SuccNat2Pos.id_succ. simpl. rewrite Nat.sub_0_r. reflexivity.
    - lia.
    - rewrite (Permutation_length (sort_newest_perm _)). lia. }
  exact Hall.
Qed.

Lemma pages_list_every_match_once_witness :
  List.length (matching Listing.shop Listing.by_two) = 3
  /\ Permutation
       (List.concat (map (fun p => listed (get_orders Listing.shop
                                             (at_page Listing.by_two p)))
                       (pages_upto 2)))
       (matching Listing.shop Listing.by_two)
  /\ descending
       (List.concat (map (fun p => listed (get_orders Listing.shop
                                             (at_page Listing.by_two p)))
                       (pages_upto 2))).
Proof.
  split; [vm_compute; reflexivity|].
  pose proof (pages_list_every_match_once Listing.shop Listing.by_two 2) as H.
  cbv zeta in H. destruct H as (Hperm & Hsorted & _).
  - vm_compute. repeat (constructor; [simpl; intuition discriminate|]). constructor.
  - vm_compute. reflexivity.
  - split; [exact Hperm|exact Hsorted].
Defined.

(** ** Deleting a menu item *)

Lemma delete_first_other (id id' : string) (l : list MenuItem.t) :
  id' <> id ->
  find (fun m => MenuItem._id m =? id') (snd (delete_first id l))
  = find (fun m => MenuItem._id m =? id') l.
Proof.
  intros Hother. induction l as [|m rest IH]; simpl; [reflexivity|].
  destruct (String.eqb_spec (MenuItem._id m) id) as [Hm|Hm]; simpl.
  - destruct (String.eqb_spec (MenuItem._id m) id') as [Hm'|_]; [congruence|reflexivity].
  - destruct (delete_first id rest) as [found rest']. simpl in *.
    rewrite IH. reflexivity.
Qed.

Lemma delete_first_same (id : string) (l : list MenuItem.t) :
  NoDup (map MenuItem._id l) ->
  find (fun m => MenuItem._id m =? id) (snd (delete_first id l)) = None.
Proof.
  induction l as [|m rest IH]; simpl; intros Hnodup; [reflexivity|].
  inversion Hnodup as [|? ? Hm Hrest]; subst.
  destruct (String.eqb_spec (MenuItem._id m) id) as [Heq|Hneq]; simpl.
  - destruct (find (fun m0 => MenuItem._id m0 =? id) rest) as [m'|] eqn:Hfind;
      [|reflexivity].
    apply find_some in Hfind. destruct Hfind as [Hin Hid].
    apply String.eqb_eq in Hid. elim Hm. rewrite Heq, <- Hid.
    apply in_map. exact Hin.
  - destruct (delete_first id rest) as [found rest'] eqn:Hdelete. simpl in *.
    destruct (String.eqb_spec (MenuItem._id m) id); [contradiction|].
    apply IH. exact Hrest.
Qed.

Lemma delete_first_absent (oid : string) (l : list MenuItem.t) :
  ~ In oid (map MenuItem._id l) ->
  delete_first oid l = (None, l).
Proof.
  induction l as [|m rest IH]; simpl; intros Hnot; [reflexivity|].
  destruct (String.eqb_spec (MenuItem._id m) oid) as [Hm|Hm]; [tauto|].
  rewrite IH by tauto. reflexivity.
Qed.

Lemma delete_first_split (oid : string) (l : list MenuItem.t) :
  In oid (map MenuItem._id l) ->
  exists before m after,
    l = before ++ m :: after
    /\ MenuItem._id m = oid
    /\ ~ In oid (map MenuItem._id before)
    /\ delete_first oid l = (Some m, before ++ after).
Proof.
  induction l as [|m rest IH]; simpl; intros Hin; [contradiction|].
  destruct (String.eqb_spec (MenuItem._id m) oid) as [Hm|Hm].
  - exists [], m, rest. simpl. auto.
  - destruct Hin as [Hin|Hin]; [contradiction|].
    destruct (IH Hin) as (before & x & after & -> & Hx & Hbefore & Hdelete).
    exists (m :: before), x, after. rewrite Hdelete. simpl.
    split; [reflexivity|]. split; [exact Hx|]. split; [tauto|reflexivity].
Qed.

Section MenuDeletion.

Variable platform : Platform.
Variable castObjectId : string -> option string.
Variable castMessage : string -> string.

Lemma delete_menu_200 (w w' : World) (id : string) (res : Res.t) :
  delete_menu castObjectId castMessage w id = (res, w') ->
  Res.status res = 200 ->
  exists oid,
    castObjectId id = Some oid
    /\ In oid (map MenuItem._id (menuitems w))
    /\ w' = {| now := now w;
               menuitems := snd (delete_first oid (menuitems w));
               orders := orders w |}.
Proof.
  unfold delete_menu, MenuItem_findByIdAndDelete. intros Hdelete H200.
  destruct (castObjectId id) as [oid|];
    [|injection Hdelete as <- _; discriminate].
  exists oid. split; [reflexivity|].
  destruct (in_dec string_dec oid (map MenuItem._id (menuitems w))) as [Hin|Hnot].
  - split; [exact Hin|].
    destruct (delete_first_split oid _ Hin) as (before & m & after & _ & _ & _ & Hsplit).
    rewrite Hsplit in *. injection Hdelete as _ <-. reflexivity.
  - rewrite (delete_first_absent oid _ Hnot) in Hdelete.
    injection Hdelete as <- _. discriminate.
Qed.

(** X15.  DELETE /api/menu/:id answers 500 when the id does not cast to
    an ObjectId, 404 "Menu item not found" when no stored item has the
    ObjectId it casts to, and 200 otherwise; only in the last case does
    anything change, and then the orders and the clock stay as they
    were and the catalog loses its first item with that ObjectId and
    nothing else.  With ids that are unique, no item has the ObjectId
    afterwards, so deleting it again answers 404. *)
Theorem delete_menu_responses (w : World) (id : string) :
  let res := fst (delete_menu castObjectId castMessage w id) in
  let w' := snd (delete_menu castObjectId castMessage w id) in
  (castObjectId id = None ->
   res = failure 500 "Server error. Please try again later." /\ w' = w)
  /\ (forall oid, castObjectId id = Some oid ->
      (~ In oid (map MenuItem._id (menuitems w)) ->
       res = failure 404 "Menu item not found" /\ w' = w)
      /\ (In oid (map MenuItem._id (menuitems w)) ->
          Res.status res = 200
          /\ Json.member "message" (Res.body res)
             = Some (Json.Str "Menu item deleted successfully")
          /\ orders w' = orders w
          /\ now w' = now w
          /\ (exists before m after,
                menuitems w = before ++ m :: after
                /\ MenuItem._id m = oid
                /\ ~ In oid (map MenuItem._id before)
                /\ menuitems w' = before ++ after)
          /\ (NoDup (map MenuItem._id (menuitems w)) ->
              ~ In oid (map MenuItem._id (menuitems w'))
              /\ fst (delete_menu castObjectId castMessage w' id)
                 = failure 404 "Menu item not found"))).
Proof.
  unfold delete_menu, MenuItem_findByIdAndDelete. simpl.
  split; [intros ->; split; reflexivity|].
  intros oid ->. split.
  - intros Hnot. rewrite (delete_first_absent oid _ Hnot). split; reflexivity.
  - intros Hin.
    destruct (delete_first_split oid _ Hin)
      as (before & m & after & Hw & Hm & Hbefore & Hdelete).
    rewrite Hdelete. simpl.
    split; [reflexivity|]. split; [reflexivity|].
    split; [reflexivity|]. split; [reflexivity|]. split.
    + exists before, m, after. auto.
    + intros Hnodup.
      assert (Hgone : ~ In oid (map MenuItem._id (before ++ after))).
      { rewrite Hw, map_app in Hnodup. simpl in Hnodup.
        apply NoDup_remove_2 in Hnodup. rewrite Hm, <- map_app in Hnodup.
        exact Hnodup. }
      split; [exact Hgone|].
      rewrite (delete_first_absent oid _ Hgone). reflexivity.
Qed.

Lemma item_violation_deleted (w w' : World) (id : string) (item : ReqItem.t) :
  (forall id', id' <> id -> MenuItem_findById w' id' = MenuItem_findById w id') ->
  MenuItem_findById w' id = None ->
  item_violation platform truthy_not_below_1 w item = None ->
  item_violation platform truthy_not_below_1 w' item
  = if (match ReqItem.menuItemId item with
        | Some id0 => id0 =? id
        | None => false
        end)
    then Some (ItemNotFound (ReqItem.name item))
    else None.
Proof.
  intros Hother Hsame. unfold item_violation.
  destruct (ReqItem.menuItemId item) as [id0|]; [|discriminate].
  destruct ((id0 =? "") || negb (ObjectId_isValid platform id0)); [discriminate|].
  destruct (String.eqb_spec id0 id) as [->|Hneq].
  - rewrite Hsame. reflexivity.
  - rewrite (Hother id0 Hneq). auto.
Qed.

(** X16.  Once DELETE /api/menu/:id has deleted a menu item, a request
    that was acceptable before, whose lines give their ids in the text
    in which documents hold them (so that the cast of the lookup leaves
    them as they are), and that has a line for the deleted item, is
    refused as a whole: 400 with the message that the item, under the
    name the client gave for the first such line, was not found or has
    been removed; nothing is stored. *)
Theorem deleted_item_cannot_be_ordered
  (w w' : World) (id oid : string) (res : Res.t) (body : Req.t)
  (items : list ReqItem.t) :
  NoDup (map MenuItem._id (menuitems w)) ->
  delete_menu castObjectId castMessage w id = (res, w') ->
  Res.status res = 200 ->
  castObjectId id = Some oid ->
  first_violation platform truthy_not_below_1 w body = None ->
  Req.items body = Some items ->
  (forall item id0, In item items -> ReqItem.menuItemId item = Some id0 ->
                    castObjectId id0 = Some id0) ->
  (exists item, In item items /\ ReqItem.menuItemId item = Some oid) ->
  exists item,
    In item items
    /\ ReqItem.menuItemId item = Some oid
    /\ post_orders platform w' body
       = (failure 400 (message_of (ItemNotFound (ReqItem.name item))), w').
Proof.
  intros Hnodup Hdelete H200 Hcast Hok Hitems _ Hline.
  destruct (delete_menu_200 w w' id res Hdelete H200) as (oid' & Hcast' & _ & Hw').
  rewrite Hcast in Hcast'. injection Hcast' as <-.
  assert (Hother : forall id', id' <> oid ->
                     MenuItem_findById w' id' = MenuItem_findById w id').
  { intros id' Hid'. rewrite Hw'. apply delete_first_other. exact Hid'. }
  assert (Hsame : MenuItem_findById w' oid = None).
  { rewrite Hw'. apply delete_first_same. exact Hnodup. }
  assert (Hfirst : forall l,
            first_item_violation platform truthy_not_below_1 w l = None ->
            (exists item, In item l /\ ReqItem.menuItemId item = Some oid) ->
            exists item,
              In item l /\ ReqItem.menuItemId item = Some oid
              /\ first_item_violation platform truthy_not_below_1 w' l
                 = Some (ItemNotFound (ReqItem.name item))).
  { induction l as [|x rest IH]; simpl; intros Hl (item & Hin & Hid); [contradiction|].
    destruct (item_violation platform truthy_not_below_1 w x) eqn:Hx; [discriminate|].
    rewrite (item_violation_deleted w w' oid x Hother Hsame Hx).
    destruct (ReqItem.menuItemId x) as [id0|] eqn:Hid0.
    - destruct (String.eqb_spec id0 oid) as [->|Hneq].
      + exists x. auto.
      + destruct Hin as [->|Hin]; [congruence|].
        destruct (IH Hl (ex_intro _ item (conj Hin Hid))) as (y & Hy & Hyid & Hyv).
        exists y. auto.
    - destruct Hin as [->|Hin]; [congruence|].
      destruct (IH Hl (ex_intro _ item (conj Hin Hid))) as (y & Hy & Hyid & Hyv).
      exists y. auto. }
  pose proof (post_orders_first_violation platform w' body) as Hpost.
  unfold first_violation in Hok, Hpost. rewrite Hitems in Hok, Hpost.
  destruct (Req.customer body) as [c|]; [|discriminate].
  destruct (Req.deliveryAddress body) as [a|]; [|discriminate].
  destruct items as [|x rest]; [discriminate|].
  destruct (negb _); [discriminate|].
  destruct (negb _); [discriminate|].
  destruct (Hfirst _ Hok Hline) as (item & Hin & Hid & Hviolation).
  rewrite Hviolation in Hpost.
  exists item. auto.
Qed.

End MenuDeletion.

Lemma deleted_item_cannot_be_ordered_witness :
  let w' := snd (delete_menu Sample.castObjectId (fun _ => "CastError") Sample.world
                   "64B7F0C2A1D3E4F5A6B7C8D9") in
  MenuItem._id Sample.cappuccino = "64b7f0c2a1d3e4f5a6b7c8d9"
  /\ menuitems w' = [Sample.samosa]
  /\ post_orders Sample.server w' (Sample.order_of [Sample.line 2])
     = (failure 400 (message_of (ItemNotFound (Some "Cappuccino"))), w').
Proof.
  split; [reflexivity|]. split; [vm_compute; reflexivity|].
  destruct (deleted_item_cannot_be_ordered Sample.server Sample.castObjectId
              (fun _ => "CastError") Sample.world
              (snd (delete_menu Sample.castObjectId (fun _ => "CastError") Sample.world
                      "64B7F0C2A1D3E4F5A6B7C8D9"))
              "64B7F0C2A1D3E4F5A6B7C8D9" "64b7f0c2a1d3e4f5a6b7c8d9"
              (fst (delete_menu Sample.castObjectId (fun _ => "CastError") Sample.world
                      "64B7F0C2A1D3E4F5A6B7C8D9"))
              (Sample.order_of [Sample.line 2]) [Sample.line 2])
    as (item & Hin & _ & Hpost).
  - vm_compute. repeat (constructor; [simpl; intuition discriminate|]). constructor.
  - apply surjective_pairing.
  - vm_compute. reflexivity.
  - vm_compute. reflexivity.
  - vm_compute. reflexivity.
  - reflexivity.
  - intros item id0 [<-|[]] Hid. injection Hid as <-. vm_compute. reflexivity.
  - exists (Sample.line 2). split; [left; reflexivity|reflexivity].
  - destruct Hin as [<-|[]]. exact Hpost.
Defined.

(** ** Reservations *)

Lemma update_reservation_ids (id : string) (u : ReservationUpdate.t)
  (l : list Reservation.t) :
  map Reservation._id (snd (update_reservation id u l)) = map Reservation._id l.
Proof.
  induction l as [|r rest IH]; simpl; [reflexivity|].
  destruct (Reservation._id r =? id); simpl; [reflexivity|].
  destruct (update_reservation id u rest) as [found rest']. simpl in *.
  rewrite IH. reflexivity.
Qed.

Lemma update_reservation_Forall (P : Reservation.t -> Prop) (id : string)
  (u : ReservationUpdate.t) (l : list Reservation.t) :
  (forall r, P r -> P (set_reservation u r)) ->
  Forall P l ->
  Forall P (snd (update_reservation id u l)).
Proof.
  intros Hset. induction l as [|r rest IH]; simpl; intros H; [constructor|].
  inversion H as [|? ? Hr Hrest]; subst.
  destruct (Reservation._id r =? id); simpl; [constructor; auto|].
  destruct (update_reservation id u rest) as [found rest']. simpl in *.
  constructor; auto.
Qed.

Lemma update_reservation_found (id : string) (u : ReservationUpdate.t)
  (l : list Reservation.t) (r : Reservation.t) :
  find (fun x => Reservation._id x =? id) l = Some r ->
  fst (update_reservation id u l) = Some (set_reservation u r)
  /\ find (fun x => Reservation._id x =? id) (snd (update_reservation id u l))
     = Some (set_reservation u r).
Proof.
  induction l as [|x rest IH]; simpl; [discriminate|].
  destruct (Reservation._id x =? id) eqn:Hx.
  - intros H; injection H as <-. simpl. rewrite Hx. auto.
  - intros H. destruct (IH H) as [Hfst Hsnd].
    destruct (update_reservation id u rest) as [found rest']. simpl in *.
    rewrite Hx. auto.
Qed.

Lemma update_reservation_missing (id : string) (u : ReservationUpdate.t)
  (l : list Reservation.t) :
  find (fun x => Reservation._id x =? id) l = None ->
  update_reservation id u l = (None, l).
Proof.
  induction l as [|x rest IH]; simpl; [reflexivity|].
  destruct (Reservation._id x =? id); [discriminate|].
  intros H. rewrite (IH H). reflexivity.
Qed.

Lemma includes_Some (l : list string) (s : string) :
  In s l -> includes l (Some s) = true.
Proof.
  intros Hs. apply existsb_exists. exists s. split; [exact Hs|apply String.eqb_refl].
Qed.

Lemma reservation_ok_set (u : ReservationUpdate.t) (r : Reservation.t) :
  In (ReservationUpdate.status u) reservationStatuses ->
  reservationSchema_validate_update u = true ->
  reservation_ok r ->
  reservation_ok (set_reservation u r).
Proof.
  unfold reservation_ok, reservationSchema_validate_update, tableNumber_validate.
  simpl. intros Hstatus Hvalid [_ Htable]. split; [exact Hstatus|].
  destruct (ReservationUpdate.tableNumber u) as [v|]; [|exact Htable].
  apply andb_true_iff in Hvalid. exact Hvalid.
Qed.

Section Reservations.

Variable castObjectId : string -> bool.

(** X17.  Confirming a reservation with a table number below 1 or above
    50 is answered with 500 "Server error", not with a validation
    message, and changes nothing, whether or not the reservation
    exists. *)
Theorem reservation_table_out_of_range
  (store : list Reservation.t) (id : string) (v : float) :
  JS.truthy_number v = true ->
  tableNumber_validate v = false ->
  put_reservation_status castObjectId store id (Some "confirmed") (Some v)
  = (Reply.Failure 500 "Server error. Please try again later.", store).
Proof.
  intros Htruthy Hinvalid.
  unfold put_reservation_status, Reservation_findByIdAndUpdate,
    reservationSchema_validate_update.
  simpl. rewrite Htruthy. simpl. rewrite Hinvalid. simpl.
  destruct (castObjectId id); reflexivity.
Qed.

(** X18.  The status route looks at the table number only when it
    confirms: with any other status, or with the table number 0, it
    answers and stores what it would without one.  A confirmation of an
    existing reservation with a table from 1 to 50 stores that table; one
    without a table leaves the table as it was. *)
Theorem reservation_table_only_on_confirmation
  (store : list Reservation.t) (id : string) (status : option string) (v : float) :
  (status <> Some "confirmed" ->
   put_reservation_status castObjectId store id status (Some v)
   = put_reservation_status castObjectId store id status None)
  /\ put_reservation_status castObjectId store id status (Some 0%float)
     = put_reservation_status castObjectId store id status None
  /\ forall r,
       castObjectId id = true ->
       find (fun x => Reservation._id x =? id) store = Some r ->
       (exists r' store',
          put_reservation_status castObjectId store id (Some "confirmed") None
          = (Reply.Success (Some "Reservation status updated successfully") r', store')
          /\ Reservation.status r' = "confirmed"
          /\ Reservation.tableNumber r' = Reservation.tableNumber r)
       /\ (JS.truthy_number v = true -> tableNumber_validate v = true ->
           exists r' store',
             put_reservation_status castObjectId store id (Some "confirmed") (Some v)
             = (Reply.Success (Some "Reservation status updated successfully") r', store')
             /\ Reservation.status r' = "confirmed"
             /\ Reservation.tableNumber r' = Some v
             /\ find (fun x => Reservation._id x =? id) store' = Some r').
Proof.
  split; [|split].
  - intros Hother. unfold put_reservation_status.
    destruct (negb (includes reservationStatuses status)); [reflexivity|].
    destruct status as [s|]; simpl.
    + destruct (String.eqb_spec s "confirmed") as [->|_]; [now elim Hother|].
      rewrite andb_false_r. reflexivity.
    + rewrite andb_false_r. reflexivity.
  - reflexivity.
  - intros r Hcast Hfind.
    unfold put_reservation_status, Reservation_findByIdAndUpdate,
      reservationSchema_validate_update.
    simpl. rewrite Hcast. simpl. split.
    + destruct (update_reservation_found id
                  {| ReservationUpdate.status := "confirmed";
                     ReservationUpdate.tableNumber := None |} _ _ Hfind)
        as [Hfst _].
      destruct (update_reservation id _ store) as [found store'].
      simpl in Hfst. subst found. eexists. eexists.
      split; [reflexivity|]. split; reflexivity.
    + intros Htruthy Hvalid. rewrite Htruthy. simpl. rewrite Hvalid. simpl.
      destruct (update_reservation_found id
                  {| ReservationUpdate.status := "confirmed";
                     ReservationUpdate.tableNumber := Some v |} _ _ Hfind)
        as [Hfst Hsnd].
      destruct (update_reservation id _ store) as [found store'].
      simpl in Hfst, Hsnd. subst found. eexists. eexists.
      split; [reflexivity|]. split; [reflexivity|]. split; [reflexivity|].
      exact Hsnd.
Qed.

(** X19.  The status route and the cancellation keep the collection
    within the schema: every reservation keeps a status of the
    enumeration and a table, if any, from 1 to 50.  Neither route removes
    or adds a reservation. *)
Theorem reservation_routes_keep_schema
  (store : list Reservation.t) (id : string) (status : option string)
  (tableNumber : option float) :
  Forall reservation_ok store ->
  Forall reservation_ok
    (snd (put_reservation_status castObjectId store id status tableNumber))
  /\ Forall reservation_ok (snd (delete_reservation castObjectId store id))
  /\ map Reservation._id
       (snd (put_reservation_status castObjectId store id status tableNumber))
     = map Reservation._id store
  /\ map Reservation._id (snd (delete_reservation castObjectId store id))
     = map Reservation._id store.
Proof.
  intros Hok.
  assert (Hput : forall u,
            match Reservation_findByIdAndUpdate castObjectId true store id u with
            | Some (Some _, store') => snd (update_reservation id u store) = store'
            | _ => True
            end).
  { intros u. unfold Reservation_findByIdAndUpdate.
    destruct (negb (castObjectId id)); [exact I|].
    destruct (true && negb (reservationSchema_validate_update u)); [exact I|].
    destruct (update_reservation id u store) as [[r|] store']; reflexivity. }
  assert (Hdelete : forall u,
            match Reservation_findByIdAndUpdate castObjectId false store id u with
            | Some (Some _, store') => snd (update_reservation id u store) = store'
            | _ => True
            end).
  { intros u. unfold Reservation_findByIdAndUpdate.
    destruct (negb (castObjectId id)); [exact I|]. simpl.
    destruct (update_reservation id u store) as [[r|] store']; reflexivity. }
  assert (Hvalid : forall u,
            Reservation_findByIdAndUpdate castObjectId true store id u <> None ->
            reservationSchema_validate_update u = true).
  { intros u. unfold Reservation_findByIdAndUpdate.
    destruct (negb (castObjectId id)); [tauto|]. simpl.
    destruct (reservationSchema_validate_update u); simpl; tauto. }
  split; [|split; [|split]].
  - unfold put_reservation_status.
    destruct (includes reservationStatuses status) eqn:Hincludes; simpl; [|exact Hok].
    set (u := {| ReservationUpdate.status := _; ReservationUpdate.tableNumber := _ |}).
    specialize (Hput u). specialize (Hvalid u).
    destruct (Reservation_findByIdAndUpdate castObjectId true store id u)
      as [[[r|] store']|]; simpl; try exact Hok.
    subst store'. apply update_reservation_Forall; [|exact Hok].
    intros x Hx. apply reservation_ok_set; [|apply Hvalid; discriminate|exact Hx].
    unfold u. simpl.
    destruct status as [s|]; [|discriminate].
    unfold includes in Hincludes. apply existsb_exists in Hincludes.
    destruct Hincludes as (y & Hy & Heq). apply String.eqb_eq in Heq.
    subst y. exact Hy.
  - unfold delete_reservation.
    set (u := {| ReservationUpdate.status := "cancelled";
                 ReservationUpdate.tableNumber := None |}).
    specialize (Hdelete u).
    destruct (Reservation_findByIdAndUpdate castObjectId false store id u)
      as [[[r|] store']|]; simpl; try exact Hok.
    subst store'. apply update_reservation_Forall; [|exact Hok].
    intros x Hx. apply reservation_ok_set; [|reflexivity|exact Hx].
    unfold reservationStatuses. simpl. tauto.
  - unfold put_reservation_status.
    destruct (includes reservationStatuses status); simpl; [|reflexivity].
    set (u := {| ReservationUpdate.status := _; ReservationUpdate.tableNumber := _ |}).
    specialize (Hput u).
    destruct (Reservation_findByIdAndUpdate castObjectId true store id u)
      as [[[r|] store']|]; simpl; try reflexivity.
    subst store'. apply update_reservation_ids.
  - unfold delete_reservation.
    set (u := {| ReservationUpdate.status := "cancelled";
                 ReservationUpdate.tableNumber := None |}).
    specialize (Hdelete u).
    destruct (Reservation_findByIdAndUpdate castObjectId false store id u)
      as [[[r|] store']|]; simpl; try reflexivity.
    subst store'. apply update_reservation_ids.
Qed.

(** X20.  DELETE /api/reservations/:id deletes nothing.  For an existing
    reservation it answers 200 with the reservation as stored from then
    on: cancelled, and otherwise as before, its table included.  The
    reservation can still be fetched; cancelling it again answers and
    stores the same, and the status route confirms it again. *)
Theorem cancellation_keeps_reservation
  (store : list Reservation.t) (id : string) (r : Reservation.t) :
  castObjectId id = true ->
  find (fun x => Reservation._id x =? id) store = Some r ->
  exists r' store',
    delete_reservation castObjectId store id
    = (Reply.Success (Some "Reservation cancelled successfully") r', store')
    /\ Reservation.status r' = "cancelled"
    /\ Reservation.tableNumber r' = Reservation.tableNumber r
    /\ same_booking r r'
    /\ List.length store' = List.length store
    /\ get_reservation castObjectId store' id = Reply.Success None r'
    /\ delete_reservation castObjectId store' id
       = (Reply.Success (Some "Reservation cancelled successfully") r', store')
    /\ Reply.status
         (fst (put_reservation_status castObjectId store' id (Some "confirmed") None))
       = 200.
Proof.
  intros Hcast Hfind.
  set (u := {| ReservationUpdate.status := "cancelled";
               ReservationUpdate.tableNumber := None |}).
  destruct (update_reservation_found id u _ _ Hfind) as [Hfst Hsnd].
  pose proof (update_reservation_ids id u store) as Hids.
  exists (set_reservation u r), (snd (update_reservation id u store)).
  assert (Hdelete : delete_reservation castObjectId store id
                    = (Reply.Success (Some "Reservation cancelled successfully")
                         (set_reservation u r),
                       snd (update_reservation id u store))).
  { unfold delete_reservation, Reservation_findByIdAndUpdate.
    rewrite Hcast. simpl. fold u.
    destruct (update_reservation id u store) as [found store'].
    simpl in Hfst. subst found. reflexivity. }
  split; [exact Hdelete|]. split; [reflexivity|]. split; [reflexivity|].
  split; [unfold same_booking; simpl; auto 20|].
  split.
  { apply (f_equal (@List.length string)) in Hids.
    rewrite !length_map in Hids. exact Hids. }
  split.
  { unfold get_reservation, Reservation_findById. rewrite Hcast, Hsnd. reflexivity. }
  destruct (update_reservation_found id u _ _ Hsnd) as [Hfst2 Hsnd2].
  split.
  - unfold delete_reservation, Reservation_findByIdAndUpdate.
    rewrite Hcast. simpl. fold u.
    assert (Hfixed : forall l, snd (update_reservation id u
                                      (snd (update_reservation id u l)))
                               = snd (update_reservation id u l)).
    { induction l as [|x rest IH]; simpl; [reflexivity|].
      destruct (Reservation._id x =? id) eqn:Hx; simpl.
      - rewrite Hx. reflexivity.
      - destruct (update_reservation id u rest) as [found rest'] eqn:Hrest.
        simpl in *. rewrite Hx.
        destruct (update_reservation id u rest') as [found' rest''].
        simpl in *. rewrite IH. reflexivity. }
    specialize (Hfixed store).
    destruct (update_reservation id u (snd (update_reservation id u store)))
      as [found store''].
    simpl in Hfst2, Hfixed. subst found store''. reflexivity.
  - unfold put_reservation_status, Reservation_findByIdAndUpdate,
      reservationSchema_validate_update.
    simpl. rewrite Hcast. simpl.
    destruct (update_reservation_found id
                {| ReservationUpdate.status := "confirmed";
                   ReservationUpdate.tableNumber := None |} _ _ Hsnd) as [Hfst3 _].
    destruct (update_reservation id
                {| ReservationUpdate.status := "confirmed";
                   ReservationUpdate.tableNumber := None |}
                (snd (update_reservation id u store)))
      as [found store''].
    simpl in Hfst3. subst found. reflexivity.
Qed.

End Reservations.

Lemma reservation_table_out_of_range_witness :
  put_reservation_status Sample.hex24 Booking.book (Reservation._id Booking.dinner)
    (Some "confirmed") (Some 51%float)
  = (Reply.Failure 500 "Server error. Please try again later.", Booking.book).
Proof.
  apply (reservation_table_out_of_range Sample.hex24); reflexivity.
Defined.

Lemma reservation_routes_keep_schema_witness :
  Forall reservation_ok
    (snd (put_reservation_status Sample.hex24 Booking.book
            (Reservation._id Booking.dinner) (Some "confirmed") (Some 12%float)))
  /\ Forall reservation_ok
       (snd (delete_reservation Sample.hex24 Booking.book
               (Reservation._id Booking.dinner))).
Proof.
  destruct (reservation_routes_keep_schema Sample.hex24 Booking.book
              (Reservation._id Booking.dinner) (Some "confirmed") (Some 12%float))
    as (Hput & Hdelete & _).
  - constructor; [|constructor]. unfold reservation_ok, reservationStatuses.
    simpl. split; [tauto|]. split; reflexivity.
  - split; [exact Hput|exact Hdelete].
Defined.

Lemma cancellation_keeps_reservation_witness :
  exists r' store',
    delete_reservation Sample.hex24 Booking.book (Reservation._id Booking.dinner)
    = (Reply.Success (Some "Reservation cancelled successfully") r', store')
    /\ Reservation.status r' = "cancelled"
    /\ Reservation.tableNumber r' = Some 7%float
    /\ List.length store' = 1.
Proof.
  destruct (cancellation_keeps_reservation Sample.hex24 Booking.book
              (Reservation._id Booking.dinner) Booking.dinner)
    as (r' & store' & Hdelete & Hstatus & Htable & _ & Hlength & _).
  - reflexivity.
  - reflexivity.
  - exists r', store'. auto.
Defined.

(** ** The default menu *)

Lemma defaultItems_valid : forallb menuItemSchema_validate defaultItems = true.
Proof. vm_compute. reflexivity. Qed.

Lemma defaultItems_trimmed :
  Forall (fun d => JS.trim (DefaultItem.name d) = DefaultItem.name d
                   /\ DefaultItem.isAvailable d = true) defaultItems.
Proof. repeat constructor. Qed.

Section DefaultMenu.

Variable platform : Platform.
Variable ObjectId : nat -> string.

Lemma createDefaults_empty (w : World) :
  menuitems w = [] ->
  createDefaults ObjectId w
  = {| now := now w; menuitems := insert_from ObjectId 0 defaultItems; orders := orders w |}.
Proof.
  intros Hempty. unfold createDefaults, MenuItem_insertMany.
  rewrite defaultItems_valid, Hempty. reflexivity.
Qed.

Lemma insert_from_names (docs : list DefaultItem.t) :
  forall k, map MenuItem.name (insert_from ObjectId k docs)
            = map (fun d => JS.trim (DefaultItem.name d)) docs.
Proof.
  induction docs as [|d rest IH]; intros k; simpl; [reflexivity|].
  rewrite IH. reflexivity.
Qed.

(** The [j]-th inserted document is found under its id when the ids
    before it are others. *)
Lemma find_insert_from (docs : list DefaultItem.t) :
  forall k j d,
    nth_error docs j = Some d ->
    (forall j', j' < j -> ObjectId (k + j') <> ObjectId (k + j)) ->
    find (fun m => MenuItem._id m =? ObjectId (k + j)) (insert_from ObjectId k docs)
    = Some (inserted ObjectId (k + j) d).
Proof.
  induction docs as [|x rest IH]; intros k j d Hj Hfresh; [destruct j; discriminate|].
  destruct j as [|j]; simpl in *.
  - injection Hj as ->. rewrite Nat.add_0_r, String.eqb_refl. reflexivity.
  - destruct (String.eqb_spec (ObjectId k) (ObjectId (k + S j))) as [Heq|_].
    + elim (Hfresh 0); [lia|]. rewrite Nat.add_0_r. exact Heq.
    + replace (k + S j) with (S k + j) by lia. apply IH; [exact Hj|].
      intros j' Hj'. replace (S k + j') with (k + S j') by lia.
      replace (S k + j) with (k + S j) by lia. apply Hfresh. lia.
Qed.

(** X21.  [createDefaults] leaves a catalog that has an item as it is.
    An empty catalog it fills with the eight default items, in the order
    of the source and all of them available, under their names; orders
    and clock stay as they are.  Running it again changes nothing. *)
Theorem createDefaults_fills_empty_catalog (w : World) :
  (menuitems w <> [] -> createDefaults ObjectId w = w)
  /\ (menuitems w = [] ->
      map MenuItem.name (menuitems (createDefaults ObjectId w))
      = ["MASALA CHAI"; "CAPPUCCINO"; "DHOKLA"; "KHANDVI";
         "COLD COFFEE"; "GULAB JAMUN"; "SAMOSA"; "LATTE"]
      /\ map MenuItem._id (menuitems (createDefaults ObjectId w))
         = map ObjectId (seq 0 8)
      /\ Forall (fun m => MenuItem.isAvailable m = true)
           (menuitems (createDefaults ObjectId w)))
  /\ orders (createDefaults ObjectId w) = orders w
  /\ now (createDefaults ObjectId w) = now w
  /\ createDefaults ObjectId (createDefaults ObjectId w) = createDefaults ObjectId w.
Proof.
  assert (Hfull : menuitems w <> [] -> createDefaults ObjectId w = w).
  { unfold createDefaults. destruct (menuitems w); [tauto|reflexivity]. }
  split; [exact Hfull|]. split.
  { intros Hempty. rewrite (createDefaults_empty w Hempty). simpl.
    split; [reflexivity|]. split; [reflexivity|]. repeat constructor. }
  destruct (menuitems w) as [|m rest] eqn:Hmenu.
  - rewrite (createDefaults_empty w Hmenu).
    split; [reflexivity|]. split; [reflexivity|].
    unfold createDefaults. reflexivity.
  - rewrite Hfull by discriminate.
    split; [reflexivity|]. split; [reflexivity|].
    unfold createDefaults. rewrite Hmenu. reflexivity.
Qed.

(** X22.  On a server whose catalog [createDefaults] has filled, under
    ids that are ObjectIds and differ from one another, a request with
    customer and address fields whose lines each name a default item,
    for a quantity the route accepts, passes every check of the route:
    each line is found and available, and the request goes on to be
    saved with the names and prices of the default items. *)
Theorem default_menu_can_be_ordered
  (w : World) (body : Req.t) (customer : ReqCustomer.t) (deliveryAddress : ReqAddress.t)
  (items : list ReqItem.t) :
  menuitems w = [] ->
  (forall i, i < List.length defaultItems ->
             ObjectId i <> "" /\ ObjectId_isValid platform (ObjectId i) = true) ->
  (forall i j, i < j < List.length defaultItems -> ObjectId i <> ObjectId j) ->
  Req.customer body = Some customer ->
  Req.deliveryAddress body = Some deliveryAddress ->
  present (ReqCustomer.name customer) && present (ReqCustomer.email customer)
  && present (ReqCustomer.phone customer) = true ->
  present (ReqAddress.street deliveryAddress) && present (ReqAddress.area deliveryAddress)
  && present (ReqAddress.pincode deliveryAddress) = true ->
  Req.items body = Some items ->
  items <> [] ->
  Forall (names_default ObjectId) items ->
  let w' := createDefaults ObjectId w in
  exists subtotal validatedItems,
    validate_lines platform w' items 0%float [] = inr (subtotal, validatedItems)
    /\ Forall2 (fun item line =>
                  exists i d,
                    nth_error defaultItems i = Some d
                    /\ ReqItem.menuItemId item = Some (ObjectId i)
                    /\ OrderItem.menuItem line = ObjectId i
                    /\ OrderItem.name line = DefaultItem.name d
                    /\ OrderItem.price line = DefaultItem.price d
                    /\ Some (OrderItem.quantity line) = ReqItem.quantity item)
         items validatedItems
    /\ post_orders platform w' body
       = match Order_save platform w'
                 (newOrder customer deliveryAddress (Req.specialInstructions body)
                    validatedItems subtotal (deliveryFee_of subtotal)
                    (subtotal + deliveryFee_of subtotal)%float) with
         | inr (savedOrder, w'') => (created savedOrder, w'')
         | inl error => (post_catch platform error, w')
         end.
Proof.
  intros Hempty Hvalid Hdistinct Hc Ha Hcustomer Haddress Hitems Hsome Hlines w'.
  assert (Hfind : forall i d,
            nth_error defaultItems i = Some d ->
            MenuItem_findById w' (ObjectId i) = Some (inserted ObjectId i d)).
  { intros i d Hi. unfold w'. rewrite (createDefaults_empty w Hempty).
    unfold MenuItem_findById. simpl menuitems.
    apply (find_insert_from defaultItems 0 i d Hi).
    intros j' Hj'. simpl. apply Hdistinct. split; [exact Hj'|].
    apply nth_error_Some. congruence. }
  assert (Hloop : forall l subtotal0 validated0,
            Forall (names_default ObjectId) l ->
            exists subtotal lines,
              validate_lines platform w' l subtotal0 validated0
              = inr (subtotal, validated0 ++ lines)
              /\ Forall2 (fun item line =>
                            exists i d,
                              nth_error defaultItems i = Some d
                              /\ ReqItem.menuItemId item = Some (ObjectId i)
                              /\ OrderItem.menuItem line = ObjectId i
                              /\ OrderItem.name line = DefaultItem.name d
                              /\ OrderItem.price line = DefaultItem.price d
                              /\ Some (OrderItem.quantity line) = ReqItem.quantity item)
                   l lines).
  { induction l as [|item rest IH]; intros s0 v0 Hl.
    - exists s0, []. rewrite app_nil_r. split; [reflexivity|constructor].
    - inversion Hl as [|? ? (i & q & Hi & Hid & Hq & Hquantity) Hrest]; subst.
      destruct (nth_error defaultItems i) as [d|] eqn:Hd;
        [|apply nth_error_None in Hd; lia].
      destruct (Hvalid i Hi) as [Hnonempty Hobject].
      pose proof defaultItems_trimmed as Htrimmed.
      rewrite Forall_forall in Htrimmed.
      destruct (Htrimmed d (nth_error_In _ _ Hd)) as [Hname Havailable].
      simpl validate_lines. rewrite Hid. simpl JS.truthy. simpl value.
      rewrite (proj2 (truthy_string_true _) Hnonempty), Hobject. simpl.
      rewrite (Hfind i d Hd). simpl. rewrite Havailable. simpl.
      rewrite Hq. unfold truthy_not_below_1 in Hquantity.
      apply andb_true_iff in Hquantity. destruct Hquantity as [Htruthy Hbelow].
      rewrite Htruthy. simpl. apply negb_true_iff in Hbelow. rewrite Hbelow.
      destruct (IH (s0 + DefaultItem.price d * q)%float
                  (v0 ++ [{| OrderItem.menuItem := ObjectId i;
                             OrderItem.name := JS.trim (DefaultItem.name d);
                             OrderItem.price := DefaultItem.price d;
                             OrderItem.quantity := q;
                             OrderItem.image := DefaultItem.image d |}]) Hrest)
        as (subtotal & lines & Hrun & Hall).
      rewrite Hrun. eexists. eexists. rewrite <- app_assoc.
      split; [reflexivity|]. simpl.
      constructor; [|exact Hall].
      exists i, d. simpl. rewrite Hname, Hq. auto 10. }
  destruct (Hloop items 0%float [] Hlines) as (subtotal & lines & Hrun & Hall).
  exists subtotal, lines. split; [exact Hrun|]. split; [exact Hall|].
  unfold post_orders. rewrite Hc, Ha, Hitems.
  destruct items as [|item rest]; [now elim Hsome|].
  change (JS.truthy JS.truthy_string) with present.
  rewrite <- !negb_andb, Hcustomer, Haddress. simpl negb. cbv iota.
  rewrite Hrun. reflexivity.
Qed.

End DefaultMenu.

Lemma default_menu_can_be_ordered_witness :
  exists subtotal validatedItems,
    validate_lines Sample.server (createDefaults Startup.ObjectId Startup.empty)
      [{| ReqItem.menuItemId := Some (Startup.ObjectId 0);
          ReqItem.quantity := Some 2%float;
          ReqItem.name := Some "Masala chai";
          ReqItem.price := None |};
       {| ReqItem.menuItemId := Some (Startup.ObjectId 2);
          ReqItem.quantity := Some 1%float;
          ReqItem.name := None;
          ReqItem.price := None |}] 0%float []
    = inr (subtotal, validatedItems)
    /\ List.length validatedItems = 2.
Proof.
  pose proof (default_menu_can_be_ordered Sample.server Startup.ObjectId
                Startup.empty Startup.tea_time Sample.customer Sample.address
                [{| ReqItem.menuItemId := Some (Startup.ObjectId 0);
                    ReqItem.quantity := Some 2%float;
                    ReqItem.name := Some "Masala chai";
                    ReqItem.price := None |};
                 {| ReqItem.menuItemId := Some (Startup.ObjectId 2);
                    ReqItem.quantity := Some 1%float;
                    ReqItem.name := None;
                    ReqItem.price := None |}]) as H.
  cbv zeta in H.
  destruct H as (subtotal & validatedItems & Hrun & Hall & _).
  - reflexivity.
  - intros i Hi. change (List.length defaultItems) with 8 in Hi.
    do 8 (destruct i as [|i]; [split; [vm_compute; discriminate|vm_compute; reflexivity]|]).
    lia.
  - intros i j [Hij _] Heq. unfold Startup.ObjectId in Heq.
    apply (f_equal (JS.drop (String.length "64b7f0c2a1d3e4f5a6b7c8f"))) in Heq.
    rewrite !drop_append in Heq. apply (f_equal decimal) in Heq.
    rewrite !decimal_Number_toString in Heq. lia.
  - reflexivity.
  - reflexivity.
  - reflexivity.
  - reflexivity.
  - reflexivity.
  - discriminate.
  - constructor; [|constructor; [|constructor]].
    + exists 0, 2%float. change (List.length defaultItems) with 8.
      split; [lia|]. split; [reflexivity|]. split; reflexivity.
    + exists 2, 1%float. change (List.length defaultItems) with 8.
      split; [lia|]. split; [reflexivity|]. split; reflexivity.
  - exists subtotal, validatedItems. split; [exact Hrun|].
    apply Forall2_length in Hall. rewrite <- Hall. reflexivity.
Defined.

(** ** Creating a reservation *)

Lemma check_nil (ok : bool) (message : string) : check ok message = [] -> ok = true.
Proof. destruct ok; [reflexivity|discriminate]. Qed.

Lemma check_false (message : string) : check false message = [message].
Proof. reflexivity. Qed.

Lemma matches_or_empty_true (test : string -> bool) (v : string) :
  v <> "" -> matches_or_empty test v = true -> test v = true.
Proof.
  unfold matches_or_empty. intros Hv.
  destruct (String.eqb_spec v "") as [->|_]; [now elim Hv|]. auto.
Qed.

Lemma booked_ok_set (email_match phone_match time_match : string -> bool)
  (u : ReservationUpdate.t) (r : Reservation.t) :
  In (ReservationUpdate.status u) reservationStatuses ->
  reservationSchema_validate_update u = true ->
  booked_ok email_match phone_match time_match r ->
  booked_ok email_match phone_match time_match (set_reservation u r).
Proof.
  intros Hstatus Hvalid [Hok Hrest].
  split; [apply reservation_ok_set; assumption|exact Hrest].
Qed.

Lemma SFcompare_Lt_Gt (a b : spec_float) :
  SFcompare a b = Some Lt -> SFcompare b a = Some Gt.
Proof.
  destruct a as [sa|sa| |sa ma ea], b as [sb|sb| |sb mb eb]; simpl;
    try discriminate;
    try (destruct sa; (discriminate || reflexivity));
    try (destruct sb; (discriminate || reflexivity));
    try (destruct sa, sb; (discriminate || reflexivity)).
  destruct sa, sb; try discriminate; try reflexivity;
    rewrite (Z.compare_antisym ea eb);
    destruct (ea ?= eb)%Z; simpl; try discriminate; try reflexivity;
    change (Pcompare mb ma Eq) with (Pos.compare mb ma);
    change (Pcompare ma mb Eq) with (Pos.compare ma mb);
    rewrite (Pos.compare_antisym ma mb);
    destruct (ma ?= mb)%positive; simpl; try discriminate; reflexivity.
Qed.

(** A number above another is not below or equal to it. *)
Lemma ltb_not_leb (x y : float) :
  (x <? y)%float = true -> (y <=? x)%float = false.
Proof.
  rewrite ltb_spec, leb_spec. unfold SFltb, SFleb.
  destruct (SFcompare (Prim2SF x) (Prim2SF y)) as [[| |]|] eqn:H; try discriminate.
  intros _. rewrite (SFcompare_Lt_Gt _ _ H). reflexivity.
Qed.

Section Bookings.

Variable Date_parse : string -> option N.
Variable email_match phone_match time_match : string -> bool.
Variable dateCastMessage : string.
Variable ObjectId : nat -> string.

Let validate := reservationSchema_validate email_match phone_match time_match
                  dateCastMessage.
Let save := Reservation_save email_match phone_match time_match dateCastMessage ObjectId.
Let post := post_reservation Date_parse email_match phone_match time_match
              dateCastMessage ObjectId.
Let ok := booked_ok email_match phone_match time_match.

Lemma Reservation_save_inr (desk desk' : Desk.t) (d : NewReservation.t)
  (doc : Reservation.t) :
  save desk d = inr (doc, desk') ->
  exists date,
    NewReservation.date d = Some date
    /\ validate (Desk.now desk) (reservationSchema_set d) = []
    /\ doc = reservation_document ObjectId desk (reservationSchema_set d) date
    /\ desk' = {| Desk.now := Desk.now desk;
                  Desk.reservations := Desk.reservations desk ++ [doc] |}.
Proof.
  unfold save, Reservation_save, validate.
  destruct (reservationSchema_validate _ _ _ _ _ _) as [|e errors]; [|discriminate].
  simpl. destruct (NewReservation.date d) as [date|]; [|discriminate].
  intros H. injection H as <- <-. exists date. auto.
Qed.

(** What passes the validators is stored within the schema. *)
Lemma validated_booked_ok (desk : Desk.t) (d : NewReservation.t) (date : N) :
  NewReservation.date d = Some date ->
  validate (Desk.now desk) (reservationSchema_set d) = [] ->
  ok (reservation_document ObjectId desk (reservationSchema_set d) date).
Proof.
  unfold validate, reservationSchema_validate. simpl. intros Hdate H.
  rewrite Hdate in H.
  apply app_eq_nil in H. destruct H as [Hname H].
  apply app_eq_nil in H. destruct H as [Hname_length H].
  apply app_eq_nil in H. destruct H as [Hemail H].
  apply app_eq_nil in H. destruct H as [Hemail_match H].
  apply app_eq_nil in H. destruct H as [Hphone H].
  apply app_eq_nil in H. destruct H as [Hphone_match H].
  apply app_eq_nil in H. destruct H as [Hfuture H].
  apply app_eq_nil in H. destruct H as [Htime H].
  apply app_eq_nil in H. destruct H as [Htime_match H].
  apply app_eq_nil in H. destruct H as [Hmin H].
  apply app_eq_nil in H. destruct H as [Hmax Hrequests].
  apply check_nil in Hname, Hname_length, Hemail, Hemail_match, Hphone,
    Hphone_match, Hfuture, Htime, Htime_match, Hmin, Hmax.
  apply truthy_string_true in Hname, Hemail, Hphone, Htime.
  apply Nat.leb_le in Hname_length. apply N.ltb_lt in Hfuture.
  unfold ok, booked_ok, reservation_ok, reservationStatuses. simpl.
  split; [tauto|].
  split; [split; [exact Hname|split; [apply trimmed_trim|exact Hname_length]]|].
  split.
  { split; [exact Hemail|]. split; [apply trimmed_toLowerCase, trimmed_trim|].
    split; [apply toLowerCase_idempotent|].
    exact (matches_or_empty_true _ _ Hemail Hemail_match). }
  split.
  { split; [exact Hphone|]. split; [apply trimmed_trim|].
    exact (matches_or_empty_true _ _ Hphone Hphone_match). }
  split; [split; [exact Htime|exact (matches_or_empty_true _ _ Htime Htime_match)]|].
  split; [split; assumption|]. split; [exact Hfuture|].
  destruct (NewReservation.specialRequests d) as [v|]; simpl in *; [|exact I].
  apply check_nil in Hrequests. apply Nat.leb_le in Hrequests.
  split; [apply trimmed_trim|exact Hrequests].
Qed.

(** A created reservation: the document appended, within the schema. *)
Lemma reservation_created_parts
  (desk desk' : Desk.t) (body : ReqReservation.t) (reply : Reply.t) :
  post desk body = (reply, desk') ->
  Reply.status reply = 201 ->
  exists doc,
    desk' = {| Desk.now := Desk.now desk;
               Desk.reservations := Desk.reservations desk ++ [doc] |}
    /\ ok doc
    /\ Reservation._id doc = ObjectId (List.length (Desk.reservations desk))
    /\ Reservation.createdAt doc = Desk.now desk.
Proof.
  unfold post, post_reservation. intros Hpost H201.
  destruct (_ || _); [injection Hpost as <- <-; discriminate|].
  destruct (not_after _ _); [injection Hpost as <- <-; discriminate|].
  fold save in Hpost.
  destruct (save desk _) as [errors|[doc desk1]] eqn:Hsave;
    [injection Hpost as <- <-; discriminate|].
  injection Hpost as <- <-.
  destruct (Reservation_save_inr _ _ _ _ Hsave) as (instant & Hdate & Hvalid & Hdoc & ->).
  exists doc. split; [reflexivity|].
  rewrite Hdoc. split; [apply validated_booked_ok; assumption|].
  split; reflexivity.
Qed.


(** A request that is not answered with 201 leaves the desk as it
    was. *)
Lemma post_reservation_refused (desk : Desk.t) (body : ReqReservation.t) :
  Reply.status (fst (post desk body)) <> 201 -> snd (post desk body) = desk.
Proof.
  unfold post, post_reservation.
  destruct (_ || _); [reflexivity|].
  destruct (not_after _ _); [reflexivity|].
  destruct (Reservation_save _ _ _ _ _ _ _) as [errors|[doc desk1]]; [reflexivity|].
  simpl. tauto.
Qed.

(** X24.  POST /api/reservations answers 201 or 400, never 500, and
    changes nothing unless it answers 201.  A request without one of
    name, email, phone, date, time and guests (an empty string and
    0 guests count as missing) is answered with 400 "All required fields
    must be provided"; a complete one whose date is not after the present
    with 400 "Reservation date must be in the future"; a complete one
    with a later date and more than 20 guests, or a name of white space
    only, with 400 "Validation error" and the schema's message. *)
Theorem reservation_refused (desk : Desk.t) (body : ReqReservation.t) :
  (Reply.status (fst (post desk body)) = 201
   \/ Reply.status (fst (post desk body)) = 400)
  /\ (Reply.status (fst (post desk body)) <> 201 -> snd (post desk body) = desk)
  /\ (JS.truthy JS.truthy_string (ReqReservation.name body)
      && JS.truthy JS.truthy_string (ReqReservation.email body)
      && JS.truthy JS.truthy_string (ReqReservation.phone body)
      && JS.truthy JS.truthy_string (ReqReservation.date body)
      && JS.truthy JS.truthy_string (ReqReservation.time body)
      && JS.truthy JS.truthy_number (ReqReservation.guests body) = false ->
      post desk body
      = (Reply.Failure 400 "All required fields must be provided", desk))
  /\ (JS.truthy JS.truthy_string (ReqReservation.name body)
      && JS.truthy JS.truthy_string (ReqReservation.email body)
      && JS.truthy JS.truthy_string (ReqReservation.phone body)
      && JS.truthy JS.truthy_string (ReqReservation.date body)
      && JS.truthy JS.truthy_string (ReqReservation.time body)
      && JS.truthy JS.truthy_number (ReqReservation.guests body) = true ->
      forall instant,
        Date_parse (value (ReqReservation.date body)) = Some instant ->
        ((instant <= Desk.now desk)%N ->
         post desk body
         = (Reply.Failure 400 "Reservation date must be in the future", desk))
        /\ ((Desk.now desk < instant)%N ->
            forall guests,
              ReqReservation.guests body = Some guests ->
              ((20 <? guests)%float = true \/ JS.trim (value (ReqReservation.name body)) = "") ->
              exists errors,
                post desk body = (Reply.Invalid errors, desk)
                /\ ((20 <? guests)%float = true -> In "Maximum 20 guests allowed" errors)
                /\ (JS.trim (value (ReqReservation.name body)) = "" ->
                    In "Name is required" errors))).
Proof.
  split.
  { unfold post, post_reservation.
    destruct (_ || _); [right; reflexivity|].
    destruct (not_after _ _); [right; reflexivity|].
    destruct (Reservation_save _ _ _ _ _ _ _) as [errors|[doc desk1]];
      [right|left]; reflexivity. }
  split; [apply post_reservation_refused|].
  split.
  - intros Hmissing. unfold post, post_reservation.
    rewrite <- !negb_andb, Hmissing. reflexivity.
  - intros Hpresent instant Hinstant.
    unfold post, post_reservation.
    rewrite <- !negb_andb, Hpresent. simpl negb. cbv iota.
    rewrite Hinstant. simpl not_after. split.
    + intros Hpast. apply N.leb_le in Hpast. rewrite Hpast. reflexivity.
    + intros Hfuture guests Hguests Hbad.
      assert (Hafter : (instant <=? Desk.now desk)%N = false)
        by (apply N.leb_gt; exact Hfuture).
      rewrite Hafter, Hguests.
      set (d := {| NewReservation.name := _ |}).
      assert (Herrors :
                ((20 <? guests)%float = true ->
                 In "Maximum 20 guests allowed"
                    (validate (Desk.now desk) (reservationSchema_set d)))
                /\ (JS.trim (value (ReqReservation.name body)) = "" ->
                    In "Name is required"
                       (validate (Desk.now desk) (reservationSchema_set d)))).
      { unfold validate, reservationSchema_validate. simpl. split.
        - intros Hmany.
          rewrite (ltb_not_leb _ _ Hmany), check_false, !in_app_iff.
          do 10 right. left. left. reflexivity.
        - intros ->. left. reflexivity. }
      unfold Reservation_save. fold validate.
      destruct (validate (Desk.now desk) (reservationSchema_set d)) as [|e errors] eqn:Hv.
      * exfalso. destruct Hbad as [Hmany|Hblank];
          [exact (proj1 Herrors Hmany)|exact (proj2 Herrors Hblank)].
      * exists (e :: errors). split; [reflexivity|exact Herrors].
Qed.

Variable castObjectId : string -> bool.

Lemma put_reservation_status_store (store : list Reservation.t) (id : string)
  (status : option string) (tableNumber : option float) :
  snd (put_reservation_status castObjectId store id status tableNumber) = store
  \/ exists u,
       In (ReservationUpdate.status u) reservationStatuses
       /\ reservationSchema_validate_update u = true
       /\ snd (put_reservation_status castObjectId store id status tableNumber)
          = snd (update_reservation id u store).
Proof.
  unfold put_reservation_status, Reservation_findByIdAndUpdate.
  destruct (includes reservationStatuses status) eqn:Hincludes; simpl; [|left; reflexivity].
  destruct (castObjectId id); simpl; [|left; reflexivity].
  set (u := {| ReservationUpdate.status := _; ReservationUpdate.tableNumber := _ |}).
  destruct (reservationSchema_validate_update u) eqn:Hvalid; simpl; [|left; reflexivity].
  destruct (update_reservation id u store) as [[r|] store'] eqn:Hupdate;
    [|left; reflexivity].
  right. exists u. split; [|split; [exact Hvalid|rewrite Hupdate; reflexivity]].
  unfold u. simpl. destruct status as [s|]; [|discriminate].
  unfold includes in Hincludes. apply existsb_exists in Hincludes.
  destruct Hincludes as (y & Hy & Heq). apply String.eqb_eq in Heq.
  subst y. exact Hy.
Qed.

Lemma delete_reservation_store (store : list Reservation.t) (id : string) :
  snd (delete_reservation castObjectId store id) = store
  \/ snd (delete_reservation castObjectId store id)
     = snd (update_reservation id
              {| ReservationUpdate.status := "cancelled";
                 ReservationUpdate.tableNumber := None |} store).
Proof.
  unfold delete_reservation, Reservation_findByIdAndUpdate.
  destruct (castObjectId id); simpl; [|left; reflexivity].
  destruct (update_reservation id _ store) as [[r|] store']; [right|left]; reflexivity.
Qed.

(** X25.  At a desk that started with no reservation, every stored
    reservation is as its creation left it but for status and table:
    within the schema for both, with the trimmed name, the lower-case
    email, phone and time that match their expressions, from 1 to 20
    guests and a date after its creation, which is not in the future.
    The ids are those of the documents created, in order: no route
    removes a reservation. *)
Theorem stored_reservations_within_schema (desk : Desk.t) :
  desk_reachable Date_parse email_match phone_match time_match dateCastMessage
    ObjectId castObjectId desk ->
  Forall (fun r => ok r /\ (Reservation.createdAt r <= Desk.now desk)%N)
    (Desk.reservations desk)
  /\ map Reservation._id (Desk.reservations desk)
     = map ObjectId (seq 0 (List.length (Desk.reservations desk))).
Proof.
  intros (desk0 & events & Hempty & <-).
  assert (H0 : Forall (fun r => ok r /\ (Reservation.createdAt r <= Desk.now desk0)%N)
                 (Desk.reservations desk0)
               /\ map Reservation._id (Desk.reservations desk0)
                  = map ObjectId (seq 0 (List.length (Desk.reservations desk0)))).
  { rewrite Hempty. split; [constructor|reflexivity]. }
  clear Hempty. revert desk0 H0.
  induction events as [|e events IH]; intros desk0 H0; [exact H0|].
  simpl. apply IH. clear IH. destruct H0 as [Hall Hids].
  destruct e as [ms|body|id status tableNumber|id]; simpl.
  - split; [|exact Hids]. revert Hall. apply Forall_impl.
    intros r [Hr Hcreated]. split; [exact Hr|lia].
  - fold post.
    destruct (post desk0 body) as [reply desk1] eqn:Hpost. simpl.
    destruct (Nat.eq_dec (Reply.status reply) 201) as [H201|Hnot].
    + destruct (reservation_created_parts _ _ _ _ Hpost H201)
        as (doc & -> & Hdoc & Hid & Hcreated).
      simpl. split.
      * apply Forall_app. split; [exact Hall|].
        constructor; [|constructor]. split; [exact Hdoc|lia].
      * rewrite map_app, length_app, Hids. simpl.
        rewrite Nat.add_1_r, seq_S, map_app, Hid. reflexivity.
    + pose proof (post_reservation_refused desk0 body) as Hsame.
      rewrite Hpost in Hsame. simpl in Hsame. rewrite (Hsame Hnot).
      split; assumption.
  - destruct (put_reservation_status_store (Desk.reservations desk0) id status tableNumber)
      as [->|(u & Hstatus & Hvalid & ->)]; [split; assumption|].
    split.
    + apply update_reservation_Forall; [|exact Hall].
      intros r [Hr Hcreated]. split; [|exact Hcreated].
      apply booked_ok_set; assumption.
    + rewrite update_reservation_ids, Hids.
      apply (f_equal (@List.length string)) in Hids.
      rewrite !length_map in Hids.
      pose proof (update_reservation_ids id u (Desk.reservations desk0)) as Hsame.
      apply (f_equal (@List.length string)) in Hsame.
      rewrite !length_map in Hsame. rewrite Hsame. reflexivity.
  - destruct (delete_reservation_store (Desk.reservations desk0) id) as [->| ->];
      [split; assumption|].
    split.
    + apply update_reservation_Forall; [|exact Hall].
      intros r [Hr Hcreated]. split; [|exact Hcreated].
      apply booked_ok_set; [|reflexivity|exact Hr].
      unfold reservationStatuses. simpl. tauto.
    + rewrite update_reservation_ids, Hids.
      pose proof (update_reservation_ids id
                    {| ReservationUpdate.status := "cancelled";
                       ReservationUpdate.tableNumber := None |}
                    (Desk.reservations desk0)) as Hsame.
      apply (f_equal (@List.length string)) in Hsame.
      rewrite !length_map in Hsame. rewrite Hsame. reflexivity.
Qed.

End Bookings.


Lemma stored_reservations_within_schema_witness :
  Forall (fun r => booked_ok Booking.has_at Booking.ten_to_fifteen Booking.five_long r
                   /\ (Reservation.createdAt r
                       <= Desk.now (fold_left Booking.step Booking.evening Booking.desk))%N)
    (Desk.reservations (fold_left Booking.step Booking.evening Booking.desk))
  /\ List.length (Desk.reservations (fold_left Booking.step Booking.evening Booking.desk))
     = 1.
Proof.
  destruct (stored_reservations_within_schema Booking.Date_parse Booking.has_at
              Booking.ten_to_fifteen Booking.five_long "Cast to date failed"
              Booking.ObjectId Sample.hex24
              (fold_left Booking.step Booking.evening Booking.desk))
    as [Hall _].
  - exists Booking.desk, Booking.evening. split; reflexivity.
  - split; [exact Hall|]. vm_compute. reflexivity.
Defined.

Lemma reservation_refused_witness :
  Booking.post Booking.desk (Booking.request 0)
  = (Reply.Failure 400 "All required fields must be provided", Booking.desk)
  /\ Booking.post Booking.desk (Booking.request_on "2026-09-01" 4)
     = (Reply.Failure 400 "Reservation date must be in the future", Booking.desk)
  /\ exists errors,
       Booking.post Booking.desk (Booking.request 25)
       = (Reply.Invalid errors, Booking.desk)
       /\ In "Maximum 20 guests allowed" errors.
Proof.
  split; [|split].
  - apply (reservation_refused Booking.Date_parse Booking.has_at
             Booking.ten_to_fifteen Booking.five_long "Cast to date failed"
             Booking.ObjectId Booking.desk (Booking.request 0)).
    reflexivity.
  - destruct (reservation_refused Booking.Date_parse Booking.has_at
                Booking.ten_to_fifteen Booking.five_long "Cast to date failed"
                Booking.ObjectId Booking.desk (Booking.request_on "2026-09-01" 4))
      as (_ & _ & _ & Hcomplete).
    destruct (Hcomplete eq_refl 1788220800000%N eq_refl) as [Hpast _].
    apply Hpast. vm_compute. discriminate.
  - destruct (reservation_refused Booking.Date_parse Booking.has_at
                Booking.ten_to_fifteen Booking.five_long "Cast to date failed"
                Booking.ObjectId Booking.desk (Booking.request 25))
      as (_ & _ & _ & Hcomplete).
    destruct (Hcomplete eq_refl 1790812800000%N eq_refl) as [_ Hfuture].
    destruct (Hfuture eq_refl 25%float eq_refl (or_introl eq_refl))
      as (errors & Hpost & Hmany & _).
    exists errors. split; [exact Hpost|]. apply Hmany. reflexivity.
Defined.
